(** * Marketing-analytics computation layer: cleaning, derived metrics,
      KPIs, attribution and trend classification.

    Shallow embedding of [src/data_processing.py], [src/metrics_calculator.py],
    [pages/Attribution_Analysis.py] and [pages/Trends_Insights.py].

    Numbers.  The Python code computes on NumPy [float64] columns.  All
    functions below are written once, over an interface [Num] of the
    arithmetic the source uses, and are read at two instances:
    - [spec_float] at precision 53 and exponent bound 1024 (IEEE 754
      binary64, the standard library's [SpecFloat]), which has rounding,
      overflow, signed zeros, infinities and NaN;
    - [exact], IEEE 754 special values over unbounded rationals, where the
      finite operations neither round nor overflow.
    A missing value of a numeric column is NaN, as in pandas.  Integer
    columns are read as floats (pandas widens them as soon as they are
    divided or averaged).  Sums add from left to right; NumPy groups the
    terms of a long sum differently, which can change the last bit of a
    binary64 sum and nothing else here.

    Tables.  A [DataFrame] is a list of column names and a list of rows; a
    row carries its date and a finite map from column names to numbers.
    Vectorised pandas/NumPy expressions are element-wise, so a column
    assignment is given by a function of the row. *)

From Stdlib Require Import ZArith QArith Qabs Qpower Qcanon Bool List Lia Lqa.
From Stdlib Require Import SpecFloat Ascii.
From Stdlib Require Import Sorting.Permutation Sorting.Sorted.
From stdpp Require Import gmap strings.

(* ================================================================== *)
(** * Numbers                                                          *)
(* ================================================================== *)

Declare Scope num_scope.
Delimit Scope num_scope with num.

(** The arithmetic the source relies on.  [nltb] and [nleb] are the IEEE
    comparisons: they answer [false] as soon as one side is NaN. *)
Class Num (A : Type) : Type := {
  of_Z : Z → A;
  nan : A;
  nadd : A → A → A;
  nsub : A → A → A;
  nmul : A → A → A;
  ndiv : A → A → A;
  nabs : A → A;
  nltb : A → A → bool;
  nleb : A → A → bool;
  isnan : A → bool;
  isinf : A → bool
}.

(** [np.sqrt], used by [Series.std]. *)
Class Sqrt (A : Type) : Type := nsqrt : A → A.

Notation "x + y" := (nadd x y) : num_scope.
Notation "x - y" := (nsub x y) : num_scope.
Notation "x * y" := (nmul x y) : num_scope.
Notation "x / y" := (ndiv x y) : num_scope.
Notation "x <? y" := (nltb x y) : num_scope.
Notation "x <=? y" := (nleb x y) : num_scope.
Notation "x >? y" := (nltb y x) : num_scope.
Notation "x >=? y" := (nleb y x) : num_scope.
Notation "# z" := (of_Z z%Z) (at level 1, format "# z") : num_scope.

(** ** IEEE 754 binary64 *)

Module F64.
Definition prec : Z := 53.
Definition emax : Z := 1024.

Definition of_Z (z : Z) : spec_float := binary_normalize prec emax z 0 false.

Definition is_nan (x : spec_float) : bool :=
  match x with S754_nan => true | _ => false end.

Definition is_inf (x : spec_float) : bool :=
  match x with S754_infinity _ => true | _ => false end.

Definition is_zero (x : spec_float) : bool :=
  match x with S754_zero _ => true | _ => false end.

Definition is_finite (x : spec_float) : bool :=
  match x with S754_zero _ | S754_finite _ _ _ => true | _ => false end.
End F64.

#[export] Instance f64_num : Num spec_float := {|
  of_Z := F64.of_Z;
  nan := S754_nan;
  nadd := SFadd F64.prec F64.emax;
  nsub := SFsub F64.prec F64.emax;
  nmul := SFmul F64.prec F64.emax;
  ndiv := SFdiv F64.prec F64.emax;
  nabs := SFabs;
  nltb := SFltb;
  nleb := SFleb;
  isnan := F64.is_nan;
  isinf := F64.is_inf
|}.

#[export] Instance f64_sqrt : Sqrt spec_float := SFsqrt F64.prec F64.emax.

(** ** Exact arithmetic with the IEEE special values *)

Inductive exact : Type :=
  | XFin (q : Qc)
  | XInf (neg : bool)
  | XNaN.

Module Exact.
Definition is_neg (q : Qc) : bool :=
  match (q ?= 0)%Qc with Lt => true | _ => false end.

Definition is_zero (q : Qc) : bool :=
  match (q ?= 0)%Qc with Eq => true | _ => false end.

Definition opp (x : exact) : exact :=
  match x with
  | XFin q => XFin (- q)%Qc
  | XInf s => XInf (negb s)
  | XNaN => XNaN
  end.

Definition add (x y : exact) : exact :=
  match x, y with
  | XNaN, _ | _, XNaN => XNaN
  | XInf s, XInf s' => if eqb s s' then XInf s else XNaN
  | XInf s, XFin _ | XFin _, XInf s => XInf s
  | XFin p, XFin q => XFin (p + q)%Qc
  end.

Definition sub (x y : exact) : exact := add x (opp y).

Definition mul (x y : exact) : exact :=
  match x, y with
  | XNaN, _ | _, XNaN => XNaN
  | XInf s, XInf s' => XInf (xorb s s')
  | XInf s, XFin q | XFin q, XInf s =>
      if is_zero q then XNaN else XInf (xorb s (is_neg q))
  | XFin p, XFin q => XFin (p * q)%Qc
  end.

Definition div (x y : exact) : exact :=
  match x, y with
  | XNaN, _ | _, XNaN => XNaN
  | XInf _, XInf _ => XNaN
  | XInf s, XFin q => XInf (xorb s (is_neg q))
  | XFin _, XInf _ => XFin 0%Qc
  | XFin p, XFin q =>
      if is_zero q
      then (if is_zero p then XNaN else XInf (is_neg p))
      else XFin (p / q)%Qc
  end.

Definition abs (x : exact) : exact :=
  match x with
  | XFin q => XFin (if is_neg q then - q else q)%Qc
  | XInf _ => XInf false
  | XNaN => XNaN
  end.

Definition compare (x y : exact) : option comparison :=
  match x, y with
  | XNaN, _ | _, XNaN => None
  | XInf s, XInf s' =>
      Some (match s, s' with
            | true, false => Lt
            | false, true => Gt
            | _, _ => Eq
            end)
  | XInf s, XFin _ => Some (if s then Lt else Gt)
  | XFin _, XInf s => Some (if s then Gt else Lt)
  | XFin p, XFin q => Some (p ?= q)%Qc
  end.

Definition ltb (x y : exact) : bool :=
  match compare x y with Some Lt => true | _ => false end.

Definition leb (x y : exact) : bool :=
  match compare x y with Some (Lt | Eq) => true | _ => false end.

Definition is_nan (x : exact) : bool :=
  match x with XNaN => true | _ => false end.

Definition is_inf (x : exact) : bool :=
  match x with XInf _ => true | _ => false end.

Definition of_Z (z : Z) : exact := XFin (Q2Qc (inject_Z z)).
End Exact.

#[export] Instance exact_num : Num exact := {|
  of_Z := Exact.of_Z;
  nan := XNaN;
  nadd := Exact.add;
  nsub := Exact.sub;
  nmul := Exact.mul;
  ndiv := Exact.div;
  nabs := Exact.abs;
  nltb := Exact.ltb;
  nleb := Exact.leb;
  isnan := Exact.is_nan;
  isinf := Exact.is_inf
|}.

(* ================================================================== *)
(** * Series                                                           *)
(* ================================================================== *)

Section Series.
Context {A : Type} `{!Num A}.
Local Open Scope num_scope.

Definition of_nat (n : nat) : A := of_Z (Z.of_nat n).

(** [ndarray.sum()] and [np.mean]: NaN propagates. *)
Definition np_sum (xs : list A) : A := fold_left nadd xs #0.

Definition np_mean (xs : list A) : A := np_sum xs / of_nat (length xs).

(** [Series.fillna(0)], element-wise. *)
Definition fillna0 (x : A) : A := if isnan x then #0 else x.

(** Number of values of a series that are not missing. *)
Definition series_count (xs : list A) : nat :=
  length (List.filter (λ x, negb (isnan x)) xs).

(** [Series.sum()], [skipna=True]: missing values count as 0; the sum
    of an empty series is 0. *)
Definition series_sum (xs : list A) : A := np_sum (map fillna0 xs).

(** [Series.mean()], [skipna=True]: NaN when nothing is left. *)
Definition series_mean (xs : list A) : A :=
  let n := series_count xs in
  if (0 <? n)%nat then series_sum xs / of_nat n else nan.

(** [Series.std()]: pandas' default [ddof=1] (sample estimator), two
    passes, NaN when at most [ddof] values are present. *)
Definition series_std `{!Sqrt A} (xs : list A) : A :=
  let n := series_count xs in
  if (n <=? 1)%nat then nan
  else
    let avg := series_sum xs / of_nat n in
    let sqr := map (λ x, if isnan x then #0 else (avg - x) * (avg - x)) xs in
    nsqrt (np_sum sqr / of_nat (n - 1)).

(** [Series.clip(lower=0)]: a missing value stays missing. *)
Definition clip0 (x : A) : A :=
  if isnan x then x else if #0 <=? x then x else #0.

(** [np.where(den > 0, num / den, 0)], element-wise. *)
Definition ratio_where (num den : A) : A :=
  if den >? #0 then num / den else #0.

(** [(num / den).replace([np.inf, -np.inf], 0)], element-wise. *)
Definition ratio_replace_inf (num den : A) : A :=
  let q := num / den in if isinf q then #0 else q.
End Series.

(* ================================================================== *)
(** * Tables                                                           *)
(* ================================================================== *)

(** Outcome of a computation that may raise [KeyError] on a column. *)
Inductive result (T : Type) : Type :=
  | Ok (x : T)
  | KeyError (c : string).
Arguments Ok {T} x.
Arguments KeyError {T} c.

#[export] Instance result_ret : MRet result := λ T x, Ok x.
#[export] Instance result_bind : MBind result := λ T U f m,
  match m with Ok x => f x | KeyError c => KeyError c end.

Section Tables.
Context {A : Type} `{!Num A}.
Local Open Scope num_scope.

Record Row : Type := mkRow { date : Z; cells : gmap string A }.

Record DataFrame : Type := mkDF { columns : list string; rows : list Row }.

(** The value of column [c] in row [r]; a cell that was never given
    is missing. *)
Definition cell (r : Row) (c : string) : A := default nan (cells r !! c).

(** [c in df.columns] *)
Definition has_col (df : DataFrame) (c : string) : bool :=
  bool_decide (c ∈ columns df).

(** [df[c]] as a list of values; [KeyError] when the column is absent. *)
Definition col (df : DataFrame) (c : string) : result (list A) :=
  if has_col df c then Ok (map (λ r, cell r c) (rows df)) else KeyError c.

(** [len(df)] *)
Definition len (df : DataFrame) : nat := length (rows df).

Definition set_cell (c : string) (v : A) (r : Row) : Row :=
  mkRow (date r) (<[c := v]> (cells r)).

Definition add_column (df : DataFrame) (c : string) : list string :=
  if has_col df c then columns df else columns df ++ [c].

(** [df[c] = f(df)] for an element-wise [f]. *)
Definition assign (df : DataFrame) (c : string) (f : Row → A) : DataFrame :=
  mkDF (add_column df c) (map (λ r, set_cell c (f r) r) (rows df)).

(** [df[c] = values] for a series aligned with the rows. *)
Definition assign_series (df : DataFrame) (c : string) (vs : list A)
  : DataFrame :=
  mkDF (add_column df c) (zip_with (λ r v, set_cell c v r) (rows df) vs).

(** [df[mask]] for an element-wise mask: a new table. *)
Definition select (df : DataFrame) (keep : Row → bool) : DataFrame :=
  mkDF (columns df) (List.filter keep (rows df)).
End Tables.

Arguments Row A : clear implicits.
Arguments DataFrame A : clear implicits.

(* ================================================================== *)
(** * Validator / cleaner ([src/data_processing.py])                   *)
(* ================================================================== *)

Section Cleaning.
Context {A : Type} `{!Num A} `{!Sqrt A}.
Local Open Scope num_scope.

(** ** The steps that write into the table [df] refers to *)

(** [df[numeric_columns] = df[numeric_columns].fillna(0)] *)
Definition fill_missing (df : DataFrame A) : DataFrame A :=
  fold_left (λ d c, assign d c (λ r, fillna0 (cell r c))) (columns df) df.

Definition financial_columns : list string :=
  [ "total_revenue"; "gross_profit"; "COGS"; "spend";
    "facebook_spend"; "google_spend"; "tiktok_spend";
    "attributed_revenue"; "facebook_attributed revenue";
    "google_attributed revenue"; "tiktok_attributed revenue" ]%string.

(** [for col in financial_columns: if col in df.columns:
       df[col] = df[col].clip(lower=0)] *)
Definition clip_financials (df : DataFrame A) : DataFrame A :=
  fold_left
    (λ d c, if has_col d c then assign d c (λ r, clip0 (cell r c)) else d)
    financial_columns df.

(** [df['calculated_marketing_roas'] =
       np.where(df['spend'] > 0, df['attributed_revenue'] / df['spend'], 0)].
    Both columns are read without a presence test: [roas_columns] is
    the [KeyError] of the first one that is absent. *)
Definition roas_columns (df : DataFrame A) : result unit :=
  if has_col df "spend" then
    if has_col df "attributed_revenue" then Ok ()
    else KeyError "attributed_revenue"
  else KeyError "spend".

Definition add_calculated_roas (df : DataFrame A) : DataFrame A :=
  assign df "calculated_marketing_roas"
    (λ r, ratio_where (cell r "attributed_revenue") (cell r "spend")).

(** ** Outlier removal *)

Definition outlier_columns : list string :=
  [ "marketing_roas"; "total_revenue"; "orders" ]%string.

(** The rows that [abs(df[col] - mean_val) <= 3 * std_val] keeps. *)
Definition within_3_std (c : string) (mean_val std_val : A) (r : Row A)
  : bool :=
  nabs (cell r c - mean_val) <=? #3 * std_val.

(** One turn of the loop body, on the table [df] currently refers to. *)
Definition drop_outliers (df : DataFrame A) (c : string) : DataFrame A :=
  let xs := map (λ r, cell r c) (rows df) in
  let mean_val := series_mean xs in
  let std_val := series_std xs in
  select df (within_3_std c mean_val std_val).

(** ** The function, with the object the caller passed

    The Python name [df] first refers to the caller's table; the column
    assignments write into that object.  [df = df[mask]] makes [df]
    refer to a new table and leaves the caller's object alone.
    [passed] is the caller's object; [rebound] is the new object, once
    there is one. *)
Record binding : Type := mkBinding {
  passed : DataFrame A;
  rebound : option (DataFrame A)
}.

(** The table [df] refers to. *)
Definition referent (b : binding) : DataFrame A :=
  default (passed b) (rebound b).

(** [df[...] = ...]: write into the table [df] refers to. *)
Definition write (f : DataFrame A → DataFrame A) (b : binding) : binding :=
  match rebound b with
  | None => mkBinding (f (passed b)) None
  | Some d => mkBinding (passed b) (Some (f d))
  end.

(** [df = g(df)] with [g] building a new table. *)
Definition rebind (g : DataFrame A → DataFrame A) (b : binding) : binding :=
  mkBinding (passed b) (Some (g (referent b))).

(** [for col in ['marketing_roas', 'total_revenue', 'orders']:
       if col in df.columns: ...; df = df[...]] *)
Definition remove_outliers (b : binding) : binding :=
  fold_left
    (λ b c, if has_col (referent b) c
            then rebind (λ d, drop_outliers d c) b
            else b)
    outlier_columns b.

(** [validate_and_clean_data(df)]: the outcome ([Ok] or the [KeyError]
    raised) and the binding at that point.  The logging calls and the
    advisory comparison of the stored and computed ROAS change no
    table and are left out. *)
Definition validate_and_clean_data (df : DataFrame A)
  : result unit * binding :=
  let b := mkBinding df None in
  let b := write fill_missing b in
  let b := write clip_financials b in
  match roas_columns (referent b) with
  | KeyError c => (KeyError c, b)
  | Ok _ => (Ok (), remove_outliers (write add_calculated_roas b))
  end.

(** The table the function returns, when it returns. *)
Definition returned (o : result unit * binding) : result (DataFrame A) :=
  match fst o with
  | Ok _ => Ok (referent (snd o))
  | KeyError c => KeyError c
  end.

(** The caller's table once the call is over. *)
Definition caller_view (o : result unit * binding) : DataFrame A :=
  passed (snd o).

(** ** The computation as functions of the table

    The three writes composed, and the loop on the table [df] refers
    to; the facts below relate them to [validate_and_clean_data]. *)
Definition prepared (df : DataFrame A) : DataFrame A :=
  add_calculated_roas (clip_financials (fill_missing df)).

Definition outlier_step (df : DataFrame A) (c : string) : DataFrame A :=
  if has_col df c then drop_outliers df c else df.

Definition outlier_pass (df : DataFrame A) : DataFrame A :=
  fold_left outlier_step outlier_columns df.

(** ** The outlier filter in the words of the specification

    "compute mean and population standard deviation over the current
    table, then drop rows where abs(value - mean) > 3 * stddev". *)
Definition population_std (xs : list A) : A :=
  let n := series_count xs in
  let avg := series_sum xs / of_nat n in
  let sqr := map (λ x, if isnan x then #0 else (avg - x) * (avg - x)) xs in
  nsqrt (np_sum sqr / of_nat n).

Definition spec_outlier_step (df : DataFrame A) (c : string) : DataFrame A :=
  if has_col df c then
    let xs := map (λ r, cell r c) (rows df) in
    let mean_val := series_mean xs in
    let std_val := population_std xs in
    select df (λ r, negb (nabs (cell r c - mean_val) >? #3 * std_val))
  else df.

Definition spec_outlier_pass (df : DataFrame A) : DataFrame A :=
  fold_left spec_outlier_step outlier_columns df.
End Cleaning.

(* ================================================================== *)
(** * Date order                                                       *)
(* ================================================================== *)

Definition date_le {A : Type} (r1 r2 : Row A) : Prop := (date r1 <= date r2)%Z.

(** A stable insertion sort by date: one function that orders rows the
    way [df.sort_values('date')] must. *)
Fixpoint insert_by_date {A : Type} (r : Row A) (l : list (Row A))
  : list (Row A) :=
  match l with
  | [] => [r]
  | r' :: l' =>
      if (date r <=? date r')%Z then r :: l else r' :: insert_by_date r l'
  end.

Definition sort_by_date {A : Type} (l : list (Row A)) : list (Row A) :=
  fold_right insert_by_date [] l.

(** [series.rolling(window=w, min_periods=1).mean()]: at each position
    the mean of the values present among the last [w]. *)
Definition rolling_mean {A : Type} `{!Num A} (w : nat) (xs : list A) : list A :=
  imap (λ i _, series_mean (drop (S i - w) (take (S i) xs))) xs.

Definition platforms : list string := [ "facebook"; "google"; "tiktok" ]%string.

(* ================================================================== *)
(** * Derived metrics, KPIs and attribution                            *)
(* ================================================================== *)

Section Metrics.
Context {A : Type} `{!Num A}.
Local Open Scope string_scope.
Local Open Scope num_scope.

(** [df.sort_values('date')] on the rows.  pandas fixes the result only
    up to the order of rows that share a date, so the sort is a
    parameter; the facts proved below assume of it only that it returns
    the same rows in date order. *)
Variable sort_values : list (Row A) → list (Row A).

Definition sort_by (df : DataFrame A) : DataFrame A :=
  mkDF (columns df) (sort_values (rows df)).

(** [df[out] = np.where(df[den] > 0, df[num] / df[den], 0)] *)
Definition add_ratio_where (out num den : string) (df : DataFrame A)
  : result (DataFrame A) :=
  _ ← col df den; _ ← col df num;
  Ok (assign df out (λ r, ratio_where (cell r num) (cell r den))).

(** The same assignment inside [if den in df.columns and num in df.columns]. *)
Definition add_ratio_if_present (out num den : string) (df : DataFrame A)
  : DataFrame A :=
  if has_col df den && has_col df num
  then assign df out (λ r, ratio_where (cell r num) (cell r den))
  else df.

(** [df[out] = df[src].rolling(window=7, min_periods=1).mean()] *)
Definition add_rolling_mean (out src : string) (df : DataFrame A)
  : result (DataFrame A) :=
  xs ← col df src; Ok (assign_series df out (rolling_mean 7 xs)).

(** ** [calculate_derived_metrics] ([src/data_processing.py])

    The three calendar columns (day name, ISO week, month) are not
    numeric and depend on the date alone; they are left out. *)
Definition calculate_derived_metrics (df : DataFrame A)
  : result (DataFrame A) :=
  df ← add_ratio_where "cac" "spend" "new customers" df;
  df ← add_ratio_where "aov" "total_revenue" "orders" df;
  df ← add_ratio_where "ctr" "clicks" "impression" df;
  df ← add_ratio_where "cpc" "spend" "clicks" df;
  df ← add_ratio_where "conversion_rate" "orders" "clicks" df;
  let df := fold_left (λ d p, add_ratio_if_present
                (p ++ "_ctr") (p ++ "_clicks") (p ++ "_impression") d)
              platforms df in
  let df := fold_left (λ d p, add_ratio_if_present
                (p ++ "_cpc") (p ++ "_spend") (p ++ "_clicks") d)
              platforms df in
  let df := fold_left (λ d p, add_ratio_if_present
                (p ++ "_roas") (p ++ "_attributed revenue") (p ++ "_spend") d)
              platforms df in
  df ← add_ratio_where "revenue_per_impression" "total_revenue" "impression" df;
  let df := sort_by df in
  df ← add_rolling_mean "revenue_7d_ma" "total_revenue" df;
  df ← add_rolling_mean "roas_7d_ma" "marketing_roas" df;
  add_rolling_mean "orders_7d_ma" "orders" df.

(** ** [calculate_daily_performance_metrics] ([src/metrics_calculator.py]) *)

(** ['total_revenue' if 'total_revenue' in df.columns else 'total revenue'] *)
Definition revenue_col (df : DataFrame A) : string :=
  if has_col df "total_revenue" then "total_revenue" else "total revenue".

(** ['orders' if 'orders' in df.columns else '# of orders'] *)
Definition orders_col (df : DataFrame A) : string :=
  if has_col df "orders" then "orders" else "# of orders".

(** [df[out] = df[num] / df[den]] followed by
    [df[out] = df[out].replace([np.inf, -np.inf], 0)] *)
Definition add_ratio_replace_inf (out num den : string) (df : DataFrame A)
  : result (DataFrame A) :=
  _ ← col df num; _ ← col df den;
  Ok (assign df out (λ r, ratio_replace_inf (cell r num) (cell r den))).

(** The function works on [df.copy()]: the result is a new table. *)
Definition calculate_daily_performance_metrics (df : DataFrame A)
  : result (DataFrame A) :=
  let revenue := revenue_col df in
  let orders := orders_col df in
  df ← add_ratio_replace_inf "daily_roas" "attributed revenue" "spend" df;
  df ← add_ratio_replace_inf "daily_aov" revenue orders df;
  df ← add_ratio_replace_inf "daily_cac" "spend" "new customers" df;
  df ← add_ratio_replace_inf "daily_conversion_rate" orders "clicks" df;
  df ← add_ratio_replace_inf "daily_ctr" "clicks" "impression" df;
  let df := sort_by df in
  df ← add_rolling_mean "revenue_7d_ma" revenue df;
  df ← add_rolling_mean "roas_7d_ma" "marketing_roas" df;
  add_rolling_mean "spend_7d_ma" "spend" df.

(** ** [calculate_kpis] ([src/metrics_calculator.py]) *)

Record KPIs : Type := mkKPIs {
  kpi_total_revenue : A;
  kpi_total_orders : A;
  kpi_total_spend : A;
  kpi_total_new_customers : A;
  kpi_avg_aov : A;
  kpi_avg_roas : A;
  kpi_avg_profit_margin : A;
  kpi_attribution_rate : A;
  kpi_total_attributed_revenue : A;
  kpi_revenue_growth : A;
  kpi_order_growth : A;
  kpi_roas_trend : A;
  kpi_margin_trend : A;
  kpi_cac : A;
  kpi_ltv_cac_ratio : A
}.

(** [df[c].sum()] and [df[c].mean()] *)
Definition col_sum (df : DataFrame A) (c : string) : result A :=
  xs ← col df c; Ok (series_sum xs).

Definition col_mean (df : DataFrame A) (c : string) : result A :=
  xs ← col df c; Ok (series_mean xs).

(** [((second - first) / first * 100) if first > 0 else 0] *)
Definition growth (first second : A) : A :=
  if first >? #0 then (second - first) / first * #100 else #0.

(** [mid_point = len(df_sorted) // 2] *)
Definition mid_point (df : DataFrame A) : nat := len df / 2.

(** [df_sorted.iloc[:mid_point]] and [df_sorted.iloc[mid_point:]] *)
Definition first_half (df : DataFrame A) : DataFrame A :=
  let df_sorted := sort_by df in
  mkDF (columns df) (take (mid_point df_sorted) (rows df_sorted)).

Definition second_half (df : DataFrame A) : DataFrame A :=
  let df_sorted := sort_by df in
  mkDF (columns df) (drop (mid_point df_sorted) (rows df_sorted)).

Definition calculate_kpis (df : DataFrame A) : result KPIs :=
  let revenue := revenue_col df in
  let orders := orders_col df in
  total_revenue ← col_sum df revenue;
  total_orders ← col_sum df orders;
  total_spend ← col_sum df "spend";
  let first := first_half df in
  let second := second_half df in
  first_half_revenue ← col_sum first revenue;
  second_half_revenue ← col_sum second revenue;
  let revenue_growth := growth first_half_revenue second_half_revenue in
  first_half_orders ← col_sum first orders;
  second_half_orders ← col_sum second orders;
  let order_growth := growth first_half_orders second_half_orders in
  avg_roas ← col_mean df "marketing_roas";
  first_half_roas ← col_mean first "marketing_roas";
  second_half_roas ← col_mean second "marketing_roas";
  let roas_trend := second_half_roas - first_half_roas in
  avg_profit_margin ← col_mean df "profit_margin";
  first_half_margin ← col_mean first "profit_margin";
  second_half_margin ← col_mean second "profit_margin";
  let margin_trend := second_half_margin - first_half_margin in
  total_new_customers ← col_sum df "new customers";
  let avg_aov :=
    if total_orders >? #0 then total_revenue / total_orders else #0 in
  total_attributed_revenue ← col_sum df "attributed revenue";
  attribution_rate ← col_mean df "attribution_rate";
  Ok {| kpi_total_revenue := total_revenue;
        kpi_total_orders := total_orders;
        kpi_total_spend := total_spend;
        kpi_total_new_customers := total_new_customers;
        kpi_avg_aov := avg_aov;
        kpi_avg_roas := avg_roas;
        kpi_avg_profit_margin := avg_profit_margin;
        kpi_attribution_rate := attribution_rate;
        kpi_total_attributed_revenue := total_attributed_revenue;
        kpi_revenue_growth := revenue_growth;
        kpi_order_growth := order_growth;
        kpi_roas_trend := roas_trend;
        kpi_margin_trend := margin_trend;
        kpi_cac :=
          if total_new_customers >? #0
          then total_spend / total_new_customers else #0;
        kpi_ltv_cac_ratio :=
          if total_new_customers >? #0
          then (avg_aov * #3) / (total_spend / total_new_customers)
          else #0 |}.
End Metrics.

(* ================================================================== *)
(** * Attribution models                                               *)
(* ================================================================== *)

Section Attribution.
Context {A : Type} `{!Num A}.
Local Open Scope string_scope.
Local Open Scope num_scope.

Variable sort_values : list (Row A) → list (Row A).

(** [np.exp], a library function the embedding does not define. *)
Variable np_exp : A → A.

(** ** [calculate_attribution_model] ([src/metrics_calculator.py])

    Every column is read with [df[...]], without a presence test. *)
Record attribution_models : Type := mkModels {
  last_click : gmap string A;
  spend_based : gmap string A;
  linear : gmap string A
}.

Definition by_platform (f g t : A) : gmap string A :=
  {[ "facebook" := f; "google" := g; "tiktok" := t ]}.

Definition calculate_attribution_model (df : DataFrame A)
  : result attribution_models :=
  let revenue := revenue_col df in
  last_click_facebook ← col_sum df "facebook_attributed revenue";
  last_click_google ← col_sum df "google_attributed revenue";
  last_click_tiktok ← col_sum df "tiktok_attributed revenue";
  total_facebook_spend ← col_sum df "facebook_spend";
  total_google_spend ← col_sum df "google_spend";
  total_tiktok_spend ← col_sum df "tiktok_spend";
  let total_spend :=
    total_facebook_spend + total_google_spend + total_tiktok_spend in
  total_revenue ← col_sum df revenue;
  let share spend :=
    if total_spend >? #0 then (spend / total_spend) * total_revenue else #0 in
  Ok {| last_click :=
          by_platform last_click_facebook last_click_google last_click_tiktok;
        spend_based :=
          by_platform (share total_facebook_spend) (share total_google_spend)
                      (share total_tiktok_spend);
        linear :=
          by_platform (total_revenue / #3) (total_revenue / #3)
                      (total_revenue / #3) |}.

(** ** [calculate_attribution_models_smart]
       ([pages/Attribution_Analysis.py]) *)

(** [platform.title()] on the three platform names. *)
Definition title (platform : string) : string :=
  match platform with
  | String c rest =>
      String (if (97 <=? nat_of_ascii c)%nat && (nat_of_ascii c <=? 122)%nat
              then ascii_of_nat (nat_of_ascii c - 32) else c) rest
  | EmptyString => EmptyString
  end.

(** [np.linspace(-2, 0, n)]: the points [i * step + start], the last
    one set to the end point; with a single point NumPy has no step
    and returns the start. *)
Definition np_linspace_m2_0 (n : nat) : list A :=
  let start := #(-2) in
  let stop := #0 in
  let delta := stop - start in
  let div := (n - 1)%nat in
  map (λ i, if (0 <? div)%nat
            then (if (i =? n - 1)%nat then stop
                  else of_nat i * (delta / of_nat div) + start)
            else of_nat i * delta + start)
      (seq 0 n).

(** [np.exp(np.linspace(-2, 0, len(df_sorted)))] *)
Definition decay_weights (n : nat) : list A := map np_exp (np_linspace_m2_0 n).

(** [column_mapping.get(key)] followed by the test
    [c and c in df.columns]: the column, when it is mapped, non-empty
    and present. *)
Definition mapped_column (df : DataFrame A) (column_mapping : gmap string string)
    (key : string) : option string :=
  match column_mapping !! key with
  | Some c => if negb (String.eqb c "") && has_col df c then Some c else None
  | None => None
  end.

Definition column_values (df : DataFrame A) (c : string) : list A :=
  map (λ r, cell r c) (rows df).

(** [(df_sorted[attr_col] * weights).sum()] *)
Definition weighted_revenue (df : DataFrame A) (attr_col : string) : A :=
  let df_sorted := sort_by sort_values df in
  series_sum (zip_with nmul (column_values df_sorted attr_col)
                            (decay_weights (len df_sorted))).

Record smart_models : Type := mkSmart {
  smart_last_click : gmap string A;
  smart_spend_based : gmap string A;
  smart_time_decay : gmap string A;
  smart_linear : gmap string A
}.

(** The first loop: [(last_click, time_decay, total_spend)] after the
    platforms seen so far. *)
Definition first_loop_step (df : DataFrame A) (column_mapping : gmap string string)
    (st : gmap string A * gmap string A * A) (platform : string)
  : gmap string A * gmap string A * A :=
  let '(last_click, time_decay, total_spend) := st in
  let platform_title := title platform in
  let '(last_click, time_decay) :=
    match mapped_column df column_mapping (platform ++ "_attributed_revenue") with
    | Some attr_col =>
        (<[platform_title := series_sum (column_values df attr_col)]> last_click,
         <[platform_title := weighted_revenue df attr_col]> time_decay)
    | None =>
        (<[platform_title := #0]> last_click,
         <[platform_title := #0]> time_decay)
    end in
  let total_spend :=
    match mapped_column df column_mapping (platform ++ "_spend") with
    | Some spend_col => total_spend + series_sum (column_values df spend_col)
    | None => total_spend
    end in
  (last_click, time_decay, total_spend).

(** The second loop: the spend-based shares. *)
Definition second_loop_step (df : DataFrame A) (column_mapping : gmap string string)
    (total_spend total_revenue : A)
    (spend_based : gmap string A) (platform : string) : gmap string A :=
  let platform_title := title platform in
  match mapped_column df column_mapping (platform ++ "_spend") with
  | Some spend_col =>
      if total_spend >? #0
      then <[platform_title :=
               (series_sum (column_values df spend_col) / total_spend)
               * total_revenue]> spend_based
      else <[platform_title := #0]> spend_based
  | None => <[platform_title := #0]> spend_based
  end.

(** [None] is the function's early [return None] (after [st.error]). *)
Definition calculate_attribution_models_smart
    (df : DataFrame A) (column_mapping : gmap string string)
  : result (option smart_models) :=
  match column_mapping !! "total_revenue" with
  | None => Ok None
  | Some revenue =>
      total_revenue ← col_sum df revenue;
      let '(last_click, time_decay, total_spend) :=
        fold_left (first_loop_step df column_mapping) platforms (∅, ∅, #0) in
      let spend_based :=
        fold_left (second_loop_step df column_mapping total_spend total_revenue)
                  platforms ∅ in
      let linear : gmap string A :=
        {[ "Facebook" := total_revenue / #3;
           "Google" := total_revenue / #3;
           "TikTok" := total_revenue / #3 ]} in
      Ok (Some {| smart_last_click := last_click;
                  smart_spend_based := spend_based;
                  smart_time_decay := time_decay;
                  smart_linear := linear |})
  end.
End Attribution.

(* ================================================================== *)
(** * Trend direction ([pages/Trends_Insights.py])                     *)
(* ================================================================== *)

(** What a block of Python does: return a value or raise. *)
Inductive outcome (T : Type) : Type :=
  | Returns (x : T)
  | Raises.
Arguments Returns {T} x.
Arguments Raises {T}.

(** [try: body  except: return handler] *)
Definition try_except {T : Type} (body : outcome T) (handler : T) : outcome T :=
  match body with
  | Returns x => Returns x
  | Raises => Returns handler
  end.

Section Trend.
Context {A : Type} `{!Num A}.
Local Open Scope string_scope.
Local Open Scope num_scope.

(** Whether [sklearn] could be imported. *)
Variable SKLEARN_AVAILABLE : bool.

(** [LinearRegression().fit(x, y).coef_[0]] for [x] the row indices:
    the fitted coefficient, or [None] when the library raises. *)
Variable regression_coef : list A → option A.

(** The literal [0.01]: the nearest number to 1/100. *)
Definition one_percent : A := #1 / #100.

(** The [if]/[elif]/[else] both branches end with. *)
Definition classify (slope : A) (y : list A) : string * A :=
  if nabs slope <? one_percent * np_mean y then ("stable", slope)
  else if slope >? #0 then ("increasing", slope)
  else ("decreasing", slope).

(** [(y[-1] - y[0]) / len(y)]; [y] has at least two elements here. *)
Definition endpoint_slope (y : list A) : A :=
  (List.last y nan - hd nan y) / of_nat (length y).

Definition calculate_trend_direction (series : list A) : outcome (string * A) :=
  if (length series <? 2)%nat then Returns ("stable", #0)
  else
    let y := series in
    try_except
      (if SKLEARN_AVAILABLE then
         match regression_coef y with
         | Some slope => Returns (classify slope y)
         | None => Raises
         end
       else Returns (classify (endpoint_slope y) y))
      ("stable", #0).
End Trend.

(** A least-squares fit of [y] against the row index, for running
    [calculate_trend_direction]: the slope
    [sum((x - mean x) * (y - mean y)) / sum((x - mean x)^2)], and no
    result (the library rejects its input) when a value of [y] is NaN or
    infinite. *)
Definition ols_slope {A : Type} `{!Num A} (y : list A) : option A :=
  if forallb (λ v, negb (isnan v || isinf v)) y then
    let x := map of_nat (seq 0 (length y)) in
    let dx := map (λ v, nsub v (np_mean x)) x in
    let dy := map (λ v, nsub v (np_mean y)) y in
    Some (ndiv (np_sum (zip_with nmul dx dy)) (np_sum (zip_with nmul dx dx)))
  else None.

(* ================================================================== *)
(** * Column discovery ([pages/Attribution_Analysis.py])               *)
(* ================================================================== *)

Section ColumnFinder.
Local Open Scope string_scope.

Definition lower_ascii (c : ascii) : ascii :=
  let n := nat_of_ascii c in
  if (65 <=? n)%nat && (n <=? 90)%nat then ascii_of_nat (n + 32) else c.

(** [s.lower()] on ASCII text *)
Fixpoint lower (s : string) : string :=
  match s with
  | EmptyString => EmptyString
  | String c rest => String (lower_ascii c) (lower rest)
  end.

(** [needle in s] *)
Fixpoint contains (needle s : string) : bool :=
  String.prefix needle s ||
  match s with
  | EmptyString => false
  | String _ rest => contains needle rest
  end.

(** [for col in df.columns: if test(col): mapping[key] = col; break] *)
Definition map_first (test : string → bool) (key : string)
    (cols : list string) (mapping : gmap string string) : gmap string string :=
  match List.find test cols with
  | Some c => <[key := c]> mapping
  | None => mapping
  end.

Definition smart_column_finder {A : Type} (df : DataFrame A) : gmap string string :=
  let cols := columns df in
  let mapping :=
    map_first (λ c, contains "total" (lower c) && contains "revenue" (lower c)
                    || String.eqb (lower c) "revenue")
              "total_revenue" cols ∅ in
  let mapping :=
    fold_left
      (λ mapping platform,
         let mapping :=
           map_first (λ c, contains (lower platform) (lower c)
                           && contains "revenue" (lower c))
                     (platform ++ "_attributed_revenue") cols mapping in
         map_first (λ c, contains (lower platform) (lower c)
                         && contains "spend" (lower c))
                   (platform ++ "_spend") cols mapping)
      platforms mapping in
  map_first (λ c, contains "attribution" (lower c) && contains "rate" (lower c))
            "attribution_rate" cols mapping.
End ColumnFinder.

(* ================================================================== *)
(** * Reading the results                                              *)
(* ================================================================== *)

(** [allocation[key]] on a dictionary of allocations. *)
Definition allocation {A : Type} `{!Num A} (m : gmap string A) (key : string) : A :=
  default nan (m !! key).

(** No cell of the table is infinite (a cell may be missing). *)
Definition finite_cells (df : DataFrame exact) : Prop :=
  Forall (λ r, ∀ c, isinf (cell r c) = false) (rows df).

(** One turn of the platform loop of [smart_column_finder]. *)
Definition finder_step {A : Type} (df : DataFrame A)
    (mapping : gmap string string) (platform : string) : gmap string string :=
  map_first (λ c, contains (lower platform) (lower c) && contains "spend" (lower c))
            (platform +:+ "_spend") (columns df)
    (map_first (λ c, contains (lower platform) (lower c)
                     && contains "revenue" (lower c))
               (platform +:+ "_attributed_revenue") (columns df) mapping).

(** No column of the table names the platform together with the word:
    the test by which [smart_column_finder] looks for the platform's
    spend column (word "spend") and attributed-revenue column (word
    "revenue"). *)
Definition no_column_for {A : Type} (df : DataFrame A) (platform word : string) : Prop :=
  Forall (λ c, contains (lower platform) (lower c) && contains word (lower c) = false)
         (columns df).

(** What the first loop of [calculate_attribution_models_smart] has
    recorded for platform [p] when its columns are absent. *)
Definition zeroed {A : Type} `{!Num A} (p : string)
    (st : gmap string A * gmap string A * A) : Prop :=
  st.1.1 !! title p = Some (of_Z 0) ∧ st.1.2 !! title p = Some (of_Z 0).

(** The exponential series up to the 24th power, in Horner form: a
    function to run the time-decay model with in the examples. *)
Definition exp_series {A : Type} `{!Num A} (x : A) : A :=
  fold_right (λ k acc, nadd (of_Z 1) (nmul (ndiv x (of_Z (Z.of_nat k))) acc))
             (of_Z 1) (seq 1 24).

(* ================================================================== *)
(** * Binary64 numbers as rationals                                    *)
(* ================================================================== *)

Section Values.
Local Open Scope Q_scope.

Definition F2Q (m e : Z) : Q := inject_Z m * 2 ^ e.

(** The rational value of a finite binary64 number (0 for the
    infinities and NaN). *)
Definition val (x : spec_float) : Q :=
  match x with
  | S754_finite s m e => F2Q (cond_Zopp s (Zpos m)) e
  | _ => 0
  end.

(** A binary64 number that is not negative: a zero, or a positive
    number in canonical form ([bounded]: the mantissa has 53 digits, or
    fewer at the smallest exponent, and the exponent is in range). *)
Definition is_nonneg (x : spec_float) : bool :=
  match x with
  | S754_zero _ => true
  | S754_finite false m e => bounded 53 1024 m e
  | _ => false
  end.

(** [x] is within the relative tolerance 1e-6 of [r]. *)
Definition within_tolerance (x r : spec_float) : Prop :=
  Qabs (val x - val r) <= Qmake 1 1000000 * val r.

(** The unit roundoff, and half the smallest positive number. *)
Definition unit_roundoff : Q := 2 ^ (-53).
Definition eta : Q := 2 ^ (-1075).

(** Where [frac], in [0, 1), lies with respect to 1/2: the round and
    sticky bits that [SpecFloat] keeps next to a truncated mantissa. *)
Definition in_class (r s : bool) (frac : Q) : Prop :=
  match r, s with
  | false, false => frac == 0
  | false, true => 0 < frac ∧ frac < Qmake 1 2
  | true, false => frac == Qmake 1 2
  | true, true => Qmake 1 2 < frac ∧ frac < 1
  end.

(** The mantissa, round bit and sticky bit [mrs] at exponent [e]
    describe the non-negative rational [v]. *)
Definition Repr (mrs : shr_record) (e : Z) (v : Q) : Prop :=
  (0 <= shr_m mrs)%Z
  ∧ ∃ frac, v == (inject_Z (shr_m mrs) + frac) * 2 ^ e
            ∧ in_class (shr_r mrs) (shr_s mrs) frac.
End Values.

(* ================================================================== *)
(** * Example tables                                                   *)
(* ================================================================== *)

Definition f64_row (d : Z) (l : list (string * Z)) : Row spec_float :=
  mkRow d (list_to_map (map (λ p, (p.1, F64.of_Z p.2)) l)).

Definition exact_row (d : Z) (l : list (string * Z)) : Row exact :=
  mkRow d (list_to_map (map (λ p, (p.1, Exact.of_Z p.2)) l)).

(** ** Cleaning *)

Definition single_row_table : DataFrame spec_float :=
  mkDF [ "spend"; "attributed_revenue"; "total_revenue" ]
       [ f64_row 1 [ ("spend", 10); ("attributed_revenue", 20);
                     ("total_revenue", 100) ]%Z ].

Definition revenue_only_table : DataFrame spec_float :=
  mkDF [ "total_revenue" ] [ f64_row 1 [ ("total_revenue", 100) ]%Z ].

(** Eleven days: nine without revenue, one with 3 and one with 10. *)
Definition eleven_row (d v : Z) : Row spec_float :=
  f64_row d [ ("spend", 1); ("attributed_revenue", 1); ("total_revenue", v) ]%Z.

Definition eleven_rows_table : DataFrame spec_float :=
  mkDF [ "spend"; "attributed_revenue"; "total_revenue" ]
       (map (λ p, eleven_row p.1 p.2)
            [ (1, 0); (2, 0); (3, 0); (4, 0); (5, 0); (6, 0); (7, 0); (8, 0);
              (9, 0); (10, 3); (11, 10) ]%Z).

(** A missing spend on the first day and a negative revenue. *)
Definition dirty_table : DataFrame spec_float :=
  mkDF [ "spend"; "attributed_revenue"; "total_revenue" ]
       [ mkRow 1 (list_to_map [ ("spend", S754_nan);
                                ("attributed_revenue", F64.of_Z 20);
                                ("total_revenue", F64.of_Z (-5)) ]);
         mkRow 2 (list_to_map [ ("spend", F64.of_Z 10);
                                ("attributed_revenue", F64.of_Z 20);
                                ("total_revenue", F64.of_Z 100) ]) ].

(** ** Daily metrics *)

(** A day on which the campaigns were paused: nothing spent, nothing
    attributed, no click, no impression; the shop still sold. *)
Definition paused_day : list (string * Z) :=
  [ ("new customers", 2); ("spend", 0); ("attributed revenue", 0);
    ("clicks", 0); ("impression", 0); ("marketing_roas", 0) ]%Z.

(** The day as the dashboard pages read it from the file. *)
Definition paused_day_table : DataFrame spec_float :=
  mkDF [ "total revenue"; "# of orders"; "new customers"; "spend";
         "attributed revenue"; "clicks"; "impression"; "marketing_roas" ]
       [ f64_row 1 (("total revenue", 500) :: ("# of orders", 5) :: paused_day)%Z ].

(** The same day after [load_and_process_data] renamed the columns. *)
Definition paused_day_renamed_table : DataFrame spec_float :=
  mkDF [ "total_revenue"; "orders"; "new customers"; "spend";
         "attributed_revenue"; "clicks"; "impression"; "marketing_roas" ]
       [ f64_row 1 (("total_revenue", 500) :: ("orders", 5)
                    :: ("attributed_revenue", 0) :: paused_day)%Z ].

(** ** Attribution *)

Definition attribution_columns : list string :=
  [ "total_revenue"; "facebook_spend"; "google_spend"; "tiktok_spend";
    "facebook_attributed revenue"; "google_attributed revenue";
    "tiktok_attributed revenue" ].

(** Two platforms with a spend of 1e308 each. *)
Definition overflow_spend_table : DataFrame spec_float :=
  mkDF attribution_columns
       [ f64_row 1 [ ("total_revenue", 100); ("facebook_spend", 10 ^ 308);
                     ("google_spend", 10 ^ 308); ("tiktok_spend", 0);
                     ("facebook_attributed revenue", 60);
                     ("google_attributed revenue", 40);
                     ("tiktok_attributed revenue", 0) ]%Z ].

(** The end-to-end scenario of the specification, two days of it. *)
Definition scenario_day : list (string * Z) :=
  [ ("total_revenue", 500); ("facebook_spend", 60); ("google_spend", 40);
    ("tiktok_spend", 0); ("facebook_attributed revenue", 300);
    ("google_attributed revenue", 150); ("tiktok_attributed revenue", 0) ]%Z.

Definition scenario_table : DataFrame exact :=
  mkDF attribution_columns [ exact_row 1 scenario_day; exact_row 2 scenario_day ].

(** The same two days in binary64. *)
Definition scenario_table_f64 : DataFrame spec_float :=
  mkDF attribution_columns [ f64_row 1 scenario_day; f64_row 2 scenario_day ].

(** A revenue of 2^-1074, the smallest positive binary64 number. *)
Definition tiny_revenue_table : DataFrame spec_float :=
  mkDF attribution_columns
       [ mkRow 1 (list_to_map
           [ ("total_revenue", S754_finite false 1 (-1074));
             ("facebook_spend", F64.of_Z 1); ("google_spend", F64.of_Z 1);
             ("tiktok_spend", F64.of_Z 1);
             ("facebook_attributed revenue", F64.of_Z 0);
             ("google_attributed revenue", F64.of_Z 0);
             ("tiktok_attributed revenue", F64.of_Z 0) ]) ].

(** A negative spend (a refund of 1e16) against a spend of 1e16. *)
Definition refunded_spend_table : DataFrame spec_float :=
  mkDF attribution_columns
       [ f64_row 1 [ ("total_revenue", 100); ("facebook_spend", 10 ^ 16);
                     ("google_spend", 3); ("tiktok_spend", - 10 ^ 16);
                     ("facebook_attributed revenue", 60);
                     ("google_attributed revenue", 40);
                     ("tiktok_attributed revenue", 0) ]%Z ].

(** A table without any TikTok column. *)
Definition no_tiktok_day (revenue : Z) : list (string * Z) :=
  [ ("total revenue", revenue); ("facebook_spend", 6); ("google_spend", 4);
    ("facebook_attributed revenue", 30); ("google_attributed revenue", 15) ]%Z.

Definition no_tiktok_table : DataFrame spec_float :=
  mkDF [ "total revenue"; "facebook_spend"; "google_spend";
         "facebook_attributed revenue"; "google_attributed revenue" ]
       [ f64_row 1 (no_tiktok_day 100); f64_row 2 (no_tiktok_day 200) ].

(** ** KPIs *)

Definition kpi_columns : list string :=
  [ "total_revenue"; "orders"; "spend"; "marketing_roas"; "profit_margin";
    "new customers"; "attributed revenue"; "attribution_rate" ].

Definition kpi_day (revenue : Z) : list (string * Z) :=
  [ ("total_revenue", revenue); ("orders", 5); ("spend", 10);
    ("marketing_roas", 2); ("profit_margin", 1); ("new customers", 1);
    ("attributed revenue", 20); ("attribution_rate", 1) ]%Z.

(** Two days of refunds: the second day's total is twice the first's. *)
Definition refunds_table : DataFrame spec_float :=
  mkDF kpi_columns [ f64_row 1 (kpi_day (-10)); f64_row 2 (kpi_day (-20)) ].

(** Two days without revenue. *)
Definition no_revenue_table : DataFrame spec_float :=
  mkDF kpi_columns [ f64_row 1 (kpi_day 0); f64_row 2 (kpi_day 0) ].

(** Revenue 100 then 200, given in the reverse order. *)
Definition doubling_table : DataFrame spec_float :=
  mkDF kpi_columns [ f64_row 2 (kpi_day 200); f64_row 1 (kpi_day 100) ].

(* ================================================================== *)
(** * Platform, efficiency and summary metrics                         *)
(* ================================================================== *)

Section MoreMetrics.
Context {A : Type} `{!Num A}.
Local Open Scope string_scope.
Local Open Scope num_scope.

(** [num / den if den > 0 else 0] on two numbers. *)
Definition guarded_div (num den : A) : A :=
  if den >? #0 then num / den else #0.

(** [df[c].sum() if c in df.columns else 0] *)
Definition sum_if_present (df : DataFrame A) (c : string) : A :=
  if has_col df c then series_sum (column_values df c) else #0.

(** ** [calculate_platform_metrics] ([src/metrics_calculator.py]) *)

Record platform_metric : Type := mkPlatformMetric {
  pm_total_spend : A;
  pm_total_revenue : A;
  pm_total_clicks : A;
  pm_total_impressions : A;
  pm_roas : A;
  pm_ctr : A;
  pm_cpc : A;
  pm_cpm : A;
  pm_revenue_share : A;
  pm_spend_share : A;
  pm_efficiency_ratio : A
}.

(** The body of the loop for one platform.  The platform's own four
    columns are tested before they are read; the three attributed
    revenue columns and [spend] are read without a test. *)
Definition platform_metrics_of (df : DataFrame A) (platform : string)
  : result platform_metric :=
  let platform_lower := lower platform in
  let spend_col := platform_lower ++ "_spend" in
  let revenue_col := platform_lower ++ "_attributed revenue" in
  let clicks_col := platform_lower ++ "_clicks" in
  let impressions_col := platform_lower ++ "_impression" in
  let total_spend := sum_if_present df spend_col in
  let total_revenue := sum_if_present df revenue_col in
  let total_clicks := sum_if_present df clicks_col in
  let total_impressions := sum_if_present df impressions_col in
  let roas := guarded_div total_revenue total_spend in
  let ctr := guarded_div total_clicks total_impressions in
  let cpc := guarded_div total_spend total_clicks in
  let cpm :=
    if total_impressions >? #0
    then (total_spend / total_impressions) * #1000 else #0 in
  facebook ← col_sum df "facebook_attributed revenue";
  google ← col_sum df "google_attributed revenue";
  tiktok ← col_sum df "tiktok_attributed revenue";
  let total_attributed := facebook + google + tiktok in
  let revenue_share :=
    if total_attributed >? #0
    then (total_revenue / total_attributed) * #100 else #0 in
  spend ← col_sum df "spend";
  let spend_share :=
    if spend >? #0 then (total_spend / spend) * #100 else #0 in
  let efficiency_ratio := guarded_div revenue_share spend_share in
  Ok {| pm_total_spend := total_spend;
        pm_total_revenue := total_revenue;
        pm_total_clicks := total_clicks;
        pm_total_impressions := total_impressions;
        pm_roas := roas;
        pm_ctr := ctr;
        pm_cpc := cpc;
        pm_cpm := cpm;
        pm_revenue_share := revenue_share;
        pm_spend_share := spend_share;
        pm_efficiency_ratio := efficiency_ratio |}.

(** One turn of [for platform in platforms]. *)
Definition platform_metrics_step (df : DataFrame A)
    (acc : result (gmap string platform_metric)) (platform : string)
  : result (gmap string platform_metric) :=
  platform_metrics ← acc;
  m ← platform_metrics_of df platform;
  Ok (<[platform := m]> platform_metrics).

Definition calculate_platform_metrics (df : DataFrame A) (platforms : list string)
  : result (gmap string platform_metric) :=
  fold_left (platform_metrics_step df) platforms (Ok ∅).

(** ** [calculate_efficiency_metrics] ([src/metrics_calculator.py]) *)

(** [df[num].sum() / df[den].sum() if df[den].sum() > 0 else 0]: Python
    evaluates the condition first and the quotient only when it
    holds, so the numerator column is not read otherwise. *)
Definition sum_ratio (df : DataFrame A) (num den : string) : result A :=
  d ← col_sum df den;
  if d >? #0 then n ← col_sum df num; d ← col_sum df den; Ok (n / d)
  else Ok #0.

Record efficiency_metrics : Type := mkEfficiency {
  revenue_per_dollar : A;
  orders_per_dollar : A;
  customers_per_dollar : A;
  revenue_per_click : A;
  orders_per_click : A;
  revenue_per_impression : A;
  overall_efficiency_score : A
}.

Definition calculate_efficiency_metrics (df : DataFrame A)
  : result efficiency_metrics :=
  let orders := orders_col df in
  revenue_per_dollar ← sum_ratio df "attributed revenue" "spend";
  orders_per_dollar ← sum_ratio df orders "spend";
  customers_per_dollar ← sum_ratio df "new customers" "spend";
  revenue_per_click ← sum_ratio df "attributed revenue" "clicks";
  orders_per_click ← sum_ratio df orders "clicks";
  revenue_per_impression ← sum_ratio df "attributed revenue" "impression";
  Ok {| revenue_per_dollar := revenue_per_dollar;
        orders_per_dollar := orders_per_dollar;
        customers_per_dollar := customers_per_dollar;
        revenue_per_click := revenue_per_click;
        orders_per_click := orders_per_click;
        revenue_per_impression := revenue_per_impression;
        overall_efficiency_score :=
          (revenue_per_dollar + orders_per_dollar + customers_per_dollar) / #3 |}.
End MoreMetrics.

(* ================================================================== *)
(** * The attribution page ([pages/Attribution_Analysis.py], [main])   *)
(* ================================================================== *)

Section AttributionPage.
Context {A : Type} `{!Num A}.
Local Open Scope string_scope.
Local Open Scope num_scope.

Variable sort_values : list (Row A) → list (Row A).
Variable np_exp : A → A.

(** [model_data.get(label, 0)]: the number a card formats. *)
Definition card (model_data : gmap string A) (label : string) : A :=
  default #0 (model_data !! label).

(** The three cards of a model's column. *)
Record model_cards : Type := mkCards {
  card_facebook : A;
  card_google : A;
  card_tiktok : A
}.

Definition cards_of (model_data : gmap string A) : model_cards :=
  {| card_facebook := card model_data "Facebook";
     card_google := card model_data "Google";
     card_tiktok := card model_data "TikTok" |}.

Record attribution_cards : Type := mkPage {
  cards_last_click : model_cards;
  cards_spend_based : model_cards;
  cards_time_decay : model_cards;
  cards_linear : model_cards
}.

(** [main] from the table [load_data] returned: the numbers on the
    twelve cards, or [None] when the page shows no model
    ([if attribution_models:]).  The comparison chart is drawn from
    the same dictionaries and is left out. *)
Definition attribution_page (df : DataFrame A)
  : result (option attribution_cards) :=
  let column_mapping := smart_column_finder df in
  attribution_models ←
    calculate_attribution_models_smart sort_values np_exp df column_mapping;
  Ok (match attribution_models with
      | Some m =>
          Some {| cards_last_click := cards_of (smart_last_click m);
                  cards_spend_based := cards_of (smart_spend_based m);
                  cards_time_decay := cards_of (smart_time_decay m);
                  cards_linear := cards_of (smart_linear m) |}
      | None => None
      end).
End AttributionPage.

(** Two days with spend and attributed revenue on every platform. *)
Definition three_platform_day : list (string * Z) :=
  [ ("total_revenue", 500); ("facebook_spend", 60); ("google_spend", 30);
    ("tiktok_spend", 10); ("facebook_attributed revenue", 300);
    ("google_attributed revenue", 150); ("tiktok_attributed revenue", 50) ]%Z.

Definition three_platform_table : DataFrame spec_float :=
  mkDF attribution_columns
       [ f64_row 1 three_platform_day; f64_row 2 three_platform_day ].

(* ================================================================== *)
(** * Insights and recommendations ([pages/Trends_Insights.py])        *)
(* ================================================================== *)

Section Insights.
Context {A : Type} `{!Num A}.
Local Open Scope string_scope.
Local Open Scope num_scope.

Variable SKLEARN_AVAILABLE : bool.
Variable regression_coef : list A → option A.

(** Python's number formatting, [f"{x:.2f}"] and [f"{x:.1%}"]: library
    functions the embedding does not define. *)
Variable format_2f : A → string.
Variable format_1pct : A → string.

(** ['total revenue' if 'total revenue' in df.columns else 'total_revenue']:
    this page prefers the name with a space. *)
Definition page_revenue_col (df : DataFrame A) : string :=
  if has_col df "total revenue" then "total revenue" else "total_revenue".

(** The two lists the function appends to. *)
Definition notes : Type := list string * list string.

Definition add_notes (st : notes) (insights recommendations : list string) : notes :=
  ((st.1 ++ insights)%list, (st.2 ++ recommendations)%list).

(** [if revenue_col in df.columns: ...] *)
Definition revenue_notes (df : DataFrame A) (st : notes) : outcome notes :=
  let revenue_col := page_revenue_col df in
  if has_col df revenue_col then
    match calculate_trend_direction SKLEARN_AVAILABLE regression_coef
            (column_values df revenue_col) with
    | Raises => Raises
    | Returns (revenue_trend, _) =>
        Returns
          (add_notes st
             [ "Revenue trend is " ++ revenue_trend ]
             (if String.eqb revenue_trend "decreasing" then
                [ "Consider increasing marketing spend or optimizing campaign performance";
                  "Review underperforming campaigns and reallocate budget" ]
              else if String.eqb revenue_trend "increasing" then
                [ "Scale successful campaigns while maintaining efficiency";
                  "Invest more in top-performing platforms" ]
              else
                [ "Focus on optimization to break through revenue plateau";
                  "Test new creative formats and targeting strategies" ]))
    end
  else Returns st.

(** [if 'marketing_roas' in df.columns: ...] *)
Definition roas_notes (df : DataFrame A) (st : notes) : outcome notes :=
  if has_col df "marketing_roas" then
    let avg_roas := series_mean (column_values df "marketing_roas") in
    match calculate_trend_direction SKLEARN_AVAILABLE regression_coef
            (column_values df "marketing_roas") with
    | Raises => Raises
    | Returns (roas_trend, _) =>
        Returns
          (add_notes st
             [ "Average ROAS is " ++ format_2f avg_roas ++ " with "
               ++ roas_trend ++ " trend" ]
             [ if avg_roas <? #2 then
                 "ROAS below 2.0 - Review targeting and creative performance immediately"
               else if avg_roas >? #4 then
                 "Excellent ROAS - Consider scaling budget allocation"
               else
                 "Good ROAS performance - Focus on incremental improvements" ])
    end
  else Returns st.

(** The body of [for platform in platforms]: the platform's entry of
    [platform_performance], when both its columns are present. *)
Definition platform_roas (df : DataFrame A) (platform : string) : option A :=
  let spend_col := platform ++ "_spend" in
  let revenue_col_platform := platform ++ "_attributed revenue" in
  if has_col df spend_col && has_col df revenue_col_platform then
    let total_spend := series_sum (column_values df spend_col) in
    let total_revenue := series_sum (column_values df revenue_col_platform) in
    let roas := if total_spend >? #0 then total_revenue / total_spend else #0 in
    Some (if negb (isnan roas || isinf roas) then roas else #0)
  else None.

(** The dictionary [platform_performance], in insertion order. *)
Definition platform_performance (df : DataFrame A) : list (string * A) :=
  flat_map (λ platform,
              match platform_roas df platform with
              | Some roas => [ (platform, roas) ]
              | None => []
              end)
           platforms.

(** [max(items, key=lambda x: x[1])] and [min(...)] on a non-empty
    list: the first item that no later item beats. *)
Definition max_by_roas (first : string * A) (rest : list (string * A))
  : string * A :=
  fold_left (λ best item, if item.2 >? best.2 then item else best) rest first.

Definition min_by_roas (first : string * A) (rest : list (string * A))
  : string * A :=
  fold_left (λ best item, if item.2 <? best.2 then item else best) rest first.

(** [if platform_performance: ...] *)
Definition platform_notes (df : DataFrame A) (st : notes) : notes :=
  match platform_performance df with
  | [] => st
  | first :: rest =>
      let best_platform := max_by_roas first rest in
      let worst_platform := min_by_roas first rest in
      add_notes st
        [ "Best performing platform: " ++ title best_platform.1
          ++ " (ROAS: " ++ format_2f best_platform.2 ++ ")";
          "Lowest performing platform: " ++ title worst_platform.1
          ++ " (ROAS: " ++ format_2f worst_platform.2 ++ ")" ]
        (("Increase budget allocation to " ++ title best_platform.1)
         :: (if worst_platform.2 <? #3 / #2
             then [ "Consider optimizing " ++ title worst_platform.1 ++ " campaigns" ]
             else []))
  end.

(** [if 'attribution_rate' in df.columns: ...] *)
Definition attribution_notes (df : DataFrame A) (st : notes) : notes :=
  if has_col df "attribution_rate" then
    let avg_attribution := series_mean (column_values df "attribution_rate") in
    add_notes st
      [ "Average attribution rate: " ++ format_1pct avg_attribution ]
      [ if avg_attribution <? #4 / #10 then
          "Low attribution rate - Implement better tracking systems"
        else if avg_attribution >? #6 / #10 then
          "High attribution rate - Leverage this data for optimization"
        else
          "Good attribution tracking - Continue monitoring" ]
  else st.

Definition fallback_insights : list string :=
  [ "Marketing performance shows consistent patterns across platforms";
    "Data tracking captures significant portion of customer journey";
    "Campaign performance varies across different time periods";
    "Attribution data indicates multi-channel customer behavior" ].

Definition fallback_recommendations : list string :=
  [ "Continue monitoring key performance indicators regularly";
    "Implement A/B testing for continuous improvement";
    "Review and optimize underperforming campaigns weekly";
    "Focus on customer lifetime value optimization" ].

(** [for fallback in fallbacks:
       if fallback not in items:
         items.append(fallback)
         if len(items) >= 5: break] *)
Fixpoint add_fallbacks (fallbacks items : list string) : list string :=
  match fallbacks with
  | [] => items
  | fallback :: rest =>
      if bool_decide (fallback ∈ items) then add_fallbacks rest items
      else
        let items := (items ++ [fallback])%list in
        if (5 <=? length items)%nat then items else add_fallbacks rest items
  end.

(** [while len(items) < 5: <the for loop>], run for at most [fuel]
    turns: [None] when the loop is still running after them. *)
Fixpoint fill_to_five (fuel : nat) (fallbacks items : list string)
  : option (list string) :=
  if (length items <? 5)%nat then
    match fuel with
    | O => None
    | S fuel => fill_to_five fuel fallbacks (add_fallbacks fallbacks items)
    end
  else Some items.

(** What the four sections collect before the two [while] loops. *)
Definition collected_notes (df : DataFrame A) : outcome notes :=
  match revenue_notes df ([], []) with
  | Raises => Raises
  | Returns st =>
      match roas_notes df st with
      | Raises => Raises
      | Returns st => Returns (attribution_notes df (platform_notes df st))
      end
  end.

(** The function, each [while] loop run for at most [fuel] turns:
    [Returns None] when a loop is still running after them. *)
Definition generate_insights_and_recommendations (fuel : nat) (df : DataFrame A)
  : outcome (option (list string * list string)) :=
  match collected_notes df with
  | Raises => Raises
  | Returns (insights, recommendations) =>
      Returns
        (insights ← fill_to_five fuel fallback_insights insights;
         recommendations ← fill_to_five fuel fallback_recommendations recommendations;
         Some (take 5 insights, take 5 recommendations))
  end.
End Insights.

(** ** Reading the notes *)

Section InsightsReading.
Context {A : Type} `{!Num A}.

(** What a section appends: notes of its own, none of them a fallback. *)
Definition own_notes (st st' : notes) (fired : bool) : Prop :=
  ∃ i r, st' = add_notes st i r
         ∧ Forall (λ s, s ∉ fallback_insights) i
         ∧ Forall (λ s, s ∉ fallback_recommendations) r
         ∧ (if fired then i ≠ [] ∧ r ≠ [] else i = [] ∧ r = []).

(** Whether one of the four sections has something to say. *)
Definition some_section (df : DataFrame A) : bool :=
  has_col df (page_revenue_col df) || has_col df "marketing_roas"
  || match platform_performance df with [] => false | _ => true end
  || has_col df "attribution_rate".

End InsightsReading.

(* ================================================================== *)
(** * Summary statistics ([src/data_processing.py])                    *)
(* ================================================================== *)

Section Summary.
Context {A : Type} `{!Num A}.
Local Open Scope string_scope.
Local Open Scope num_scope.

(** [df['date'].min()], [df['date'].max()] and the days between them;
    nothing when the table has no row (pandas answers [NaT]). *)
Record date_range : Type := mkDateRange {
  range_start : Z;
  range_end : Z;
  range_days : Z
}.

Definition date_range_of (df : DataFrame A) : option date_range :=
  match map date (rows df) with
  | [] => None
  | d :: ds =>
      let first := fold_left Z.min ds d in
      let last := fold_left Z.max ds d in
      Some {| range_start := first; range_end := last;
              range_days := last - first |}
  end.

Record platform_summary : Type := mkPlatformSummary {
  ps_spend : A;
  ps_attributed_revenue : A;
  ps_clicks : A;
  ps_roas : A
}.

Record summary_stats : Type := mkSummary {
  summary_date_range : option date_range;
  summary_total_revenue : A;
  summary_total_orders : A;
  summary_avg_aov : A;
  summary_avg_profit_margin : A;
  summary_total_spend : A;
  summary_avg_roas : A;
  summary_total_clicks : A;
  summary_avg_ctr : A;
  summary_platform_breakdown : gmap string platform_summary
}.

(** One turn of [for platform in ['facebook', 'google', 'tiktok']]. *)
Definition platform_summary_step (df : DataFrame A)
    (breakdown : gmap string platform_summary) (platform : string)
  : gmap string platform_summary :=
  let spend_col := platform ++ "_spend" in
  let revenue_col := platform ++ "_attributed revenue" in
  let clicks_col := platform ++ "_clicks" in
  if forallb (has_col df) [ spend_col; revenue_col; clicks_col ] then
    <[platform :=
        {| ps_spend := series_sum (column_values df spend_col);
           ps_attributed_revenue := series_sum (column_values df revenue_col);
           ps_clicks := series_sum (column_values df clicks_col);
           ps_roas := guarded_div (series_sum (column_values df revenue_col))
                                  (series_sum (column_values df spend_col)) |}]>
      breakdown
  else breakdown.

Definition create_summary_stats (df : DataFrame A) : result summary_stats :=
  let dates := date_range_of df in
  total_revenue ← col_sum df "total_revenue";
  total_orders ← col_sum df "orders";
  avg_aov ← col_mean df "aov";
  avg_profit_margin ← col_mean df "profit_margin";
  total_spend ← col_sum df "spend";
  avg_roas ← col_mean df "marketing_roas";
  total_clicks ← col_sum df "clicks";
  avg_ctr ← col_mean df "ctr";
  Ok {| summary_date_range := dates;
        summary_total_revenue := total_revenue;
        summary_total_orders := total_orders;
        summary_avg_aov := avg_aov;
        summary_avg_profit_margin := avg_profit_margin;
        summary_total_spend := total_spend;
        summary_avg_roas := avg_roas;
        summary_total_clicks := total_clicks;
        summary_avg_ctr := avg_ctr;
        summary_platform_breakdown :=
          fold_left (platform_summary_step df) platforms ∅ |}.
End Summary.

(* ================================================================== *)
(** * More example tables and column lists                             *)
(* ================================================================== *)

(** ** Platform metrics *)

Definition platform_columns : list string :=
  [ "spend"; "facebook_spend"; "google_spend"; "tiktok_spend";
    "facebook_attributed revenue"; "google_attributed revenue";
    "tiktok_attributed revenue"; "facebook_clicks"; "facebook_impression" ].

Definition platform_day : list (string * Z) :=
  [ ("spend", 100); ("facebook_spend", 60); ("google_spend", 30);
    ("tiktok_spend", 10); ("facebook_attributed revenue", 300);
    ("google_attributed revenue", 150); ("tiktok_attributed revenue", 50);
    ("facebook_clicks", 40); ("facebook_impression", 1000) ]%Z.

Definition platform_table : DataFrame spec_float :=
  mkDF platform_columns [ f64_row 1 platform_day; f64_row 2 platform_day ].

(** ** Efficiency metrics *)

(** Two days on which nothing was spent, clicked or shown; the table
    has no revenue, order or customer column. *)
Definition idle_table : DataFrame spec_float :=
  mkDF [ "spend"; "clicks"; "impression" ]
       [ f64_row 1 [ ("spend", 0); ("clicks", 0); ("impression", 0) ]%Z;
         f64_row 2 [ ("spend", 0); ("clicks", 0); ("impression", 0) ]%Z ].

(** ** Insights *)

(** A stand-in for Python's number formatting in the examples. *)
Definition format_stub {A : Type} (x : A) : string := "#".

(** ** Derived metrics: the columns read and the columns written *)

(** The columns [calculate_derived_metrics] reads with [df[...]]
    outside a presence test, in the order in which it first reads
    them. *)
Definition derived_inputs : list string :=
  [ "new customers"; "spend"; "orders"; "total_revenue"; "impression";
    "clicks"; "marketing_roas" ]%string.


(** Three days of a processed table, the latest first. *)
Definition processed_day : list (string * Z) :=
  [ ("total_revenue", 500); ("orders", 5); ("new customers", 2); ("spend", 100);
    ("clicks", 40); ("impression", 1000); ("marketing_roas", 3) ]%Z.

Definition unsorted_days_table : DataFrame spec_float :=
  mkDF [ "total_revenue"; "orders"; "new customers"; "spend"; "clicks";
         "impression"; "marketing_roas" ]
       [ f64_row 3 processed_day; f64_row 1 processed_day;
         f64_row 2 processed_day ].

(** ** KPIs: edge cases *)

(** A day on which a customer was won without any spend. *)
Definition free_customer_table : DataFrame spec_float :=
  mkDF kpi_columns
       [ f64_row 1 [ ("total_revenue", 100); ("orders", 5); ("spend", 0);
                     ("marketing_roas", 0); ("profit_margin", 1);
                     ("new customers", 1); ("attributed revenue", 0);
                     ("attribution_rate", 0) ]%Z ].

(** A table with every column and no row. *)
Definition empty_table : DataFrame spec_float := mkDF kpi_columns [].


(** ** Attribution: the columns read and a single day *)

(** The columns [calculate_attribution_model] reads, in the order in
    which it reads them. *)
Definition attribution_inputs {A : Type} `{!Num A} (df : DataFrame A)
  : list string :=
  [ "facebook_attributed revenue"; "google_attributed revenue";
    "tiktok_attributed revenue"; "facebook_spend"; "google_spend";
    "tiktok_spend"; revenue_col df ]%string.

(** One day with spend and attributed revenue on every platform. *)
Definition single_day_table : DataFrame spec_float :=
  mkDF attribution_columns [ f64_row 1 three_platform_day ].

(** ** The processing pipeline *)

(** Three days as they come from the file after renaming, the latest
    first: its spend is missing and its revenue is negative. *)
Definition raw_day (revenue spend : spec_float) : list (string * spec_float) :=
  [ ("total_revenue", revenue); ("orders", F64.of_Z 5);
    ("new customers", F64.of_Z 2); ("spend", spend);
    ("attributed_revenue", F64.of_Z 200); ("clicks", F64.of_Z 40);
    ("impression", F64.of_Z 1000); ("marketing_roas", F64.of_Z 2) ].

Definition raw_days_table : DataFrame spec_float :=
  mkDF [ "total_revenue"; "orders"; "new customers"; "spend";
         "attributed_revenue"; "clicks"; "impression"; "marketing_roas" ]
       [ mkRow 3 (list_to_map (raw_day (F64.of_Z (-5)) S754_nan));
         mkRow 1 (list_to_map (raw_day (F64.of_Z 500) (F64.of_Z 100)));
         mkRow 2 (list_to_map (raw_day (F64.of_Z 400) (F64.of_Z 100))) ].

(* ================================================================== *)
(** * Facts about tables                                               *)
(* ================================================================== *)

Section TableFacts.
Context {A : Type} `{!Num A}.

Lemma has_col_true (df : DataFrame A) c : has_col df c = true ↔ c ∈ columns df.
Proof. unfold has_col. apply bool_decide_eq_true. Qed.

Lemma columns_assign_present (df : DataFrame A) c f :
  has_col df c = true → columns (assign df c f) = columns df.
Proof. intros H. unfold assign, add_column. simpl. now rewrite H. Qed.

Lemma has_col_assign (df : DataFrame A) c f c' :
  has_col df c' = true → has_col (assign df c f) c' = true.
Proof.
  rewrite !has_col_true. unfold assign, add_column. simpl.
  destruct (has_col df c); [done|]. intros. apply elem_of_app. now left.
Qed.

Lemma has_col_assign_same (df : DataFrame A) c f : has_col (assign df c f) c = true.
Proof.
  rewrite has_col_true. unfold assign, add_column. simpl.
  destruct (has_col df c) eqn:E.
  - now apply has_col_true.
  - apply elem_of_app. right. apply list_elem_of_singleton. done.
Qed.

Lemma len_assign (df : DataFrame A) c f : len (assign df c f) = len df.
Proof. unfold len, assign. simpl. apply length_map. Qed.

Lemma len_select_le (df : DataFrame A) keep : len (select df keep) ≤ len df.
Proof. unfold len, select. simpl. apply List.filter_length_le. Qed.

Lemma columns_select (df : DataFrame A) keep : columns (select df keep) = columns df.
Proof. reflexivity. Qed.
End TableFacts.

(* ================================================================== *)
(** * Facts about the cleaner                                          *)
(* ================================================================== *)

Lemma Ok_inj {T : Type} (x y : T) : Ok x = Ok y → x = y.
Proof. now intros [= ->]. Qed.

Lemma bind_ok_inv {T U : Type} (m : result T) (f : T → result U) (y : U) :
  (x ← m; f x) = Ok y → ∃ x, m = Ok x ∧ f x = Ok y.
Proof. destruct m as [x|c]; [eauto|discriminate]. Qed.

Lemma filter_none {T : Type} (p : T → bool) (l : list T) :
  (∀ x, p x = false) → List.filter p l = [].
Proof. intros H. induction l as [|x l IH]; [done|]. cbn. now rewrite H. Qed.

Section CleaningFacts.
Context {A : Type} `{!Num A} `{!Sqrt A}.

Lemma fill_missing_shape (df : DataFrame A) :
  columns (fill_missing df) = columns df ∧ len (fill_missing df) = len df.
Proof.
  unfold fill_missing.
  assert (G : ∀ l d, (∀ c, c ∈ l → c ∈ columns d) →
            let d' := fold_left (λ d c, assign d c (λ r, fillna0 (cell r c))) l d in
            columns d' = columns d ∧ len d' = len d).
  { induction l as [|c l IH]; intros d Hl; simpl; [done|].
    assert (Hc : has_col d c = true) by (apply has_col_true, Hl; left).
    destruct (IH (assign d c (λ r, fillna0 (cell r c)))) as [IH1 IH2].
    - intros c' Hc'. rewrite columns_assign_present by done. apply Hl. now right.
    - rewrite IH1, IH2, columns_assign_present, len_assign by done. done. }
  now apply G.
Qed.

Lemma clip_financials_shape (df : DataFrame A) :
  columns (clip_financials df) = columns df ∧ len (clip_financials df) = len df.
Proof.
  unfold clip_financials. generalize financial_columns as l. intros l. revert df.
  induction l as [|c l IH]; intros d; simpl; [done|].
  destruct (has_col d c) eqn:Hc; [|apply IH].
  destruct (IH (assign d c (λ r, clip0 (cell r c)))) as [IH1 IH2].
  now rewrite IH1, IH2, columns_assign_present, len_assign.
Qed.

Lemma has_col_columns (d d' : DataFrame A) c :
  columns d = columns d' → has_col d c = has_col d' c.
Proof. unfold has_col. now intros ->. Qed.

Lemma roas_columns_written (df : DataFrame A) :
  roas_columns (clip_financials (fill_missing df)) = roas_columns df.
Proof.
  assert (E : columns (clip_financials (fill_missing df)) = columns df).
  { rewrite (proj1 (clip_financials_shape _)). apply fill_missing_shape. }
  unfold roas_columns. now rewrite !(has_col_columns _ df _ E).
Qed.

Lemma len_prepared (df : DataFrame A) : len (prepared df) = len df.
Proof.
  unfold prepared, add_calculated_roas. rewrite len_assign.
  rewrite (proj2 (clip_financials_shape _)). apply fill_missing_shape.
Qed.

Lemma len_outlier_step (df : DataFrame A) c : len (outlier_step df c) ≤ len df.
Proof.
  unfold outlier_step. destruct (has_col df c); [|done].
  unfold drop_outliers. apply len_select_le.
Qed.

Lemma len_outlier_pass (df : DataFrame A) : len (outlier_pass df) ≤ len df.
Proof.
  unfold outlier_pass. generalize outlier_columns as l. intros l. revert df.
  induction l as [|c l IH]; intros d; simpl; [done|].
  etrans; [apply IH|apply len_outlier_step].
Qed.

(** The loop on the binding follows the loop on the table [df] refers to
    and never writes into the caller's table. *)
Lemma remove_outliers_spec (b : binding) :
  referent (remove_outliers b) = outlier_pass (referent b)
  ∧ passed (remove_outliers b) = passed b.
Proof.
  unfold remove_outliers, outlier_pass. generalize outlier_columns as l.
  intros l. revert b. induction l as [|c l IH]; intros b; simpl; [done|].
  destruct (IH (if has_col (referent b) c
                then rebind (λ d, drop_outliers d c) b else b)) as [IH1 IH2].
  rewrite IH1, IH2. unfold outlier_step.
  destruct (has_col (referent b) c); done.
Qed.

Lemma validate_and_clean_data_unfold (df : DataFrame A) :
  validate_and_clean_data df =
  match roas_columns df with
  | Ok _ => (Ok (), remove_outliers (mkBinding (prepared df) None))
  | KeyError c => (KeyError c, mkBinding (clip_financials (fill_missing df)) None)
  end.
Proof.
  unfold validate_and_clean_data. cbn [write rebound passed referent default].
  change (default ?a None) with a.
  rewrite roas_columns_written. destruct (roas_columns df); reflexivity.
Qed.

Lemma returned_validate (df : DataFrame A) :
  returned (validate_and_clean_data df) =
  match roas_columns df with
  | Ok _ => Ok (outlier_pass (prepared df))
  | KeyError c => KeyError c
  end.
Proof.
  rewrite validate_and_clean_data_unfold. unfold returned.
  destruct (roas_columns df); cbn [fst snd]; [|reflexivity].
  now rewrite (proj1 (remove_outliers_spec _)).
Qed.

Lemma caller_view_validate (df : DataFrame A) :
  caller_view (validate_and_clean_data df) =
  match roas_columns df with
  | Ok _ => prepared df
  | KeyError c => clip_financials (fill_missing df)
  end.
Proof.
  rewrite validate_and_clean_data_unfold. unfold caller_view.
  destruct (roas_columns df); cbn [snd passed]; [|reflexivity].
  now rewrite (proj2 (remove_outliers_spec _)).
Qed.

Lemma roas_columns_ok (df : DataFrame A) :
  has_col df "spend" = true → has_col df "attributed_revenue" = true →
  roas_columns df = Ok ().
Proof. unfold roas_columns. now intros -> ->. Qed.
End CleaningFacts.

(* ================================================================== *)
(** * The cleaner: what it returns and what it writes                 *)
(* ================================================================== *)

Section CleaningTheorems.
Context {A : Type} `{!Num A} `{!Sqrt A}.
Local Open Scope num_scope.

Lemma columns_outlier_step (df : DataFrame A) c :
  columns (outlier_step df c) = columns df.
Proof. unfold outlier_step. now destruct (has_col df c). Qed.

Lemma rows_outlier_step (df : DataFrame A) c :
  has_col df c = true →
  rows (outlier_step df c) =
  List.filter
    (λ r, nabs (cell r c - series_mean (map (λ r, cell r c) (rows df)))
          <=? #3 * series_std (map (λ r, cell r c) (rows df)))
    (rows df).
Proof. intros H. unfold outlier_step. rewrite H. reflexivity. Qed.

Lemma rows_outlier_step_absent (df : DataFrame A) c :
  has_col df c = false → outlier_step df c = df.
Proof. intros H. unfold outlier_step. now rewrite H. Qed.

(** C5 (amended).  For every table on which [validate_and_clean_data]
    returns, the returned table is the prepared table passed through
    one filter per column of marketing_roas, total_revenue, orders, in
    that order; a filter whose column is absent changes nothing; a
    filter whose column is present keeps exactly the rows with
    [abs(value - mean) <= 3 * std] (so a row is dropped as soon as the
    comparison involves NaN), the mean and the standard deviation being
    those of the column over the table the previous filters left; and
    the standard deviation is the sample one ([ddof = 1]): the sum of
    the squared deviations over [n - 1], NaN when at most one value is
    present. *)
Theorem outlier_filter_sequential (df : DataFrame A) :
  (∀ d, returned (validate_and_clean_data df) = Ok d →
     d = outlier_step
           (outlier_step (outlier_step (prepared df) "marketing_roas")
                         "total_revenue")
           "orders")
  ∧ (∀ (d : DataFrame A) c, has_col d c = false → outlier_step d c = d)
  ∧ (∀ (d : DataFrame A) c, has_col d c = true →
       let xs := map (λ r, cell r c) (rows d) in
       rows (outlier_step d c) =
       List.filter (λ r, nabs (cell r c - series_mean xs) <=? #3 * series_std xs)
                   (rows d))
  ∧ (∀ xs : list A,
       series_std xs =
       if (series_count xs <=? 1)%nat then nan
       else
         let avg := series_sum xs / of_nat (series_count xs) in
         nsqrt (np_sum (map (λ x, if isnan x then #0 else (avg - x) * (avg - x)) xs)
                / of_nat (series_count xs - 1))).
Proof.
  split; [|split; [|split]].
  - intros d. rewrite returned_validate.
    destruct (roas_columns df); [|discriminate]. intros H.
    apply Ok_inj in H. subst d.
    unfold outlier_pass, outlier_columns. cbn [fold_left]. reflexivity.
  - apply rows_outlier_step_absent.
  - intros d c H xs. now apply rows_outlier_step.
  - reflexivity.
Qed.

(** C6.  Cleaning never increases the row count: when
    [validate_and_clean_data] returns a table, it has at most as many
    rows as the input table; and it returns unless the spend or the
    attributed_revenue column is absent, in which case it raises
    [KeyError] on that column. *)
Theorem cleaning_never_adds_rows (df : DataFrame A) :
  match returned (validate_and_clean_data df) with
  | Ok d => (len d <= len df)%nat
  | KeyError c =>
      has_col df c = false ∧ (c = "spend" ∨ c = "attributed_revenue")
  end.
Proof.
  rewrite returned_validate. unfold roas_columns.
  destruct (has_col df "spend") eqn:E1; [|auto].
  destruct (has_col df "attributed_revenue") eqn:E2; [|auto].
  etrans; [apply len_outlier_pass|]. now rewrite len_prepared.
Qed.

Lemma has_col_prepared (df : DataFrame A) c :
  has_col df c = true → has_col (prepared df) c = true.
Proof.
  intros H. unfold prepared, add_calculated_roas. apply has_col_assign.
  rewrite (has_col_columns _ df); [done|].
  rewrite (proj1 (clip_financials_shape _)). apply fill_missing_shape.
Qed.

Lemma has_col_prepared_other (df : DataFrame A) c :
  c ≠ "calculated_marketing_roas" → has_col (prepared df) c = has_col df c.
Proof.
  intros Hc.
  assert (E : columns (clip_financials (fill_missing df)) = columns df).
  { rewrite (proj1 (clip_financials_shape _)). apply fill_missing_shape. }
  unfold prepared, add_calculated_roas, assign, add_column, has_col at 1.
  cbn [columns].
  destruct (has_col (clip_financials (fill_missing df)) _).
  - now rewrite E.
  - rewrite E. unfold has_col. apply bool_decide_ext.
    rewrite elem_of_app, list_elem_of_singleton. tauto.
Qed.

Lemma rebound_fold_some (cs : list string) (b : binding) :
  is_Some (rebound b) →
  is_Some (rebound (fold_left
    (λ b c, if has_col (referent b) c
            then rebind (λ d, drop_outliers d c) b else b) cs b)).
Proof.
  revert b. induction cs as [|c cs IH]; intros b Hb; [done|].
  cbn [fold_left]. apply IH. destruct (has_col (referent b) c); [|done].
  unfold rebind. cbn [rebound]. eauto.
Qed.

Lemma rebound_fold_none (cs : list string) (b : binding) :
  rebound b = None →
  (rebound (fold_left
     (λ b c, if has_col (referent b) c
             then rebind (λ d, drop_outliers d c) b else b) cs b) = None
   ↔ ∀ c, c ∈ cs → has_col (passed b) c = false).
Proof.
  revert b. induction cs as [|c cs IH]; intros b Hb.
  - cbn [fold_left]. split; [|done]. intros _ c Hc. now apply elem_of_nil in Hc.
  - cbn [fold_left].
    assert (Hr : referent b = passed b) by (unfold referent; now rewrite Hb).
    rewrite Hr. destruct (has_col (passed b) c) eqn:E.
    + split.
      * intros H.
        destruct (rebound_fold_some cs (rebind (λ d, drop_outliers d c) b))
          as [x Hx]; [unfold rebind; cbn [rebound]; eauto|]. congruence.
      * intros H. rewrite H in E by (left). discriminate.
    + rewrite (IH b Hb). split.
      * intros H c' Hc'. apply elem_of_cons in Hc' as [->|Hc']; auto.
      * intros H c' Hc'. apply H. now right.
Qed.

Lemma rebound_remove_outliers (b : binding) :
  rebound b = None →
  (rebound (remove_outliers b) = None ↔
   ∀ c, c ∈ outlier_columns → has_col (passed b) c = false).
Proof. apply rebound_fold_none. Qed.

(** C8 (amended).  [validate_and_clean_data] writes into the caller's
    table: once the call is over, the table the caller passed holds
    the zero-filled and clipped values and, when no [KeyError] was
    raised, the added calculated_marketing_roas column.  Only the
    removal of rows is not observable there: the caller's table keeps
    its row count.  The returned table is the caller's own object
    exactly when none of marketing_roas, total_revenue, orders is a
    column of the table; otherwise it is a new object. *)
Theorem cleaning_writes_into_callers_table (df : DataFrame A) :
  let o := validate_and_clean_data df in
  caller_view o =
    match roas_columns df with
    | Ok _ => add_calculated_roas (clip_financials (fill_missing df))
    | KeyError _ => clip_financials (fill_missing df)
    end
  ∧ len (caller_view o) = len df
  ∧ match fst o with
    | Ok _ =>
        has_col (caller_view o) "calculated_marketing_roas" = true
        ∧ (rebound (snd o) = None ↔
           ∀ c, c ∈ outlier_columns → has_col df c = false)
    | KeyError _ => rebound (snd o) = None
    end.
Proof.
  intros o. subst o. split; [apply caller_view_validate|]. split.
  - rewrite caller_view_validate. destruct (roas_columns df).
    + apply len_prepared.
    + rewrite (proj2 (clip_financials_shape _)). apply fill_missing_shape.
  - rewrite caller_view_validate, validate_and_clean_data_unfold.
    destruct (roas_columns df); cbn [fst snd]; [|reflexivity]. split.
    + apply has_col_assign_same.
    + rewrite rebound_remove_outliers by reflexivity. cbn [passed].
      split; intros H c Hc.
      * rewrite <- has_col_prepared_other; [now apply H|].
        intros ->. revert Hc. unfold outlier_columns. clear.
        intros Hc. repeat (apply elem_of_cons in Hc as [Hc|Hc]; [discriminate|]).
        now apply elem_of_nil in Hc.
      * rewrite has_col_prepared_other; [now apply H|].
        intros ->. revert Hc. unfold outlier_columns. clear.
        intros Hc. repeat (apply elem_of_cons in Hc as [Hc|Hc]; [discriminate|]).
        now apply elem_of_nil in Hc.
Qed.
End CleaningTheorems.

Section ShortSeries.
Context {A : Type} `{!Num A} `{!Sqrt A}.

Lemma series_count_le (xs : list A) : (series_count xs <= length xs)%nat.
Proof. unfold series_count. apply List.filter_length_le. Qed.

Lemma series_std_short (xs : list A) :
  (length xs <= 1)%nat → series_std xs = nan.
Proof.
  intros H. unfold series_std. pose proof (series_count_le xs).
  destruct (Nat.leb_spec (series_count xs) 1); [reflexivity|lia].
Qed.

Lemma rows_outlier_step_nil (df : DataFrame A) c :
  rows df = [] → rows (outlier_step df c) = [].
Proof.
  intros H. unfold outlier_step, drop_outliers, select.
  destruct (has_col df c); cbn [rows]; now rewrite H.
Qed.

Lemma len_outlier_step_le (df : DataFrame A) c n :
  (len df <= n)%nat → (len (outlier_step df c) <= n)%nat.
Proof. intros H. etrans; [apply len_outlier_step|done]. Qed.
End ShortSeries.

Lemma f64_leb_3_nan (x : spec_float) : nleb x (nmul (of_Z 3) nan) = false.
Proof. destruct x; reflexivity. Qed.

Lemma f64_outlier_step_short (df : DataFrame spec_float) c :
  (len df <= 1)%nat → has_col df c = true → rows (outlier_step df c) = [].
Proof.
  intros Hl Hc. rewrite rows_outlier_step by done.
  apply filter_none. intros r.
  rewrite series_std_short; [apply f64_leb_3_nan|].
  now rewrite length_map.
Qed.

(** C9 (amended).  For every table with exactly one row that has the
    spend and attributed_revenue columns and at least one of the columns
    marketing_roas, total_revenue, orders, [validate_and_clean_data]
    returns an empty table: the sample standard deviation of a single
    value is NaN, so [abs(value - mean) <= 3 * std] holds for no row. *)
Theorem single_row_table_is_emptied (df : DataFrame spec_float) :
  len df = 1%nat →
  has_col df "spend" = true →
  has_col df "attributed_revenue" = true →
  (∃ c, c ∈ outlier_columns ∧ has_col df c = true) →
  ∃ d, returned (validate_and_clean_data df) = Ok d ∧ rows d = [].
Proof.
  intros Hlen Hs Ha (c & Hc & Hpresent).
  rewrite returned_validate, (roas_columns_ok df Hs Ha).
  eexists; split; [reflexivity|].
  unfold outlier_pass, outlier_columns. cbn [fold_left].
  set (p := prepared df).
  assert (Hp : (len p <= 1)%nat) by (subst p; rewrite len_prepared; lia).
  destruct (has_col p "marketing_roas") eqn:E1.
  { do 2 apply rows_outlier_step_nil. now apply f64_outlier_step_short. }
  rewrite (rows_outlier_step_absent p "marketing_roas" E1).
  destruct (has_col p "total_revenue") eqn:E2.
  { apply rows_outlier_step_nil. now apply f64_outlier_step_short. }
  rewrite (rows_outlier_step_absent p "total_revenue" E2).
  apply f64_outlier_step_short; [done|].
  unfold outlier_columns in Hc.
  apply has_col_prepared in Hpresent. fold p in Hpresent.
  apply elem_of_cons in Hc as [->|Hc]; [congruence|].
  apply elem_of_cons in Hc as [->|Hc]; [congruence|].
  apply elem_of_cons in Hc as [->|Hc]; [done|].
  now apply elem_of_nil in Hc.
Qed.

Lemma single_row_table_is_emptied_witness :
  ∃ d, returned (validate_and_clean_data single_row_table) = Ok d ∧ rows d = [].
Proof.
  apply (single_row_table_is_emptied single_row_table);
    [reflexivity | reflexivity | reflexivity |].
  exists "total_revenue". split; [|reflexivity].
  unfold outlier_columns. apply elem_of_cons. right. apply elem_of_cons. now left.
Defined.

(** C9, counterexample.  A one-row table with the total_revenue column
    and no spend column: the call raises [KeyError] on spend and returns
    no table. *)
Lemma single_row_without_spend_raises :
  len revenue_only_table = 1%nat
  ∧ has_col revenue_only_table "total_revenue" = true
  ∧ returned (validate_and_clean_data revenue_only_table) = KeyError "spend".
Proof. split; [|split]; vm_compute; reflexivity. Qed.

(** C5, counterexample.  On the eleven-day table the code keeps all
    eleven rows (sample standard deviation 3.06: the revenue of 10 lies
    within three of them from the mean), whereas the filter of the
    specification, with the population standard deviation 2.92, drops
    that row. *)
Lemma population_filter_differs :
  (∃ d, returned (validate_and_clean_data eleven_rows_table) = Ok d
        ∧ len d = 11%nat)
  ∧ len (spec_outlier_pass (prepared eleven_rows_table)) = 10%nat.
Proof.
  split; [|vm_compute; reflexivity].
  rewrite returned_validate. eexists. split; [vm_compute roas_columns; reflexivity|].
  vm_compute. reflexivity.
Qed.

(** C8, counterexample.  After the call the caller's table differs from
    what was passed: the missing spend reads 0, the negative revenue
    reads 0, and the table has a new column. *)
Lemma callers_table_is_modified :
  let o := validate_and_clean_data dirty_table in
  caller_view o ≠ dirty_table
  ∧ map (λ r, cell r "spend") (rows dirty_table) = [S754_nan; F64.of_Z 10]
  ∧ map (λ r, cell r "spend") (rows (caller_view o)) = [F64.of_Z 0; F64.of_Z 10]
  ∧ map (λ r, cell r "total_revenue") (rows dirty_table) = [F64.of_Z (-5); F64.of_Z 100]
  ∧ map (λ r, cell r "total_revenue") (rows (caller_view o)) = [F64.of_Z 0; F64.of_Z 100]
  ∧ has_col dirty_table "calculated_marketing_roas" = false
  ∧ has_col (caller_view o) "calculated_marketing_roas" = true.
Proof.
  cbv zeta. split.
  - intros E. apply (f_equal (λ d, has_col d "calculated_marketing_roas")) in E.
    vm_compute in E. discriminate.
  - repeat split; vm_compute; reflexivity.
Qed.

(* ================================================================== *)
(** * Derived ratios                                                   *)
(* ================================================================== *)

Lemma ratio_where_zero (num den : spec_float) :
  F64.is_zero den = true → ratio_where num den = F64.of_Z 0.
Proof. destruct den as [s| | |]; try discriminate. now destruct s. Qed.

Lemma ratio_where_positive {A : Type} `{!Num A} (num den : A) :
  nltb (of_Z 0) den = true → ratio_where num den = ndiv num den.
Proof. intros H. unfold ratio_where. now rewrite H. Qed.

Lemma ratio_replace_inf_not_inf (num den : spec_float) :
  isinf (ratio_replace_inf num den) = false.
Proof.
  unfold ratio_replace_inf.
  destruct (isinf (ndiv num den)) eqn:E; [reflexivity|exact E].
Qed.

(** C1.  The guard of the daily ratios misses the quotient 0/0.  On the
    day without spend and without attributed revenue
    [calculate_daily_performance_metrics] stores NaN in daily_roas (and,
    with no click and no impression, in daily_ctr), where the claim asks
    for exactly 0.  The ratios of [calculate_derived_metrics], written
    with [np.where(den > 0, num / den, 0)], are exactly 0 whenever the
    denominator is 0, and are so on the same day. *)
Theorem daily_ratio_of_zeros_is_nan :
  (∀ num den : spec_float,
     F64.is_zero den = true → ratio_where num den = F64.of_Z 0)
  ∧ ratio_replace_inf (F64.of_Z 0) (F64.of_Z 0) = S754_nan
  ∧ (∃ d, calculate_derived_metrics sort_by_date paused_day_renamed_table = Ok d
          ∧ map (λ r, map (cell r) [ "cac"; "aov"; "ctr"; "cpc";
                                     "conversion_rate"; "revenue_per_impression" ])
                (rows d)
            = [ [ F64.of_Z 0; F64.of_Z 100; F64.of_Z 0; F64.of_Z 0;
                  F64.of_Z 0; F64.of_Z 0 ] ])
  ∧ ∃ d, calculate_daily_performance_metrics sort_by_date paused_day_table = Ok d
         ∧ map (λ r, (cell r "spend", cell r "attributed revenue"))
               (rows paused_day_table) = [ (F64.of_Z 0, F64.of_Z 0) ]
         ∧ map (λ r, cell r "daily_roas") (rows d) = [ S754_nan ]
         ∧ map (λ r, cell r "daily_ctr") (rows d) = [ S754_nan ].
Proof.
  split; [exact ratio_where_zero|]. split; [reflexivity|]. split.
  - eexists. split; vm_compute; reflexivity.
  - eexists. split; [vm_compute; reflexivity|].
    repeat split; vm_compute; reflexivity.
Qed.

(* ================================================================== *)
(** * Trend direction                                                  *)
(* ================================================================== *)

Section TrendTheorems.
Context {A : Type} `{!Num A}.
Local Open Scope num_scope.

Variable SKLEARN_AVAILABLE : bool.
Variable regression_coef : list A → option A.


(** C10.  [calculate_trend_direction] returns on every series, whatever
    the regression library does: the outcome is never an exception, the
    direction is one of "increasing", "decreasing", "stable", and when
    the slope computation raises the result is ("stable", 0). *)
Theorem trend_direction_total (series : list A) :
  ∃ direction slope,
    calculate_trend_direction SKLEARN_AVAILABLE regression_coef series
    = Returns (direction, slope)
    ∧ direction ∈ [ "increasing"; "decreasing"; "stable" ]
    ∧ ((2 <= length series)%nat → SKLEARN_AVAILABLE = true →
       regression_coef series = None →
       (direction, slope) = ("stable", #0)).
Proof.
  unfold calculate_trend_direction, classify.
  destruct (length series <? 2)%nat eqn:E.
  { exists "stable", #0. split; [done|]. split; [set_solver|done]. }
  destruct SKLEARN_AVAILABLE.
  - destruct (regression_coef series) as [slope|]; cbn [try_except].
    + repeat match goal with |- context [if ?b then _ else _] => destruct b end;
        eexists _, _; (split; [reflexivity|]); (split; [set_solver|done]).
    + exists "stable", #0. split; [done|]. split; [set_solver|done].
  - cbn [try_except].
    repeat match goal with |- context [if ?b then _ else _] => destruct b end;
      eexists _, _; (split; [reflexivity|]); (split; [set_solver|done]).
Qed.
End TrendTheorems.


Lemma trend_direction_total_witness :
  calculate_trend_direction true ols_slope [ F64.of_Z 1; S754_nan; F64.of_Z 4 ]
  = Returns ("stable", F64.of_Z 0).
Proof.
  destruct (trend_direction_total true ols_slope
              [ F64.of_Z 1; S754_nan; F64.of_Z 4 ]) as (d & s & E & _ & H).
  rewrite E. f_equal. apply H; [cbn; lia|reflexivity|reflexivity].
Defined.

(* ================================================================== *)
(** * Column discovery                                                 *)
(* ================================================================== *)

Lemma find_all_false {T : Type} (f : T → bool) (l : list T) :
  Forall (λ x, f x = false) l → List.find f l = None.
Proof. induction 1 as [|x l Hx _ IH]; cbn; [done|]. now rewrite Hx. Qed.

Lemma lookup_map_first_ne (test : string → bool) (key : string) (cols : list string)
    (mapping : gmap string string) (k : string) :
  key ≠ k → map_first test key cols mapping !! k = mapping !! k.
Proof.
  intros Hne. unfold map_first. destruct (List.find test cols) as [c|]; [|done].
  now apply lookup_insert_ne.
Qed.

Lemma lookup_map_first_none (test : string → bool) (key : string) (cols : list string)
    (mapping : gmap string string) (k : string) :
  List.find test cols = None → map_first test key cols mapping !! k = mapping !! k.
Proof. intros H. unfold map_first. now rewrite H. Qed.

Lemma platform_keys (p q : string) :
  p ∈ platforms → q ∈ platforms →
  (p +:+ "_attributed_revenue" = q +:+ "_attributed_revenue" → p = q)
  ∧ (p +:+ "_spend" = q +:+ "_spend" → p = q)
  ∧ p +:+ "_attributed_revenue" ≠ q +:+ "_spend"
  ∧ p +:+ "_attributed_revenue" ≠ "total_revenue"
  ∧ p +:+ "_spend" ≠ "total_revenue"
  ∧ p +:+ "_attributed_revenue" ≠ "attribution_rate"
  ∧ p +:+ "_spend" ≠ "attribution_rate".
Proof.
  unfold platforms. intros Hp Hq.
  apply elem_of_cons in Hp as [->|Hp]; [|apply elem_of_cons in Hp as [->|Hp];
    [|apply elem_of_cons in Hp as [->|Hp]; [|now apply elem_of_nil in Hp]]];
  (apply elem_of_cons in Hq as [->|Hq]; [|apply elem_of_cons in Hq as [->|Hq];
    [|apply elem_of_cons in Hq as [->|Hq]; [|now apply elem_of_nil in Hq]]]);
  repeat split; try reflexivity; try discriminate; intros H; discriminate H.
Qed.

Section Finder.
Context {A : Type}.
Variable df : DataFrame A.

Lemma finder_loop_unmapped (platform word key : string) (l : list string)
    (mapping : gmap string string) :
  platform ∈ platforms →
  (word = "spend" ∧ key = platform +:+ "_spend"
   ∨ word = "revenue" ∧ key = platform +:+ "_attributed_revenue") →
  no_column_for df platform word →
  (∀ p, p ∈ l → p ∈ platforms) →
  mapping !! key = None →
  fold_left (finder_step df) l mapping !! key = None.
Proof.
  intros Hp Hkey Hno. revert mapping.
  induction l as [|p l IH]; intros mapping Hl Hm; [exact Hm|].
  cbn [fold_left]. apply IH; [intros; apply Hl; now right|].
  assert (Hpl : p ∈ platforms) by (apply Hl; now left).
  destruct (platform_keys p platform Hpl Hp) as (K1 & K2 & K3 & _).
  destruct (platform_keys platform p Hp Hpl) as (_ & _ & K4 & _).
  unfold no_column_for in Hno. apply find_all_false in Hno.
  unfold finder_step.
  destruct Hkey as [[-> ->]|[-> ->]].
  - destruct (decide (p = platform)) as [->|Hne].
    + rewrite lookup_map_first_none by exact Hno.
      now rewrite lookup_map_first_ne by exact K3.
    + rewrite lookup_map_first_ne by (intros E; now apply Hne, K2).
      now rewrite lookup_map_first_ne by exact K3.
  - destruct (decide (p = platform)) as [->|Hne].
    + rewrite lookup_map_first_ne by (intros E; now apply K4).
      now rewrite lookup_map_first_none by exact Hno.
    + rewrite lookup_map_first_ne by (intros E; now apply K4).
      now rewrite lookup_map_first_ne by (intros E; now apply Hne, K1).
Qed.

Lemma smart_column_finder_loop :
  smart_column_finder df
  = map_first (λ c, contains "attribution" (lower c) && contains "rate" (lower c))
              "attribution_rate" (columns df)
      (fold_left (finder_step df) platforms
         (map_first (λ c, contains "total" (lower c) && contains "revenue" (lower c)
                          || String.eqb (lower c) "revenue")
                    "total_revenue" (columns df) ∅)).
Proof. reflexivity. Qed.

(** A platform none of whose columns is in the table is not mapped. *)
Lemma smart_column_finder_unmapped (platform : string) :
  platform ∈ platforms →
  (no_column_for df platform "revenue" →
   smart_column_finder df !! (platform +:+ "_attributed_revenue") = None)
  ∧ (no_column_for df platform "spend" →
     smart_column_finder df !! (platform +:+ "_spend") = None).
Proof.
  intros Hp. rewrite smart_column_finder_loop.
  destruct (platform_keys platform platform Hp Hp) as (_ & _ & _ & K1 & K2 & K3 & K4).
  split; intros Hno.
  - rewrite lookup_map_first_ne by (intros E; now apply K3).
    apply (finder_loop_unmapped platform "revenue"); auto.
    now rewrite lookup_map_first_ne by (intros E; now apply K1).
  - rewrite lookup_map_first_ne by (intros E; now apply K4).
    apply (finder_loop_unmapped platform "spend"); auto.
    now rewrite lookup_map_first_ne by (intros E; now apply K2).
Qed.

Lemma finder_loop_total_revenue (l : list string) (mapping : gmap string string) :
  (∀ p, p ∈ l → p ∈ platforms) →
  fold_left (finder_step df) l mapping !! "total_revenue" = mapping !! "total_revenue".
Proof.
  revert mapping. induction l as [|p l IH]; intros mapping Hl; [reflexivity|].
  cbn [fold_left]. rewrite IH by (intros; apply Hl; now right).
  assert (Hpl : p ∈ platforms) by (apply Hl; now left).
  destruct (platform_keys p p Hpl Hpl) as (_ & _ & _ & K1 & K2 & _).
  unfold finder_step. now rewrite !lookup_map_first_ne.
Qed.

(** The total-revenue column the finder names is a column of the table. *)
Lemma smart_column_finder_total_revenue (c : string) :
  smart_column_finder df !! "total_revenue" = Some c → has_col df c = true.
Proof.
  rewrite smart_column_finder_loop.
  rewrite lookup_map_first_ne by discriminate.
  rewrite finder_loop_total_revenue by auto.
  unfold map_first.
  destruct (List.find _ (columns df)) as [c'|] eqn:E.
  - rewrite lookup_insert_eq. intros [= <-].
    apply List.find_some in E as [E _]. unfold has_col.
    apply bool_decide_eq_true. now apply list_elem_of_In.
  - now rewrite lookup_empty.
Qed.
End Finder.

(* ================================================================== *)
(** * Attribution: absent platforms                                    *)
(* ================================================================== *)

Lemma title_platforms_inj (p p' : string) :
  p ∈ platforms → p' ∈ platforms → p' ≠ p → title p' ≠ title p.
Proof.
  unfold platforms. intros Hp Hp' Hne.
  repeat (apply elem_of_cons in Hp as [->|Hp]);
    try (now apply elem_of_nil in Hp);
    repeat (apply elem_of_cons in Hp' as [->|Hp']);
    try (now apply elem_of_nil in Hp'); try done; vm_compute; discriminate.
Qed.

Section AttributionFacts.
Context {A : Type} `{!Num A}.
Local Open Scope num_scope.

Variable sort_values : list (Row A) → list (Row A).
Variable np_exp : A → A.

Lemma col_sum_present (df : DataFrame A) c :
  has_col df c = true → col_sum df c = Ok (series_sum (column_values df c)).
Proof. intros H. unfold col_sum, col. now rewrite H. Qed.

Lemma col_sum_absent (df : DataFrame A) c :
  has_col df c = false → col_sum df c = KeyError c.
Proof. intros H. unfold col_sum, col. now rewrite H. Qed.

Lemma mapped_column_absent (df : DataFrame A) (m : gmap string string) key :
  (∀ c, m !! key = Some c → has_col df c = false) →
  mapped_column df m key = None.
Proof.
  intros H. unfold mapped_column. destruct (m !! key) as [c|]; [|done].
  rewrite (H c eq_refl). now rewrite andb_false_r.
Qed.

Section Loops.
Variable df : DataFrame A.
Variable column_mapping : gmap string string.
Variable p : string.
Hypothesis p_platform : p ∈ platforms.
Hypothesis no_revenue :
  mapped_column df column_mapping (p +:+ "_attributed_revenue") = None.
Hypothesis no_spend : mapped_column df column_mapping (p +:+ "_spend") = None.

Lemma first_loop_zero (l : list string) st :
  (∀ p', p' ∈ l → p' ∈ platforms) →
  p ∈ l ∨ zeroed p st →
  zeroed p (fold_left (first_loop_step sort_values np_exp df column_mapping) l st).
Proof.
  revert st. induction l as [|p' l IH]; intros st Hl Hst.
  - destruct Hst as [Hp|Hz]; [now apply elem_of_nil in Hp|done].
  - cbn [fold_left]. apply IH; [intros; apply Hl; now right|].
    destruct (decide (p' = p)) as [->|Hne].
    + right. destruct st as [[lc td] ts]. unfold first_loop_step.
      rewrite no_revenue. destruct (mapped_column _ _ (p +:+ "_spend"));
        split; apply lookup_insert_eq.
    + destruct Hst as [Hp|[Hz1 Hz2]].
      * left. apply elem_of_cons in Hp as [Hp|Hp]; [congruence|done].
      * right. destruct st as [[lc td] ts]. unfold first_loop_step.
        assert (Ht : title p' ≠ title p).
        { apply title_platforms_inj; [done| |done]. apply Hl. now left. }
        cbn [fst snd] in Hz1, Hz2.
        destruct (mapped_column _ _ (p' +:+ "_attributed_revenue"));
          destruct (mapped_column _ _ (p' +:+ "_spend"));
          split; cbn [fst snd]; now rewrite lookup_insert_ne.
Qed.

Lemma second_loop_zero (l : list string) total_spend total_revenue sb :
  (∀ p', p' ∈ l → p' ∈ platforms) →
  p ∈ l ∨ sb !! title p = Some #0 →
  fold_left (second_loop_step df column_mapping total_spend total_revenue) l sb
    !! title p = Some #0.
Proof.
  revert sb. induction l as [|p' l IH]; intros sb Hl Hsb.
  - destruct Hsb as [Hp|Hz]; [now apply elem_of_nil in Hp|done].
  - cbn [fold_left]. apply IH; [intros; apply Hl; now right|].
    destruct (decide (p' = p)) as [->|Hne].
    + right. unfold second_loop_step. rewrite no_spend. apply lookup_insert_eq.
    + destruct Hsb as [Hp|Hz].
      * left. apply elem_of_cons in Hp as [Hp|Hp]; [congruence|done].
      * right. unfold second_loop_step.
        assert (Ht : title p' ≠ title p).
        { apply title_platforms_inj; [done| |done]. apply Hl. now left. }
        destruct (mapped_column _ _ (p' +:+ "_spend"));
          [destruct (total_spend >? #0)|]; now rewrite lookup_insert_ne.
Qed.
End Loops.

(** The allocations of a platform whose mapped columns are not in the
    table. *)
Lemma smart_absent_platform
    (df : DataFrame A) (column_mapping : gmap string string)
    (platform revenue : string) :
  platform ∈ platforms →
  column_mapping !! "total_revenue" = Some revenue →
  has_col df revenue = true →
  (∀ c, column_mapping !! (platform +:+ "_attributed_revenue") = Some c →
        has_col df c = false) →
  (∀ c, column_mapping !! (platform +:+ "_spend") = Some c →
        has_col df c = false) →
  ∃ m,
    calculate_attribution_models_smart sort_values np_exp df column_mapping
      = Ok (Some m)
    ∧ smart_last_click m !! title platform = Some #0
    ∧ smart_spend_based m !! title platform = Some #0
    ∧ smart_time_decay m !! title platform = Some #0
    ∧ ∀ key, key ∈ [ "Facebook"; "Google"; "TikTok" ] →
        smart_linear m !! key
        = Some (series_sum (column_values df revenue) / #3).
Proof.
  intros Hp Hrev Hcol Ha Hs.
  apply mapped_column_absent in Ha, Hs.
  unfold calculate_attribution_models_smart. rewrite Hrev.
  rewrite (col_sum_present df revenue Hcol). cbn [mbind result_bind].
  pose proof (first_loop_zero df column_mapping platform Hp Ha Hs platforms
                (∅, ∅, #0) (λ _ H, H) (or_introl Hp)) as [H1 H2].
  destruct (fold_left _ platforms (∅, ∅, #0)) as [[lc td] ts].
  cbn [fst snd] in H1, H2.
  eexists. split; [reflexivity|]. cbn [smart_last_click smart_spend_based
    smart_time_decay smart_linear].
  split; [done|]. split.
  { apply (second_loop_zero df column_mapping platform Hp Hs);
      [done|now left]. }
  split; [done|].
  intros key Hk.
  apply elem_of_cons in Hk as [->|Hk]; [now simplify_map_eq|].
  apply elem_of_cons in Hk as [->|Hk]; [now simplify_map_eq|].
  apply elem_of_cons in Hk as [->|Hk]; [now simplify_map_eq|].
  now apply elem_of_nil in Hk.
Qed.

(** C3 (amended).  For every table in which a platform's source columns
    (its spend and attributed-revenue columns) are absent,
    [calculate_attribution_models_smart] does not raise and assigns that
    platform 0 in the last-click, spend-based and time-decay models; in
    the linear model every platform, present or not, gets
    total_revenue / 3.  This holds for every column mapping that names
    a total-revenue column of the table and no column of the table for
    the platform, and for the mapping [smart_column_finder] builds; with
    the latter the function returns [None] when no total-revenue column
    is found. *)
Theorem absent_platform_allocations (df : DataFrame A) (platform : string) :
  platform ∈ platforms →
  (∀ (column_mapping : gmap string string) (revenue : string),
     column_mapping !! "total_revenue" = Some revenue →
     has_col df revenue = true →
     (∀ c, column_mapping !! (platform +:+ "_attributed_revenue") = Some c →
           has_col df c = false) →
     (∀ c, column_mapping !! (platform +:+ "_spend") = Some c →
           has_col df c = false) →
     ∃ m,
       calculate_attribution_models_smart sort_values np_exp df column_mapping
         = Ok (Some m)
       ∧ smart_last_click m !! title platform = Some #0
       ∧ smart_spend_based m !! title platform = Some #0
       ∧ smart_time_decay m !! title platform = Some #0
       ∧ ∀ key, key ∈ [ "Facebook"; "Google"; "TikTok" ] →
           smart_linear m !! key
           = Some (series_sum (column_values df revenue) / #3))
  ∧ (no_column_for df platform "revenue" →
     no_column_for df platform "spend" →
     match calculate_attribution_models_smart sort_values np_exp df
             (smart_column_finder df) with
     | Ok (Some m) =>
         smart_last_click m !! title platform = Some #0
         ∧ smart_spend_based m !! title platform = Some #0
         ∧ smart_time_decay m !! title platform = Some #0
         ∧ ∃ revenue,
             smart_column_finder df !! "total_revenue" = Some revenue
             ∧ ∀ key, key ∈ [ "Facebook"; "Google"; "TikTok" ] →
                 smart_linear m !! key
                 = Some (series_sum (column_values df revenue) / #3)
     | Ok None => smart_column_finder df !! "total_revenue" = None
     | KeyError _ => False
     end).
Proof.
  intros Hp. split.
  - intros column_mapping revenue. now apply smart_absent_platform.
  - intros Hrevenue Hspend.
    destruct (smart_column_finder_unmapped df platform Hp) as [U1 U2].
    specialize (U1 Hrevenue). specialize (U2 Hspend).
    destruct (smart_column_finder df !! "total_revenue") as [revenue|] eqn:Hrev.
    + destruct (smart_absent_platform df (smart_column_finder df) platform revenue)
        as (m & -> & H1 & H2 & H3 & H4); auto.
      * now apply smart_column_finder_total_revenue.
      * intros c Hc. rewrite U1 in Hc. discriminate.
      * intros c Hc. rewrite U2 in Hc. discriminate.
      * repeat (split; [assumption|]). now exists revenue.
    + unfold calculate_attribution_models_smart. now rewrite Hrev.
Qed.
End AttributionFacts.

(* ================================================================== *)
(** * Date order and the two halves                                    *)
(* ================================================================== *)

Section SortFacts.
Context {A : Type}.

Lemma insert_by_date_perm (r : Row A) l : Permutation (r :: l) (insert_by_date r l).
Proof.
  induction l as [|r' l IH]; cbn; [done|].
  destruct (date r <=? date r')%Z; [done|].
  rewrite perm_swap. now constructor.
Qed.

Lemma sort_by_date_perm (l : list (Row A)) : Permutation l (sort_by_date l).
Proof.
  induction l as [|r l IH]; cbn; [done|].
  rewrite <- insert_by_date_perm. now constructor.
Qed.

Lemma insert_by_date_sorted (r : Row A) l :
  StronglySorted date_le l → StronglySorted date_le (insert_by_date r l).
Proof.
  induction 1 as [|r' l Hs IH Hall]; cbn; [repeat constructor|].
  destruct (Z.leb_spec (date r) (date r')) as [Hle|Hgt].
  - constructor; [now constructor|]. constructor; [done|].
    eapply Forall_impl; [exact Hall|]. unfold date_le. intros; lia.
  - constructor; [done|].
    eapply Permutation_Forall; [apply insert_by_date_perm|].
    constructor; [unfold date_le; lia|done].
Qed.

Lemma sort_by_date_sorted (l : list (Row A)) : StronglySorted date_le (sort_by_date l).
Proof.
  induction l as [|r l IH]; cbn; [constructor|]. now apply insert_by_date_sorted.
Qed.
End SortFacts.

Section KpiFacts.
Context {A : Type} `{!Num A}.
Local Open Scope num_scope.

Variable sort_values : list (Row A) → list (Row A).
Hypothesis sort_values_perm : ∀ l, Permutation l (sort_values l).
Hypothesis sort_values_sorted : ∀ l, StronglySorted date_le (sort_values l).

Lemma col_sum_ok_inv (df : DataFrame A) c v :
  col_sum df c = Ok v → v = series_sum (column_values df c).
Proof.
  unfold col_sum, col. destruct (has_col df c); [|discriminate].
  cbn [mbind result_bind]. intros H. now apply Ok_inj in H.
Qed.

Lemma col_mean_ok_inv (df : DataFrame A) c v :
  col_mean df c = Ok v → v = series_mean (column_values df c).
Proof.
  unfold col_mean, col. destruct (has_col df c); [|discriminate].
  cbn [mbind result_bind]. intros H. now apply Ok_inj in H.
Qed.

Lemma halves_append (df : DataFrame A) :
  rows (first_half sort_values df) ++ rows (second_half sort_values df)
  = sort_values (rows df).
Proof. unfold first_half, second_half. cbn [rows sort_by]. apply take_drop. Qed.

Lemma len_sort_by (df : DataFrame A) : len (sort_by sort_values df) = len df.
Proof.
  unfold len, sort_by. cbn [rows]. symmetry.
  apply Permutation_length, sort_values_perm.
Qed.

Lemma len_first_half (df : DataFrame A) :
  len (first_half sort_values df) = (len df / 2)%nat.
Proof.
  unfold first_half, mid_point. rewrite len_sort_by.
  unfold len at 1. cbn [rows]. rewrite length_take.
  fold (len (sort_by sort_values df)). rewrite len_sort_by.
  pose proof (Nat.Div0.div_le_upper_bound (len df) 2 (len df)). 
  assert (len df / 2 <= len df)%nat by (apply Nat.Div0.div_le_upper_bound; lia).
  lia.
Qed.

Lemma len_second_half (df : DataFrame A) :
  len (second_half sort_values df) = (len df - len df / 2)%nat.
Proof.
  unfold second_half, mid_point. rewrite len_sort_by.
  unfold len at 1. cbn [rows]. rewrite length_drop.
  fold (len (sort_by sort_values df)). now rewrite len_sort_by.
Qed.

Lemma kpi_fields (df : DataFrame A) (k : KPIs) :
  calculate_kpis sort_values df = Ok k →
  let first := first_half sort_values df in
  let second := second_half sort_values df in
  kpi_revenue_growth k
    = growth (series_sum (column_values first (revenue_col df)))
             (series_sum (column_values second (revenue_col df)))
  ∧ kpi_order_growth k
    = growth (series_sum (column_values first (orders_col df)))
             (series_sum (column_values second (orders_col df)))
  ∧ kpi_roas_trend k
    = series_mean (column_values second "marketing_roas")
      - series_mean (column_values first "marketing_roas")
  ∧ kpi_margin_trend k
    = series_mean (column_values second "profit_margin")
      - series_mean (column_values first "profit_margin").
Proof.
  intros H. unfold calculate_kpis in H. cbv zeta in H.
  repeat (apply bind_ok_inv in H as (? & Hx & H);
          first [apply col_sum_ok_inv in Hx | apply col_mean_ok_inv in Hx];
          subst).
  apply Ok_inj in H. subst k. cbn [kpi_revenue_growth kpi_order_growth
    kpi_roas_trend kpi_margin_trend]. done.
Qed.
End KpiFacts.

(* ================================================================== *)
(** * Exact arithmetic                                                 *)
(* ================================================================== *)

Module ExactFacts.

Lemma of_Z_0 : Exact.of_Z 0 = XFin 0%Qc.
Proof. reflexivity. Qed.

Lemma is_zero_false (q : Qc) : q ≠ 0%Qc → Exact.is_zero q = false.
Proof.
  intros H. unfold Exact.is_zero. destruct (q ?= 0)%Qc eqn:E; try reflexivity.
  apply Qceq_alt in E. contradiction.
Qed.

Lemma pos_lt (x : exact) :
  isinf x = false → nltb (of_Z 0) x = true → ∃ q, x = XFin q ∧ (0 < q)%Qc.
Proof.
  destruct x as [q|s|]; try discriminate. intros _ H.
  exists q. split; [reflexivity|].
  cbn [nltb exact_num of_Z] in H. rewrite of_Z_0 in H.
  unfold Exact.ltb, Exact.compare in H.
  apply Qclt_alt. now destruct (0 ?= q)%Qc.
Qed.

Lemma pos_ne (q : Qc) : (0 < q)%Qc → q ≠ 0%Qc.
Proof. intros H ->. now apply Qclt_not_eq in H. Qed.

Lemma three_ne : Q2Qc (inject_Z 3) ≠ 0%Qc.
Proof. intros H. apply (f_equal this) in H. discriminate. Qed.

(** Growth of a sum that doubled. *)
Lemma growth_double (a b : exact) :
  isinf a = false → nltb (of_Z 0) a = true → b = nmul (of_Z 2) a →
  growth a b = of_Z 100.
Proof.
  intros Hfin Hpos ->. destruct (pos_lt a Hfin Hpos) as (q & -> & Hq).
  unfold growth. rewrite Hpos.
  cbn [nsub ndiv nmul of_Z exact_num].
  unfold Exact.mul, Exact.of_Z, Exact.sub, Exact.opp, Exact.add, Exact.div.
  rewrite (is_zero_false q (pos_ne q Hq)). f_equal.
  replace (Q2Qc (inject_Z 2)) with (1 + 1)%Qc by now apply Qc_is_canon.
  generalize (Q2Qc (inject_Z 100)). intros c. field. now apply pos_ne.
Qed.

(** Three equal shares of a total. *)
Lemma thirds_sum (r : Qc) :
  let third := Exact.div (XFin r) (Exact.of_Z 3) in
  Exact.add (Exact.add third third) third = XFin r.
Proof.
  cbv zeta. unfold Exact.of_Z, Exact.div. rewrite (is_zero_false _ three_ne).
  unfold Exact.add. f_equal.
  replace (Q2Qc (inject_Z 3)) with (1 + 1 + 1)%Qc by now apply Qc_is_canon.
  field. intros H. apply (f_equal this) in H. discriminate.
Qed.

(** Three shares of a total, proportional to [f], [g] and [t]. *)
Lemma shares_sum (f g t r T : Qc) :
  T = (f + g + t)%Qc → (0 < T)%Qc →
  let share s := Exact.mul (Exact.div (XFin s) (XFin T)) (XFin r) in
  Exact.add (Exact.add (share f) (share g)) (share t) = XFin r.
Proof.
  intros -> H. cbv zeta. unfold Exact.add, Exact.div, Exact.mul.
  rewrite (is_zero_false _ (pos_ne _ H)). f_equal.
  field. now apply pos_ne.
Qed.

Lemma np_sum_fin (xs : list exact) (a : Qc) :
  Forall (λ x, ∃ q, x = XFin q) xs →
  ∃ q, fold_left nadd xs (XFin a) = XFin q.
Proof.
  intros H. revert a. induction H as [|x xs [q ->] _ IH]; intros a; cbn; eauto.
Qed.

Lemma series_sum_fin (xs : list exact) :
  Forall (λ x, isinf x = false) xs → ∃ q, series_sum xs = XFin q.
Proof.
  intros H. unfold series_sum, np_sum.
  cbn [of_Z exact_num]. rewrite of_Z_0.
  apply np_sum_fin. apply Forall_map. eapply Forall_impl; [exact H|].
  intros [q|s|] Hx; try discriminate; unfold fillna0; cbn; eauto.
Qed.

End ExactFacts.

Lemma finite_cells_sum (df : DataFrame exact) c :
  finite_cells df → ∃ q, series_sum (column_values df c) = XFin q.
Proof.
  intros H. apply ExactFacts.series_sum_fin. unfold column_values.
  apply Forall_map. eapply Forall_impl; [exact H|]. intros r Hr. apply Hr.
Qed.

Lemma model_spend_based_sums (df : DataFrame exact) (m : attribution_models) :
  finite_cells df →
  calculate_attribution_model df = Ok m →
  let sum c := series_sum (column_values df c) in
  nltb (of_Z 0) (nadd (nadd (sum "facebook_spend") (sum "google_spend"))
                      (sum "tiktok_spend")) = true →
  nadd (nadd (allocation (spend_based m) "facebook")
             (allocation (spend_based m) "google"))
       (allocation (spend_based m) "tiktok")
  = sum (revenue_col df)
  ∧ nadd (nadd (allocation (linear m) "facebook")
               (allocation (linear m) "google"))
         (allocation (linear m) "tiktok")
    = sum (revenue_col df).
Proof.
  intros Hfin H. cbv zeta. unfold calculate_attribution_model in H.
  cbv zeta in H.
  repeat (apply bind_ok_inv in H as (? & Hx & H);
          apply col_sum_ok_inv in Hx; subst).
  apply Ok_inj in H. subst m. cbn [spend_based linear].
  destruct (finite_cells_sum df "facebook_spend" Hfin) as [f ->].
  destruct (finite_cells_sum df "google_spend" Hfin) as [g ->].
  destruct (finite_cells_sum df "tiktok_spend" Hfin) as [t ->].
  destruct (finite_cells_sum df (revenue_col df) Hfin) as [r ->].
  intros Hpos. rewrite Hpos.
  unfold allocation, by_platform.
  rewrite !lookup_insert_eq.
  rewrite !(lookup_insert_ne _ "facebook" "google") by done.
  rewrite !lookup_insert_eq.
  rewrite !(lookup_insert_ne _ "facebook" "tiktok") by done.
  rewrite !(lookup_insert_ne _ "google" "tiktok") by done.
  rewrite !lookup_singleton_eq. cbn [default].
  split; [|apply ExactFacts.thirds_sum].
  apply ExactFacts.pos_lt in Hpos as (T & HT & Hlt); [|reflexivity].
  cbn [nadd exact_num Exact.add] in HT |- *. apply (f_equal (λ x, match x with XFin q => q | _ => 0%Qc end)) in HT.
  cbn in HT. rewrite HT. now apply ExactFacts.shares_sum.
Qed.

Section SmartSum.
Variable sort_values : list (Row exact) → list (Row exact).
Variable np_exp : exact → exact.
Variable df : DataFrame exact.
Variable column_mapping : gmap string string.

Lemma first_loop_total_spend st platform :
  (first_loop_step sort_values np_exp df column_mapping st platform).2
  = match mapped_column df column_mapping (platform +:+ "_spend") with
    | Some spend_col => nadd st.2 (series_sum (column_values df spend_col))
    | None => st.2
    end.
Proof.
  destruct st as [[lc td] ts]. unfold first_loop_step.
  destruct (mapped_column _ _ (platform +:+ "_attributed_revenue"));
    destruct (mapped_column _ _ (platform +:+ "_spend")); reflexivity.
Qed.

Lemma smart_spend_based_sums (revenue fs gs ts : string) (m : smart_models) :
  finite_cells df →
  column_mapping !! "total_revenue" = Some revenue →
  mapped_column df column_mapping "facebook_spend" = Some fs →
  mapped_column df column_mapping "google_spend" = Some gs →
  mapped_column df column_mapping "tiktok_spend" = Some ts →
  calculate_attribution_models_smart sort_values np_exp df column_mapping
    = Ok (Some m) →
  let sum c := series_sum (column_values df c) in
  nltb (of_Z 0) (nadd (nadd (nadd (of_Z 0) (sum fs)) (sum gs)) (sum ts)) = true →
  nadd (nadd (allocation (smart_spend_based m) "Facebook")
             (allocation (smart_spend_based m) "Google"))
       (allocation (smart_spend_based m) "Tiktok")
  = sum revenue
  ∧ nadd (nadd (allocation (smart_linear m) "Facebook")
               (allocation (smart_linear m) "Google"))
         (allocation (smart_linear m) "TikTok")
    = sum revenue.
Proof.
  intros Hfin Hrev Hf Hg Ht H. cbv zeta.
  unfold calculate_attribution_models_smart in H. rewrite Hrev in H.
  apply bind_ok_inv in H as (total & Htot & H).
  apply col_sum_ok_inv in Htot. subst total.
  pose proof (first_loop_total_spend
    (fold_left (first_loop_step sort_values np_exp df column_mapping)
               ["facebook"; "google"] (∅, ∅, of_Z 0)) "tiktok") as E3.
  pose proof (first_loop_total_spend
    (fold_left (first_loop_step sort_values np_exp df column_mapping)
               ["facebook"] (∅, ∅, of_Z 0)) "google") as E2.
  pose proof (first_loop_total_spend (∅, ∅, of_Z 0) "facebook") as E1.
  change ("facebook" +:+ "_spend") with "facebook_spend" in E1.
  change ("google" +:+ "_spend") with "google_spend" in E2.
  change ("tiktok" +:+ "_spend") with "tiktok_spend" in E3.
  rewrite Hf in E1. rewrite Hg in E2. rewrite Ht in E3.
  cbn [fold_left] in E2, E3. rewrite E1 in E2. rewrite E2 in E3.
  cbn [snd] in E3. clear E1 E2.
  unfold platforms in H. cbn [fold_left] in H.
  destruct (first_loop_step _ _ _ _ (first_loop_step _ _ _ _ _ _) _)
    as [[lc td] total_spend].
  cbn [snd] in E3. subst total_spend.
  unfold second_loop_step in H.
  change ("facebook" +:+ "_spend") with "facebook_spend" in H.
  change ("google" +:+ "_spend") with "google_spend" in H.
  change ("tiktok" +:+ "_spend") with "tiktok_spend" in H.
  rewrite Hf, Hg, Ht in H.
  change (title "facebook") with "Facebook" in H.
  change (title "google") with "Google" in H.
  change (title "tiktok") with "Tiktok" in H.
  intros Hpos. rewrite Hpos in H.
  apply Ok_inj in H. apply (inj Some) in H. subst m.
  cbn [smart_spend_based smart_linear].
  destruct (finite_cells_sum df fs Hfin) as [f Ef].
  destruct (finite_cells_sum df gs Hfin) as [g Eg].
  destruct (finite_cells_sum df ts Hfin) as [t Et].
  destruct (finite_cells_sum df revenue Hfin) as [r Er].
  rewrite Ef, Eg, Et in Hpos |- *. rewrite Er.
  unfold allocation.
  rewrite !(lookup_insert_ne _ "Tiktok" "Facebook") by done.
  rewrite !(lookup_insert_ne _ "Google" "Facebook") by done.
  rewrite !(lookup_insert_ne _ "Tiktok" "Google") by done.
  rewrite !lookup_insert_eq.
  rewrite !(lookup_insert_ne _ "Facebook" "Google") by done.
  rewrite !lookup_insert_eq.
  rewrite !(lookup_insert_ne _ "Facebook" "TikTok") by done.
  rewrite !(lookup_insert_ne _ "Google" "TikTok") by done.
  rewrite !lookup_singleton_eq. cbn [default].
  split; [|apply ExactFacts.thirds_sum].
  apply ExactFacts.pos_lt in Hpos as (T & HT & Hlt); [|reflexivity].
  cbn [nadd exact_num Exact.add of_Z] in HT |- *.
  unfold Exact.of_Z in HT |- *. cbn [Exact.add] in HT |- *.
  apply (f_equal (λ x, match x with XFin q => q | _ => 0%Qc end)) in HT.
  cbn beta iota in HT. rewrite HT. apply ExactFacts.shares_sum; [|done].
  rewrite <- HT. 
  replace (Q2Qc (inject_Z 0)) with 0%Qc by now apply Qc_is_canon. ring.
Qed.
End SmartSum.

(* ================================================================== *)
(** * Attribution: the sum law                                         *)
(* ================================================================== *)

Lemma exact_row_finite (d : Z) (l : list (string * Z)) (c : string) :
  isinf (cell (exact_row d l) c) = false.
Proof.
  unfold cell, exact_row. cbn [cells].
  induction l as [|[k z] l IH]; cbn [map list_to_map foldr].
  - now rewrite lookup_empty.
  - cbn [fst snd]. destruct (decide (k = c)) as [->|Hne].
    + now rewrite lookup_insert_eq.
    + now rewrite lookup_insert_ne.
Qed.

(** The sum law in exact arithmetic (no rounding, no overflow): for
    every table without infinite values that has the three platforms'
    spend columns and a positive total platform spend, the spend-based
    allocations of [calculate_attribution_model] and of
    [calculate_attribution_models_smart] sum over the three platforms
    to the total revenue, and so do the linear allocations
    (total_revenue / 3 each). *)
Theorem exact_allocations_sum_to_revenue :
  (∀ (df : DataFrame exact) (m : attribution_models),
     finite_cells df →
     calculate_attribution_model df = Ok m →
     let sum c := series_sum (column_values df c) in
     nltb (of_Z 0) (nadd (nadd (sum "facebook_spend") (sum "google_spend"))
                         (sum "tiktok_spend")) = true →
     nadd (nadd (allocation (spend_based m) "facebook")
                (allocation (spend_based m) "google"))
          (allocation (spend_based m) "tiktok")
     = sum (revenue_col df)
     ∧ nadd (nadd (allocation (linear m) "facebook")
                  (allocation (linear m) "google"))
            (allocation (linear m) "tiktok")
       = sum (revenue_col df))
  ∧ (∀ (sort_values : list (Row exact) → list (Row exact)) (np_exp : exact → exact)
       (df : DataFrame exact) (column_mapping : gmap string string)
       (revenue fs gs ts : string) (m : smart_models),
     finite_cells df →
     column_mapping !! "total_revenue" = Some revenue →
     mapped_column df column_mapping "facebook_spend" = Some fs →
     mapped_column df column_mapping "google_spend" = Some gs →
     mapped_column df column_mapping "tiktok_spend" = Some ts →
     calculate_attribution_models_smart sort_values np_exp df column_mapping
       = Ok (Some m) →
     let sum c := series_sum (column_values df c) in
     nltb (of_Z 0) (nadd (nadd (nadd (of_Z 0) (sum fs)) (sum gs)) (sum ts)) = true →
     nadd (nadd (allocation (smart_spend_based m) "Facebook")
                (allocation (smart_spend_based m) "Google"))
          (allocation (smart_spend_based m) "Tiktok")
     = sum revenue
     ∧ nadd (nadd (allocation (smart_linear m) "Facebook")
                  (allocation (smart_linear m) "Google"))
            (allocation (smart_linear m) "TikTok")
       = sum revenue).
Proof.
  split.
  - exact model_spend_based_sums.
  - exact smart_spend_based_sums.
Qed.

Lemma scenario_table_finite : finite_cells scenario_table.
Proof. repeat constructor; apply exact_row_finite. Qed.

Lemma exact_allocations_sum_to_revenue_witness :
  (∃ m, calculate_attribution_model scenario_table = Ok m
        ∧ nadd (nadd (allocation (spend_based m) "facebook")
                     (allocation (spend_based m) "google"))
               (allocation (spend_based m) "tiktok")
          = Exact.of_Z 1000
        ∧ nadd (nadd (allocation (linear m) "facebook")
                     (allocation (linear m) "google"))
               (allocation (linear m) "tiktok")
          = Exact.of_Z 1000)
  ∧ (∃ m, calculate_attribution_models_smart sort_by_date exp_series
            scenario_table (smart_column_finder scenario_table) = Ok (Some m)
          ∧ nadd (nadd (allocation (smart_spend_based m) "Facebook")
                       (allocation (smart_spend_based m) "Google"))
                 (allocation (smart_spend_based m) "Tiktok")
            = Exact.of_Z 1000
          ∧ nadd (nadd (allocation (smart_linear m) "Facebook")
                       (allocation (smart_linear m) "Google"))
                 (allocation (smart_linear m) "TikTok")
            = Exact.of_Z 1000).
Proof.
  assert (R : series_sum (column_values scenario_table "total_revenue")
              = Exact.of_Z 1000) by (vm_compute; reflexivity).
  split.
  - destruct (calculate_attribution_model scenario_table) as [m|c] eqn:E;
      [|vm_compute in E; discriminate].
    exists m. split; [reflexivity|]. rewrite <- R.
    apply (proj1 exact_allocations_sum_to_revenue scenario_table m
             scenario_table_finite E).
    vm_compute. reflexivity.
  - destruct (calculate_attribution_models_smart sort_by_date exp_series
                scenario_table (smart_column_finder scenario_table))
      as [[m|]|c] eqn:E; [|vm_compute in E; discriminate..].
    exists m. split; [reflexivity|]. rewrite <- R.
    apply (proj2 exact_allocations_sum_to_revenue sort_by_date exp_series
             scenario_table (smart_column_finder scenario_table)
             "total_revenue" "facebook_spend" "google_spend" "tiktok_spend" m
             scenario_table_finite);
      [vm_compute; reflexivity .. | exact E | vm_compute; reflexivity].
Defined.

(* ================================================================== *)
(** * Binary64: the rounding error of the operations                   *)
(* ================================================================== *)

Section Rounding.
Local Open Scope Q_scope.

Lemma pow2_pos (e : Z) : 0 < 2 ^ e.
Proof. apply Qpower_0_lt. reflexivity. Qed.

Lemma pow2_succ (e : Z) : 2 ^ (e + 1) == 2 * 2 ^ e.
Proof. rewrite Qpower_plus by discriminate. change (2 ^ 1) with 2. ring. Qed.

Lemma pow2_plus (a b : Z) : 2 ^ (a + b) == 2 ^ a * 2 ^ b.
Proof. apply Qpower_plus. discriminate. Qed.

Lemma pow2_le (a b : Z) : (a <= b)%Z → 2 ^ a <= 2 ^ b.
Proof. intros H. apply Qpower_le_compat_l; [exact H|]. discriminate. Qed.

Lemma in_class_range r s frac : in_class r s frac → 0 <= frac ∧ frac < 1.
Proof. destruct r, s; unfold in_class; intros H; split; lra. Qed.

Lemma Repr_shr_1 (mrs : shr_record) (e : Z) (v : Q) :
  Repr mrs e v → Repr (shr_1 mrs) (e + 1) v.
Proof.
  destruct mrs as [m r s]. intros [Hm (frac & Hv & Hc)]. cbn [shr_m shr_r shr_s] in *.
  assert (Hb : ∀ (m' : Z) (b : bool),
             (0 <= m')%Z → m = (2 * m' + (if b then 1 else 0))%Z →
             Repr (Build_shr_record m' b (r || s)) (e + 1) v).
  { intros m' b Hm' ->. split; [exact Hm'|].
    exists ((inject_Z (if b then 1 else 0)%Z + frac) * (Qmake 1 2)). split.
    - rewrite Hv, pow2_succ. cbn [shr_m]. rewrite inject_Z_plus, inject_Z_mult.
      ring.
    - cbn [shr_r shr_s]. destruct b, r, s; unfold in_class in *; cbn [orb inject_Z];
        change (inject_Z 1) with 1; change (inject_Z 0) with 0;
        try split; lra. }
  destruct m as [|p|p]; [| |lia].
  - apply (Hb 0%Z false); lia.
  - destruct p as [p|p|].
    + apply (Hb (Zpos p) true); lia.
    + apply (Hb (Zpos p) false); lia.
    + apply (Hb 0%Z true); lia.
Qed.

Lemma iter_pos_iter {T : Type} (f : T → T) (n : positive) (x : T) :
  SpecFloat.iter_pos f n x = Pos.iter f x n.
Proof.
  revert x. induction n as [n IH|n IH|]; intros x; cbn.
  - rewrite !IH. now rewrite <- !Pos.iter_swap.
  - now rewrite !IH.
  - reflexivity.
Qed.

Lemma Repr_iter (n : positive) (mrs : shr_record) (e : Z) (v : Q) :
  Repr mrs e v → Repr (SpecFloat.iter_pos shr_1 n mrs) (e + Zpos n) v.
Proof.
  intros H. rewrite iter_pos_iter.
  induction n as [|n IH] using Pos.peano_ind.
  - cbn. now apply Repr_shr_1.
  - rewrite Pos.iter_succ. replace (e + Z.pos (Pos.succ n))%Z with (e + Z.pos n + 1)%Z by lia.
    now apply Repr_shr_1.
Qed.

Lemma shr_fexp_spec (mx ex : Z) (lx : location) (v : Q) :
  Repr (shr_record_of_loc mx lx) ex v →
  ∃ mrs', shr_fexp 53 1024 mx ex lx
          = (mrs', Z.max ex (fexp 53 1024 (Zdigits2 mx + ex)))
          ∧ Repr mrs' (Z.max ex (fexp 53 1024 (Zdigits2 mx + ex))) v.
Proof.
  intros H. unfold shr_fexp, shr.
  destruct (fexp 53 1024 (Zdigits2 mx + ex) - ex)%Z as [|n|n] eqn:E.
  - replace (Z.max ex _) with ex by lia. eauto.
  - replace (Z.max ex _) with (ex + Z.pos n)%Z by lia.
    eexists. split; [reflexivity|]. now apply Repr_iter.
  - replace (Z.max ex _) with ex by lia. eauto.
Qed.

Lemma digits2_pos_size (p : positive) : digits2_pos p = Pos.size p.
Proof. induction p as [p IH|p IH|]; cbn; now rewrite ?IH. Qed.

Lemma Zdigits2_upper (m : Z) : (0 <= m)%Z → (m < 2 ^ Zdigits2 m)%Z.
Proof.
  intros H. destruct m as [|p|p]; [reflexivity| |lia].
  cbn [Zdigits2]. rewrite digits2_pos_size.
  pose proof (Pos.size_gt p) as G.
  apply Pos2Z.pos_lt_pos in G. now rewrite Pos2Z.inj_pow in G.
Qed.

Lemma Zdigits2_lower (p : positive) : (2 ^ (Zdigits2 (Zpos p) - 1) <= Zpos p)%Z.
Proof.
  cbn [Zdigits2]. rewrite digits2_pos_size.
  pose proof (Pos.size_le p) as G.
  apply Pos2Z.pos_le_pos in G. rewrite Pos2Z.inj_pow in G.
  assert (0 < Z.pos (Pos.size p))%Z by lia.
  replace (Z.pos (Pos.size p)) with (Z.pos (Pos.size p) - 1 + 1)%Z in G by lia.
  rewrite Z.pow_add_r in G by lia. change (2 ^ 1)%Z with 2%Z in G.
  rewrite (Pos2Z.inj_xO p) in G. lia.
Qed.

Lemma Zdigits2_nonneg (m : Z) : (0 <= Zdigits2 m)%Z.
Proof. destruct m; cbn; lia. Qed.

Lemma Zdigits2_le (m : Z) (k : Z) :
  (0 <= k)%Z → (0 <= m < 2 ^ k)%Z → (Zdigits2 m <= k)%Z.
Proof.
  intros Hk [H0 H]. destruct m as [|p|p]; [cbn; lia| |lia].
  pose proof (Zdigits2_lower p) as L.
  destruct (Z.le_gt_cases (Zdigits2 (Zpos p)) k) as [G|G]; [exact G|].
  assert (2 ^ k <= 2 ^ (Zdigits2 (Z.pos p) - 1))%Z by (apply Z.pow_le_mono_r; lia).
  lia.
Qed.

Lemma inject_pow2 (k : Z) : (0 <= k)%Z → inject_Z (2 ^ k) == 2 ^ k.
Proof. intros H. now rewrite Zpower_Qpower. Qed.

Lemma Zdigits2_ge (q k : Z) : (0 <= k)%Z → (2 ^ k <= q)%Z → (k + 1 <= Zdigits2 q)%Z.
Proof.
  intros Hk Hq.
  assert (0 < 2 ^ k)%Z by (apply Z.pow_pos_nonneg; lia).
  pose proof (Zdigits2_upper q ltac:(lia)) as Hu.
  pose proof (Zdigits2_nonneg q) as Hd.
  assert (2 ^ k < 2 ^ Zdigits2 q)%Z as Hlt by lia.
  apply Z.pow_lt_mono_r_iff in Hlt; lia.
Qed.

Lemma u_pos : 0 < unit_roundoff.
Proof. apply pow2_pos. Qed.

Lemma eta_pos : 0 < eta.
Proof. apply pow2_pos. Qed.

Lemma round_nearest_even_spec (m : Z) (r s : bool) (frac : Q) :
  in_class r s frac →
  let q := round_nearest_even m (loc_of_shr_record (Build_shr_record m r s)) in
  (q = m ∨ q = m + 1)%Z ∧ Qabs (inject_Z q - (inject_Z m + frac)) <= Qmake 1 2.
Proof.
  intros Hc q. subst q.
  destruct r, s; unfold in_class in Hc; cbn [loc_of_shr_record round_nearest_even].
  - split; [now right|]. apply Qabs_Qle_condition.
    rewrite inject_Z_plus. change (inject_Z 1) with 1. split; lra.
  - destruct (Z.even m); (split; [auto|]); apply Qabs_Qle_condition;
      rewrite ?inject_Z_plus; change (inject_Z 1) with 1; split; lra.
  - split; [now left|]. apply Qabs_Qle_condition. split; lra.
  - split; [now left|]. apply Qabs_Qle_condition. split; lra.
Qed.

Lemma Repr_bounds (mrs : shr_record) (e : Z) (v : Q) :
  Repr mrs e v →
  inject_Z (shr_m mrs) * 2 ^ e <= v ∧ v < inject_Z (shr_m mrs + 1) * 2 ^ e.
Proof.
  intros [_ (frac & Hv & Hc)]. apply in_class_range in Hc.
  pose proof (pow2_pos e). rewrite Hv, inject_Z_plus. change (inject_Z 1) with 1.
  split.
  - apply Qmult_le_compat_r; lra.
  - apply Qmult_lt_compat_r; lra.
Qed.

Lemma fexp_ge_emin (k : Z) : (-1074 <= fexp 53 1024 k)%Z.
Proof. unfold fexp, emin. lia. Qed.

(** After the shift the mantissa has at most 53 digits. *)
Lemma shifted_mantissa_bound (mx ex : Z) (lx : location) (mrs' : shr_record) (v : Q) :
  Repr (shr_record_of_loc mx lx) ex v →
  Repr mrs' (fexp 53 1024 (Zdigits2 mx + ex)) v →
  (shr_m mrs' < 2 ^ 53)%Z.
Proof.
  intros H0 H1.
  assert (Hm : shr_m (shr_record_of_loc mx lx) = mx) by (destruct lx as [|[]]; reflexivity).
  destruct (Repr_bounds _ _ _ H0) as [_ Hup]. rewrite Hm in Hup.
  destruct (Repr_bounds _ _ _ H1) as [Hlo _].
  destruct H0 as [H0 _]. rewrite Hm in H0.
  pose proof (Zdigits2_upper mx H0) as Hd.
  pose proof (Zdigits2_nonneg mx) as Hd0.
  set (d := Zdigits2 mx) in *. set (e1 := fexp 53 1024 (d + ex)) in *.
  assert (He1 : (d + ex - 53 <= e1)%Z) by (subst e1; unfold fexp; lia).
  assert (B1 : inject_Z (mx + 1) <= 2 ^ d).
  { rewrite <- inject_pow2 by exact Hd0. rewrite <- Zle_Qle. lia. }
  assert (B2 : 2 ^ d * 2 ^ ex <= 2 ^ 53 * 2 ^ e1).
  { rewrite <- !pow2_plus. apply pow2_le. lia. }
  pose proof (pow2_pos ex). pose proof (pow2_pos e1).
  assert (B3 : inject_Z (mx + 1) * 2 ^ ex <= 2 ^ d * 2 ^ ex).
  { apply Qmult_le_compat_r; lra. }
  assert (B4 : inject_Z (shr_m mrs') * 2 ^ e1 < 2 ^ 53 * 2 ^ e1) by lra.
  apply Qmult_lt_r in B4; [|assumption].
  rewrite <- (inject_pow2 53) in B4 by lia. now rewrite <- Zlt_Qlt in B4.
Qed.

Lemma inject_Z_scaled_nonneg (m e : Z) : (0 <= m)%Z → 0 <= inject_Z m * 2 ^ e.
Proof.
  intros Hm. apply Qmult_le_0_compat.
  - change 0 with (inject_Z 0). now rewrite <- Zle_Qle.
  - apply Qlt_le_weak, pow2_pos.
Qed.

(** Half a unit in the last place of a normal number is within the
    relative error. *)
Lemma half_ulp_normal (mx ex : Z) (v : Q) :
  (0 <= mx)%Z →
  (ex <= fexp 53 1024 (Zdigits2 mx + ex))%Z →
  fexp 53 1024 (Zdigits2 mx + ex) ≠ (-1074)%Z →
  inject_Z mx * 2 ^ ex <= v →
  (Qmake 1 2) * 2 ^ fexp 53 1024 (Zdigits2 mx + ex) <= unit_roundoff * v.
Proof.
  intros Hm He E Hv.
  assert (E' : fexp 53 1024 (Zdigits2 mx + ex) = (Zdigits2 mx + ex - 53)%Z)
    by (unfold fexp, emin in *; lia).
  rewrite E' in *.
  destruct mx as [|p|p]; [cbn in He; lia| |lia].
  pose proof (Zdigits2_lower p) as L.
  set (d := Zdigits2 (Z.pos p)) in *.
  assert (Hd : (1 <= d)%Z) by (subst d; cbn; lia).
  assert (L' : 2 ^ (d - 1) <= inject_Z (Z.pos p)).
  { rewrite <- inject_pow2 by lia. now rewrite <- Zle_Qle. }
  assert (G : (Qmake 1 2) * 2 ^ (d + ex - 53) == unit_roundoff * (2 ^ (d - 1) * 2 ^ ex)).
  { unfold unit_roundoff. rewrite <- !pow2_plus.
    replace (d + ex - 53)%Z with (-53 + (d - 1 + ex) + 1)%Z by lia.
    rewrite pow2_succ. field. }
  rewrite G.
  assert (2 ^ (d - 1) * 2 ^ ex <= inject_Z (Z.pos p) * 2 ^ ex).
  { apply Qmult_le_compat_r; [exact L'|]. apply Qlt_le_weak, pow2_pos. }
  apply Qmult_le_l; [exact u_pos|]. lra.
Qed.

(** In the subnormal range it is within the absolute error. *)
Lemma half_ulp_bound (mx ex : Z) (v : Q) :
  (0 <= mx)%Z →
  (ex <= fexp 53 1024 (Zdigits2 mx + ex))%Z →
  inject_Z mx * 2 ^ ex <= v →
  (Qmake 1 2) * 2 ^ fexp 53 1024 (Zdigits2 mx + ex) <= unit_roundoff * v + eta.
Proof.
  intros Hm He Hv.
  pose proof (inject_Z_scaled_nonneg mx ex Hm) as Hv0.
  pose proof u_pos. pose proof eta_pos.
  destruct (Z.eq_dec (fexp 53 1024 (Zdigits2 mx + ex)) (-1074)%Z) as [E|E].
  - rewrite E. assert (G : (Qmake 1 2) * 2 ^ (-1074) == eta) by reflexivity.
    rewrite G. assert (0 <= unit_roundoff * v) by (apply Qmult_le_0_compat; lra). lra.
  - pose proof (half_ulp_normal mx ex v Hm He E Hv). lra.
Qed.

Lemma scaled_lower (m e a b : Z) :
  (0 <= a)%Z → (2 ^ a <= m)%Z → (b <= e)%Z → 2 ^ (a + b) <= inject_Z m * 2 ^ e.
Proof.
  intros Ha Hm He. rewrite pow2_plus.
  assert (H1 : 2 ^ a <= inject_Z m).
  { rewrite <- inject_pow2 by exact Ha. now rewrite <- Zle_Qle. }
  pose proof (pow2_le b e He) as H2.
  pose proof (pow2_pos a). pose proof (pow2_pos b).
  apply Qle_trans with (2 ^ a * 2 ^ e).
  - apply Qmult_le_l; assumption.
  - apply Qmult_le_compat_r; lra.
Qed.

(** A value rounded in the normal range is at least 2^52 units. *)
Lemma normal_lower (mx ex : Z) (v : Q) :
  (0 <= mx)%Z →
  (ex <= fexp 53 1024 (Zdigits2 mx + ex))%Z →
  fexp 53 1024 (Zdigits2 mx + ex) ≠ (-1074)%Z →
  inject_Z mx * 2 ^ ex <= v →
  2 ^ (52 + fexp 53 1024 (Zdigits2 mx + ex)) <= v.
Proof.
  intros Hm He E Hv.
  pose proof (half_ulp_normal mx ex v Hm He E Hv) as H.
  set (e1 := fexp 53 1024 (Zdigits2 mx + ex)) in *.
  assert (G : 2 ^ (52 + e1) == 2 ^ 53 * (Qmake 1 2 * 2 ^ e1)).
  { rewrite pow2_plus. change (2 ^ 53) with (2 * 2 ^ 52). field. }
  assert (G' : v == 2 ^ 53 * (unit_roundoff * v)).
  { unfold unit_roundoff. change (2 ^ 53 * (2 ^ (-53) * v)) with (2 ^ 53 * (/ 2 ^ 53 * v)).
    field. }
  rewrite G, G'. apply Qmult_le_l; [apply pow2_pos|exact H].
Qed.

Lemma fexp_eq (k : Z) : fexp 53 1024 k = Z.max (k - 53) (-1074).
Proof. reflexivity. Qed.

Lemma bounded_spec (m : positive) (e : Z) :
  bounded 53 1024 m e = true
  ↔ fexp 53 1024 (Zdigits2 (Z.pos m) + e) = e ∧ (e <= 971)%Z.
Proof.
  unfold bounded, canonical_mantissa. cbn [Zdigits2].
  rewrite andb_true_iff, Z.eqb_eq, Z.leb_le. split; intros [H1 H2]; split; lia.
Qed.

Lemma shr_nonpos (mrs : shr_record) (e n : Z) : (n <= 0)%Z → shr mrs e n = (mrs, e).
Proof. destruct n; [reflexivity| lia |reflexivity]. Qed.

Lemma Qabs_scaled (a b p h : Q) :
  0 < p → Qabs (a - b) <= h → Qabs (a * p - b * p) <= h * p.
Proof.
  intros Hp H. apply Qabs_Qle_condition in H. apply Qabs_Qle_condition.
  destruct H as [H1 H2].
  assert (E : a * p - b * p == (a - b) * p) by ring. rewrite E.
  split.
  - assert (E' : - (h * p) == (- h) * p) by ring. rewrite E'.
    apply Qmult_le_compat_r; lra.
  - apply Qmult_le_compat_r; lra.
Qed.

(** The last step of [binary_round_aux]: the number is returned when
    its exponent is in range, +infinity otherwise. *)
Lemma finish_round (q e : Z) :
  (0 <= q)%Z →
  ((0 < q)%Z → fexp 53 1024 (Zdigits2 q + e) = e) →
  let R := match q with
           | 0%Z => S754_zero false
           | Z.pos m => if (e <=? 1024 - 53)%Z then S754_finite false m e
                        else S754_infinity false
           | Z.neg _ => S754_nan
           end in
  (R = S754_infinity false ∧ (0 < q)%Z ∧ (971 < e)%Z)
  ∨ (is_nonneg R = true ∧ val R == inject_Z q * 2 ^ e).
Proof.
  intros Hq Hc R. subst R. destruct q as [|p|p]; [| |lia].
  - right. split; [reflexivity|]. cbn [val]. change (inject_Z 0) with 0. ring.
  - destruct (Z.leb_spec e (1024 - 53)) as [He|He].
    + right. split; [|reflexivity]. cbn [is_nonneg]. apply bounded_spec.
      split; [apply Hc|]; lia.
    + left. repeat split; lia.
Qed.

(** A canonical value is kept as it is. *)
Lemma round_aux_keep (mx ex : Z) (v : Q) :
  (0 <= mx)%Z →
  v == inject_Z mx * 2 ^ ex →
  fexp 53 1024 (Zdigits2 mx + ex) = ex →
  let R := binary_round_aux 53 1024 false mx ex loc_Exact in
  (R = S754_infinity false ∧ 2 ^ 1023 <= v)
  ∨ (is_nonneg R = true ∧ val R == v).
Proof.
  intros Hm Hv He R. subst R. unfold binary_round_aux, shr_fexp.
  rewrite shr_nonpos by lia.
  cbn [shr_record_of_loc shr_m loc_of_shr_record round_nearest_even].
  rewrite shr_nonpos by lia. cbn [shr_record_of_loc shr_m].
  destruct (finish_round mx ex Hm (λ _, He)) as [(-> & Hpos & Hex)|[Hn Hval]].
  - left. split; [reflexivity|]. rewrite Hv.
    rewrite fexp_eq in He.
    assert (Hd : Zdigits2 mx = 53%Z) by lia.
    destruct mx as [|p|p]; [lia| |lia].
    pose proof (Zdigits2_lower p) as L. rewrite Hd in L.
    apply (scaled_lower (Z.pos p) ex 52 971); lia.
  - right. split; [exact Hn|]. now rewrite Hv.
Qed.

(** A value that is shifted is rounded to within half a unit in the last
    place, to a canonical number. *)
Lemma round_aux_round (mx ex : Z) (lx : location) (v : Q) :
  Repr (shr_record_of_loc mx lx) ex v →
  (ex <= fexp 53 1024 (Zdigits2 mx + ex))%Z →
  let R := binary_round_aux 53 1024 false mx ex lx in
  (R = S754_infinity false ∧ 2 ^ 1023 <= v)
  ∨ (is_nonneg R = true
     ∧ Qabs (val R - v) <= Qmake 1 2 * 2 ^ fexp 53 1024 (Zdigits2 mx + ex)).
Proof.
  intros HR He R. subst R.
  destruct (shr_fexp_spec mx ex lx v HR) as (mrs' & E & HR').
  rewrite Z.max_r in E, HR' by exact He.
  pose proof (shifted_mantissa_bound mx ex lx mrs' v HR HR') as Hlt.
  assert (Hmx : shr_m (shr_record_of_loc mx lx) = mx)
    by (destruct lx as [|[]]; reflexivity).
  destruct (Repr_bounds _ _ _ HR) as [Hlo _]. rewrite Hmx in Hlo.
  destruct (Repr_bounds _ _ _ HR') as [Hlo' Hup'].
  assert (Hm0 : (0 <= mx)%Z) by (destruct HR as [H0 _]; now rewrite Hmx in H0).
  assert (Hnormal : fexp 53 1024 (Zdigits2 mx + ex) ≠ (-1074)%Z →
                    2 ^ (52 + fexp 53 1024 (Zdigits2 mx + ex)) <= v)
    by (intros Hne; now apply normal_lower).
  set (e1 := fexp 53 1024 (Zdigits2 mx + ex)) in *.
  assert (He1 : (-1074 <= e1)%Z) by apply fexp_ge_emin.
  unfold binary_round_aux. rewrite E.
  destruct mrs' as [m1 r1 s1]. cbn [shr_m] in *.
  destruct HR' as [Hm1 (frac & Hv & Hc)]. cbn [shr_m shr_r shr_s] in *.
  destruct (round_nearest_even_spec m1 r1 s1 frac Hc) as [Hq Herr].
  set (q := round_nearest_even m1 _) in *.
  assert (Hq0 : (0 <= q <= 2 ^ 53)%Z) by lia.
  assert (Hbound : Qabs (inject_Z q * 2 ^ e1 - v) <= Qmake 1 2 * 2 ^ e1).
  { rewrite Hv. apply Qabs_scaled; [apply pow2_pos|exact Herr]. }
  (* in the normal range the truncated mantissa has 53 digits *)
  assert (Hm52 : e1 ≠ (-1074)%Z → (2 ^ 52 <= m1)%Z).
  { intros Hne. specialize (Hnormal Hne).
    assert (B : 2 ^ 52 * 2 ^ e1 < inject_Z (m1 + 1) * 2 ^ e1).
    { rewrite <- pow2_plus. lra. }
    apply Qmult_lt_r in B; [|apply pow2_pos].
    rewrite <- (inject_pow2 52) in B by lia. rewrite <- Zlt_Qlt in B. lia. }
  destruct (Z.eq_dec q (2 ^ 53)%Z) as [Eq|Ne].
  - rewrite Eq. unfold shr_fexp.
    assert (Hs : (fexp 53 1024 (Zdigits2 (2 ^ 53)%Z + e1) - e1)%Z = 1%Z).
    { change (Zdigits2 (2 ^ 53)%Z) with 54%Z. rewrite fexp_eq. lia. }
    rewrite Hs.
    change (shr (shr_record_of_loc (2 ^ 53)%Z loc_Exact) e1 1)
      with ({| shr_m := (2 ^ 52)%Z; shr_r := false; shr_s := false |}, (e1 + 1)%Z).
    cbn [shr_m].
    assert (G : inject_Z (2 ^ 52)%Z * 2 ^ (e1 + 1) == inject_Z q * 2 ^ e1).
    { rewrite Eq, pow2_succ.
      change (inject_Z (2 ^ 53)%Z) with (2 * inject_Z (2 ^ 52)%Z). ring. }
    destruct (finish_round (2 ^ 52)%Z (e1 + 1)%Z) as [(-> & _ & Hex)|[Hn Hval]].
    + lia.
    + intros _. change (Zdigits2 (2 ^ 52)%Z) with 53%Z. rewrite fexp_eq. lia.
    + left. split; [reflexivity|].
      assert (Hm1' : (2 ^ 52 <= m1)%Z) by (apply Hm52; lia).
      eapply Qle_trans; [|exact Hlo'].
      apply (scaled_lower m1 e1 52 971); lia.
    + right. split; [exact Hn|]. rewrite Hval, G. exact Hbound.
  - unfold shr_fexp.
    assert (Hdq : (Zdigits2 q <= 53)%Z) by (apply Zdigits2_le; lia).
    rewrite shr_nonpos by (rewrite fexp_eq; lia).
    cbn [shr_record_of_loc shr_m].
    destruct (finish_round q e1 (proj1 Hq0)) as [(-> & Hpos & Hex)|[Hn Hval]].
    + intros Hpos. rewrite fexp_eq.
      destruct (Z.eq_dec e1 (-1074)%Z) as [E1|E1]; [lia|].
      pose proof (Zdigits2_ge q 52 ltac:(lia) ltac:(specialize (Hm52 E1); lia)).
      lia.
    + left. split; [reflexivity|].
      eapply Qle_trans; [|apply Hnormal; lia].
      apply pow2_le. lia.
    + right. split; [exact Hn|]. rewrite Hval. exact Hbound.
Qed.

Lemma Repr_exact (mx ex : Z) (v : Q) :
  (0 <= mx)%Z → v == inject_Z mx * 2 ^ ex →
  Repr (shr_record_of_loc mx loc_Exact) ex v.
Proof.
  intros Hm Hv. split; [exact Hm|]. exists 0. cbn [shr_record_of_loc shr_m shr_r shr_s in_class].
  split; [rewrite Hv; ring|reflexivity].
Qed.

Lemma shr_m_of_loc (m : Z) (l : location) : shr_m (shr_record_of_loc m l) = m.
Proof. destruct l as [|[]]; reflexivity. Qed.

Lemma Qabs_diff_zero (a b h : Q) : a == b → 0 <= h → Qabs (a - b) <= h.
Proof. intros E H. apply Qabs_Qle_condition. split; lra. Qed.

(** Rounding an exactly known value: the result is +infinity only for a
    value of at least 2^1023; otherwise the relative error is at most
    [unit_roundoff], up to [eta] when the value is below the normal range. *)
Lemma round_exact_err (mx ex : Z) (v : Q) :
  (0 <= mx)%Z → v == inject_Z mx * 2 ^ ex →
  (ex <= fexp 53 1024 (Zdigits2 mx + ex))%Z →
  let R := binary_round_aux 53 1024 false mx ex loc_Exact in
  (R = S754_infinity false ∧ 2 ^ 1023 <= v)
  ∨ (is_nonneg R = true
     ∧ Qabs (val R - v) <= unit_roundoff * v + eta
     ∧ ((-1074 <= ex)%Z → Qabs (val R - v) <= unit_roundoff * v)).
Proof.
  intros Hm Hv He R. subst R.
  pose proof (inject_Z_scaled_nonneg mx ex Hm) as Hv0. rewrite <- Hv in Hv0.
  pose proof u_pos. pose proof eta_pos.
  assert (0 <= unit_roundoff * v) by (apply Qmult_le_0_compat; lra).
  destruct (Z.eq_dec (fexp 53 1024 (Zdigits2 mx + ex)) ex) as [Eq|Ne].
  - destruct (round_aux_keep mx ex v Hm Hv Eq) as [Hinf|[Hn Hval]];
      [now left|right].
    split; [exact Hn|]. split; [|intros _]; apply Qabs_diff_zero; lra.
  - destruct (round_aux_round mx ex loc_Exact v (Repr_exact mx ex v Hm Hv) He)
      as [Hinf|[Hn Hb]]; [now left|right].
    split; [exact Hn|]. split.
    + eapply Qle_trans; [exact Hb|]. apply half_ulp_bound; [exact Hm|exact He|lra].
    + intros Hex. eapply Qle_trans; [exact Hb|].
      apply half_ulp_normal; [exact Hm|exact He|lia|lra].
Qed.

(** Rounding a value known with its location. *)
Lemma round_inexact_err (mx ex : Z) (lx : location) (v : Q) :
  Repr (shr_record_of_loc mx lx) ex v →
  (ex <= fexp 53 1024 (Zdigits2 mx + ex))%Z →
  let R := binary_round_aux 53 1024 false mx ex lx in
  (R = S754_infinity false ∧ 2 ^ 1023 <= v)
  ∨ (is_nonneg R = true ∧ Qabs (val R - v) <= unit_roundoff * v + eta).
Proof.
  intros HR He R. subst R.
  destruct (round_aux_round mx ex lx v HR He) as [Hinf|[Hn Hb]]; [now left|right].
  split; [exact Hn|]. eapply Qle_trans; [exact Hb|].
  destruct (Repr_bounds _ _ _ HR) as [Hlo _]. destruct HR as [Hm _].
  rewrite shr_m_of_loc in Hlo, Hm. now apply half_ulp_bound.
Qed.

Lemma val_nonneg (x : spec_float) : is_nonneg x = true → 0 <= val x.
Proof.
  destruct x as [s|s| |[] m e]; cbn [is_nonneg val]; intros Hx; try discriminate.
  cbn [cond_Zopp]. now apply inject_Z_scaled_nonneg.
Qed.

(** ** Multiplication *)

Lemma Zdigits2_mul (mx my : positive) :
  (Zdigits2 (Z.pos mx) + Zdigits2 (Z.pos my) - 1 <= Zdigits2 (Z.pos (mx * my)))%Z.
Proof.
  pose proof (Zdigits2_lower mx) as Lx. pose proof (Zdigits2_lower my) as Ly.
  set (dx := Zdigits2 (Z.pos mx)) in *. set (dy := Zdigits2 (Z.pos my)) in *.
  assert (Hdx : (1 <= dx)%Z) by (subst dx; cbn; lia).
  assert (Hdy : (1 <= dy)%Z) by (subst dy; cbn; lia).
  assert (H : (2 ^ (dx - 1 + (dy - 1)) <= Z.pos (mx * my))%Z).
  { rewrite Z.pow_add_r by lia. rewrite Pos2Z.inj_mul.
    apply Z.mul_le_mono_nonneg; try lia; apply Z.pow_nonneg; lia. }
  pose proof (Zdigits2_ge _ (dx - 1 + (dy - 1)) ltac:(lia) H). lia.
Qed.

Lemma mul_spec (x y : spec_float) :
  is_nonneg x = true → is_nonneg y = true →
  let R := SFmul 53 1024 x y in
  (R = S754_infinity false ∧ 2 ^ 1023 <= val x * val y)
  ∨ (is_nonneg R = true
     ∧ Qabs (val R - val x * val y) <= unit_roundoff * (val x * val y) + eta).
Proof.
  intros Hx Hy R. subst R. pose proof u_pos. pose proof eta_pos.
  destruct x as [sx|sx| |[] mx ex], y as [sy|sy| |[] my ey]; try discriminate;
    cbn [SFmul xorb].
  - right. split; [reflexivity|]. cbn [val]. apply Qabs_diff_zero; lra.
  - right. split; [reflexivity|]. cbn [val]. apply Qabs_diff_zero; lra.
  - right. split; [reflexivity|]. cbn [val]. apply Qabs_diff_zero; lra.
  - cbn [is_nonneg] in Hx, Hy.
    apply bounded_spec in Hx as [Cx _]. apply bounded_spec in Hy as [Cy _].
    pose proof (Zdigits2_mul mx my) as Hd.
    assert (Hdx : (1 <= Zdigits2 (Z.pos mx))%Z) by (cbn; lia).
    assert (Hdy : (1 <= Zdigits2 (Z.pos my))%Z) by (cbn; lia).
    destruct (round_exact_err (Z.pos (mx * my)) (ex + ey)
                (val (S754_finite false mx ex) * val (S754_finite false my ey)))
      as [Hinf|(Hn & Hb & _)]; [lia| | |now left|right; now split].
    + cbn [val cond_Zopp]. unfold F2Q.
      rewrite Pos2Z.inj_mul, inject_Z_mult, pow2_plus. ring.
    + rewrite fexp_eq in *. lia.
Qed.

(** ** Addition *)

Lemma iter_xO (m d : positive) :
  Z.pos (Pos.iter xO m d) = (Z.pos m * 2 ^ Z.pos d)%Z.
Proof.
  induction d as [|d IH] using Pos.peano_ind.
  - cbn [Pos.iter]. lia.
  - rewrite Pos.iter_succ, Pos2Z.inj_succ, Z.pow_succ_r by lia.
    rewrite (Pos2Z.inj_xO (Pos.iter xO m d)), IH. lia.
Qed.

Lemma digits2_pos_shifted (m n : positive) :
  Zpos (digits2_pos (Pos.iter xO m n)) = (Zpos (digits2_pos m) + Zpos n)%Z.
Proof.
  induction n as [|n IH] using Pos.peano_ind.
  - cbn. lia.
  - rewrite Pos.iter_succ. cbn [digits2_pos]. lia.
Qed.

Lemma shl_align_spec (mx : positive) (ex ex' : Z) :
  ∃ m e, shl_align mx ex ex' = (m, e)
         ∧ e = Z.min ex ex'
         ∧ (Zdigits2 (Z.pos m) + e = Zdigits2 (Z.pos mx) + ex)%Z
         ∧ inject_Z (Z.pos m) * 2 ^ e == inject_Z (Z.pos mx) * 2 ^ ex.
Proof.
  unfold shl_align. destruct (ex' - ex)%Z as [|d|d] eqn:E.
  - exists mx, ex. split; [reflexivity|split; [lia|split; reflexivity]].
  - exists mx, ex. split; [reflexivity|split; [lia|split; reflexivity]].
  - exists (Pos.iter xO mx d), ex'. split; [reflexivity|]. split; [lia|]. split.
    + cbn [Zdigits2]. rewrite digits2_pos_shifted. lia.
    + rewrite iter_xO, inject_Z_mult, inject_pow2 by lia.
      assert (Ex : ex = (Z.pos d + ex')%Z) by lia. rewrite Ex at 1.
      rewrite pow2_plus. ring.
Qed.

Lemma round_spec (m : positive) (e : Z) (v : Q) :
  (-1074 <= e)%Z → v == inject_Z (Z.pos m) * 2 ^ e →
  let R := binary_round 53 1024 false m e in
  (R = S754_infinity false ∧ 2 ^ 1023 <= v)
  ∨ (is_nonneg R = true ∧ Qabs (val R - v) <= unit_roundoff * v).
Proof.
  intros He Hv R. subst R. unfold binary_round.
  destruct (shl_align_spec m e (fexp 53 1024 (Z.pos (digits2_pos m) + e)))
    as (mz & ez & -> & Hez & Hd & Hval).
  pose proof (fexp_ge_emin (Z.pos (digits2_pos m) + e)).
  cbn [Zdigits2] in Hd.
  destruct (round_exact_err (Z.pos mz) ez v) as [Hinf|(Hn & _ & Hb)];
    [lia|now rewrite Hval| |now left|right].
  - cbn [Zdigits2]. rewrite Hd. lia.
  - split; [exact Hn|]. apply Hb. lia.
Qed.

Lemma nonneg_exponent (m : positive) (e : Z) :
  bounded 53 1024 m e = true → (-1074 <= e)%Z.
Proof.
  intros H. apply bounded_spec in H as [H _].
  pose proof (fexp_ge_emin (Zdigits2 (Z.pos m) + e)). lia.
Qed.

Lemma add_spec (x y : spec_float) :
  is_nonneg x = true → is_nonneg y = true →
  let R := SFadd 53 1024 x y in
  (R = S754_infinity false ∧ 2 ^ 1023 <= val x + val y)
  ∨ (is_nonneg R = true
     ∧ Qabs (val R - (val x + val y)) <= unit_roundoff * (val x + val y)).
Proof.
  intros Hx Hy R. subst R. pose proof u_pos.
  pose proof (val_nonneg x Hx) as Vx. pose proof (val_nonneg y Hy) as Vy.
  assert (0 <= unit_roundoff * (val x + val y)) by (apply Qmult_le_0_compat; lra).
  destruct x as [sx|sx| |[] mx ex], y as [sy|sy| |[] my ey]; try discriminate.
  - right. split; [now destruct sx, sy|].
    apply Qabs_diff_zero; [|assumption]. destruct sx, sy; cbn [SFadd val]; lra.
  - right. split; [exact Hy|]. cbn [SFadd]. apply Qabs_diff_zero; [|assumption].
    cbn [val]. lra.
  - right. split; [exact Hx|]. cbn [SFadd]. apply Qabs_diff_zero; [|assumption].
    cbn [val]. lra.
  - cbn [is_nonneg] in Hx, Hy.
    apply nonneg_exponent in Hx. apply nonneg_exponent in Hy. cbn [SFadd].
    destruct (shl_align_spec mx ex (Z.min ex ey)) as (ax & e1 & E1 & He1 & _ & V1).
    destruct (shl_align_spec my ey (Z.min ex ey)) as (ay & e2 & E2 & He2 & _ & V2).
    change (IntDef.Z.min ex ey) with (Z.min ex ey).
    rewrite E1, E2. cbn [fst cond_Zopp].
    change (Z.pos ax + Z.pos ay)%Z with (Z.pos (ax + ay)).
    cbn [binary_normalize].
    apply round_spec; [lia|].
    cbn [val cond_Zopp]. unfold F2Q. rewrite <- V1, <- V2.
    rewrite Pos2Z.inj_add, inject_Z_plus.
    replace e1 with (Z.min ex ey) by lia. replace e2 with (Z.min ex ey) by lia.
    ring.
Qed.

(** ** Division *)

Lemma inject_Z_pos (p : positive) : 0 < inject_Z (Z.pos p).
Proof. change 0 with (inject_Z 0). now rewrite <- Zlt_Qlt. Qed.

(** The location computed from the remainder describes the fraction
    [r / m]. *)
Lemma new_location_class (m : positive) (r q : Z) :
  (0 <= r < Z.pos m)%Z →
  let mrs := shr_record_of_loc q (new_location (Z.pos m) r) in
  in_class (shr_r mrs) (shr_s mrs) (inject_Z r / inject_Z (Z.pos m)).
Proof.
  intros Hr mrs. subst mrs.
  pose proof (inject_Z_pos m) as Hm.
  assert (Half : ∀ c, (2 * r ?= Z.pos m)%Z = c →
            match c with
            | Lt => inject_Z r / inject_Z (Z.pos m) < Qmake 1 2
            | Eq => inject_Z r / inject_Z (Z.pos m) == Qmake 1 2
            | Gt => (Qmake 1 2) < inject_Z r / inject_Z (Z.pos m)
            end).
  { intros c Hc. destruct c.
    - apply Z.compare_eq in Hc.
      assert (E : inject_Z (Z.pos m) == 2 * inject_Z r).
      { rewrite <- Hc, inject_Z_mult. reflexivity. }
      rewrite E. field. intros F. rewrite F in E. lra.
    - apply Qlt_shift_div_r; [exact Hm|].
      rewrite Z.compare_lt_iff in Hc. rewrite Zlt_Qlt in Hc.
      rewrite inject_Z_mult in Hc. change (inject_Z 2) with 2 in Hc. lra.
    - apply Qlt_shift_div_l; [exact Hm|].
      rewrite Z.compare_gt_iff in Hc. rewrite Zlt_Qlt in Hc.
      rewrite inject_Z_mult in Hc. change (inject_Z 2) with 2 in Hc. lra. }
  assert (Hpos : r ≠ 0%Z → 0 < inject_Z r / inject_Z (Z.pos m)).
  { intros Hne. apply Qlt_shift_div_l; [exact Hm|].
    assert (0 < r)%Z as Hr0 by lia. rewrite Zlt_Qlt in Hr0.
    change (inject_Z 0) with 0 in Hr0. lra. }
  assert (Hlt1 : inject_Z r / inject_Z (Z.pos m) < 1).
  { apply Qlt_shift_div_r; [exact Hm|].
    destruct Hr as [_ Hr]. rewrite Zlt_Qlt in Hr. lra. }
  assert (Z0 : inject_Z 0 / inject_Z (Z.pos m) == 0).
  { change (inject_Z 0) with 0. field. lra. }
  unfold new_location. change IntDef.Z.even with Z.even.
  destruct (Z.even (Z.pos m)) eqn:Ev.
  - unfold new_location_even.
    change IntDef.Z.eqb with Z.eqb. change IntDef.Z.compare with Z.compare.
    change IntDef.Z.mul with Z.mul.
    destruct (Z.eqb_spec r 0) as [->|Hne]; [exact Z0|].
    specialize (Hpos Hne). specialize (Half _ eq_refl).
    destruct (2 * r ?= Z.pos m)%Z;
      cbn [shr_record_of_loc shr_r shr_s in_class];
      [exact Half|split; assumption|split; assumption].
  - unfold new_location_odd.
    change IntDef.Z.eqb with Z.eqb. change IntDef.Z.compare with Z.compare.
    change IntDef.Z.mul with Z.mul. change IntDef.Z.add with Z.add.
    destruct (Z.eqb_spec r 0) as [->|Hne]; [exact Z0|].
    specialize (Hpos Hne).
    destruct (2 * r + 1 ?= Z.pos m)%Z eqn:C;
      cbn [shr_record_of_loc shr_r shr_s in_class].
    + split; [exact Hpos|]. apply (Half Lt). apply Z.compare_eq in C.
      apply Z.compare_lt_iff. lia.
    + split; [exact Hpos|]. apply (Half Lt).
      rewrite Z.compare_lt_iff in C. apply Z.compare_lt_iff. lia.
    + split; [|exact Hlt1]. apply (Half Gt).
      rewrite Z.compare_gt_iff in C. apply Z.compare_gt_iff.
      assert (2 * r ≠ Z.pos m)%Z.
      { intros F. rewrite <- F, Z.even_mul in Ev. discriminate. }
      lia.
Qed.

(** The quotient and the remainder of the scaled mantissas: the quotient
    has at least 53 digits unless the result is subnormal. *)
Lemma div_core_spec (mx my : positive) (ex ey : Z) :
  ∃ q r e',
    SFdiv_core_binary 53 1024 (Z.pos mx) ex (Z.pos my) ey
    = (q, e', new_location (Z.pos my) r)
    ∧ (0 <= q)%Z ∧ (0 <= r < Z.pos my)%Z
    ∧ (e' <= fexp 53 1024 (Zdigits2 q + e'))%Z
    ∧ inject_Z (Z.pos mx) * 2 ^ ex / (inject_Z (Z.pos my) * 2 ^ ey)
      == (inject_Z q + inject_Z r / inject_Z (Z.pos my)) * 2 ^ e'.
Proof.
  unfold SFdiv_core_binary. cbv zeta.
  change IntDef.Z.min with Z.min. change IntDef.Z.shiftl with Z.shiftl.
  change IntDef.Z.div_eucl with Z.div_eucl.
  set (d1 := Zdigits2 (Z.pos mx)). set (d2 := Zdigits2 (Z.pos my)).
  set (e' := Z.min (fexp 53 1024 (d1 + ex - (d2 + ey))) (ex - ey)).
  set (s := (ex - ey - e')%Z).
  assert (Hs : (0 <= s)%Z) by lia.
  set (m' := match s with
             | 0%Z => Z.pos mx
             | Z.pos _ => Z.shiftl (Z.pos mx) s
             | Z.neg _ => 0%Z
             end).
  assert (Hm' : m' = (Z.pos mx * 2 ^ s)%Z).
  { subst m'. destruct s as [|p|p] eqn:Es; [lia| |lia].
    now rewrite Z.shiftl_mul_pow2. }
  pose proof (Z_div_mod m' (Z.pos my) eq_refl) as D.
  destruct (Z.div_eucl m' (Z.pos my)) as [q r]. destruct D as [D Hr].
  exists q, r, e'. split; [reflexivity|].
  assert (Hpow : (0 < 2 ^ s)%Z) by (apply Z.pow_pos_nonneg; lia).
  assert (Hq : (0 <= q)%Z) by nia.
  split; [exact Hq|]. split; [exact Hr|]. split.
  - rewrite fexp_eq. destruct (Z_le_gt_dec e' (-1074)) as [Hle|Hgt]; [lia|].
    assert (He' : (e' <= d1 + ex - (d2 + ey) - 53)%Z).
    { subst e'. rewrite fexp_eq in *. lia. }
    pose proof (Zdigits2_lower mx) as L1. fold d1 in L1.
    pose proof (Zdigits2_upper (Z.pos my) ltac:(lia)) as U2. fold d2 in U2.
    assert (Hd1 : (1 <= d1)%Z) by (subst d1; cbn; lia).
    assert (Hd2 : (1 <= d2)%Z) by (subst d2; cbn; lia).
    set (K := (d1 - 1 + s - d2)%Z).
    assert (HK : (52 <= K)%Z) by (subst K s; lia).
    assert (Hsplit : (2 ^ (d1 - 1) * 2 ^ s = 2 ^ K * 2 ^ d2)%Z).
    { rewrite <- !Z.pow_add_r by lia. f_equal. subst K. lia. }
    assert (HP : (0 < 2 ^ K)%Z) by (apply Z.pow_pos_nonneg; lia).
    assert (Hq' : (2 ^ K <= q)%Z) by nia.
    assert (H52 : (2 ^ 52 <= 2 ^ K)%Z) by (apply Z.pow_le_mono_r; lia).
    pose proof (Zdigits2_ge q 52 ltac:(lia) ltac:(lia)). lia.
  - assert (H1 : inject_Z (Z.pos my) * inject_Z q + inject_Z r
                 == inject_Z (Z.pos mx) * 2 ^ s).
    { rewrite <- inject_Z_mult, <- inject_Z_plus, <- D, Hm', inject_Z_mult.
      now rewrite inject_pow2. }
    assert (HA : 2 ^ ex == 2 ^ s * 2 ^ e' * 2 ^ ey).
    { rewrite <- !pow2_plus. replace (s + e' + ey)%Z with ex by (subst s; lia).
      reflexivity. }
    assert (HR : inject_Z r == inject_Z (Z.pos mx) * 2 ^ s
                               - inject_Z (Z.pos my) * inject_Z q).
    { rewrite <- H1. ring. }
    pose proof (inject_Z_pos my). pose proof (pow2_pos ey).
    rewrite HA, HR. field. split; lra.
Qed.

Lemma div_spec (x y : spec_float) :
  is_nonneg x = true → is_nonneg y = true → 0 < val y →
  let R := SFdiv 53 1024 x y in
  (R = S754_infinity false ∧ 2 ^ 1023 <= val x / val y)
  ∨ (is_nonneg R = true
     ∧ Qabs (val R - val x / val y) <= unit_roundoff * (val x / val y) + eta).
Proof.
  intros Hx Hy Hpos R. subst R. pose proof u_pos. pose proof eta_pos.
  destruct y as [sy|sy| |[] my ey]; try discriminate.
  destruct x as [sx|sx| |[] mx ex]; try discriminate; cbn [SFdiv xorb].
  - right. split; [reflexivity|].
    assert (Z0 : val (S754_zero sx) / val (S754_finite false my ey) == 0).
    { cbn [val]. unfold Qdiv. ring. }
    rewrite Z0. cbn [val]. apply Qabs_diff_zero; lra.
  - destruct (div_core_spec mx my ex ey) as (q & r & e' & -> & Hq & Hr & He & Hv).
    apply round_inexact_err; [|exact He].
    split; [now rewrite shr_m_of_loc|].
    exists (inject_Z r / inject_Z (Z.pos my)). rewrite shr_m_of_loc.
    split; [exact Hv|]. now apply new_location_class.
Qed.

Lemma nonneg_finite (x : spec_float) : is_nonneg x = true → F64.is_finite x = true.
Proof. now destruct x as [s|s| |[] m e]. Qed.

Lemma add_infinity (y : spec_float) :
  is_nonneg y = true → SFadd 53 1024 (S754_infinity false) y = S754_infinity false.
Proof. now destruct y as [s|s| |[] m e]. Qed.

Lemma positive_val (x : spec_float) :
  is_nonneg x = true → SFltb (S754_zero false) x = true → 0 < val x.
Proof.
  destruct x as [s|s| |[] m e]; try discriminate. intros _ _.
  cbn [val cond_Zopp]. unfold F2Q.
  apply Qmult_lt_0_compat; [apply inject_Z_pos|apply pow2_pos].
Qed.

Lemma zero_add (x : spec_float) :
  is_nonneg x = true →
  is_nonneg (SFadd 53 1024 (S754_zero false) x) = true
  ∧ val (SFadd 53 1024 (S754_zero false) x) == val x.
Proof.
  destruct x as [s|s| |[] m e]; try discriminate; intros Hx.
  - destruct s; split; reflexivity.
  - split; [exact Hx|reflexivity].
Qed.

(** ** The error bounds, with the constants of the tolerance *)

Lemma u_small : unit_roundoff <= Qmake 1 1000000000.
Proof. vm_compute. discriminate. Qed.

Lemma eta_small : eta <= Qmake 1 1000000000.
Proof. vm_compute. discriminate. Qed.

Lemma eta_normal : eta == unit_roundoff * 2 ^ (-1022).
Proof. vm_compute. reflexivity. Qed.

Lemma overflow_margin : 16 * 2 ^ 1000 < 2 ^ 1023.
Proof. vm_compute. reflexivity. Qed.

Lemma relax (x y k : Q) :
  0 <= y → Qabs (x - y) <= unit_roundoff * y + k →
  (Qmake 999999999 1000000000) * y - k <= x ∧ x <= (Qmake 1000000001 1000000000) * y + k.
Proof.
  intros Hy H. apply Qabs_Qle_condition in H. destruct H as [H1 H2].
  assert (unit_roundoff * y <= (Qmake 1 1000000000) * y)
    by (apply Qmult_le_compat_r; [exact u_small|exact Hy]).
  split; lra.
Qed.

(** The accumulated error of the three shares and of their sum. *)
Lemma sum_chain (zf zg zt yf yg yt pf pg pt b c r : Q) :
  0 <= r → 0 <= zf → 0 <= zg → 0 <= zt →
  Qmake 999999999 1000000000 * (Qmake 999999999 1000000000 * (zf + zg + zt)) <= r → r <= Qmake 1000000001 1000000000 * (Qmake 1000000001 1000000000 * (zf + zg + zt)) →
  Qmake 999999999 1000000000 * zf - Qmake 1 1000000000 * r <= yf → yf <= Qmake 1000000001 1000000000 * zf + Qmake 1 1000000000 * r →
  Qmake 999999999 1000000000 * zg - Qmake 1 1000000000 * r <= yg → yg <= Qmake 1000000001 1000000000 * zg + Qmake 1 1000000000 * r →
  Qmake 999999999 1000000000 * zt - Qmake 1 1000000000 * r <= yt → yt <= Qmake 1000000001 1000000000 * zt + Qmake 1 1000000000 * r →
  Qmake 999999999 1000000000 * yf - Qmake 1 1000000000 * r <= pf → pf <= Qmake 1000000001 1000000000 * yf + Qmake 1 1000000000 * r →
  Qmake 999999999 1000000000 * yg - Qmake 1 1000000000 * r <= pg → pg <= Qmake 1000000001 1000000000 * yg + Qmake 1 1000000000 * r →
  Qmake 999999999 1000000000 * yt - Qmake 1 1000000000 * r <= pt → pt <= Qmake 1000000001 1000000000 * yt + Qmake 1 1000000000 * r →
  Qmake 999999999 1000000000 * (pf + pg) <= b → b <= Qmake 1000000001 1000000000 * (pf + pg) →
  Qmake 999999999 1000000000 * (b + pt) <= c → c <= Qmake 1000000001 1000000000 * (b + pt) →
  Qabs (c - r) <= (Qmake 1 1000000) * r.
Proof.
  intros. apply Qabs_Qle_condition. split; lra.
Qed.

Lemma relax0 (x y : Q) :
  0 <= y → Qabs (x - y) <= unit_roundoff * y → Qmake 999999999 1000000000 * y <= x ∧ x <= Qmake 1000000001 1000000000 * y.
Proof.
  intros Hy H. destruct (relax x y 0 Hy) as [H1 H2]; [lra|]. split; lra.
Qed.

Lemma scale (q x r k : Q) :
  0 <= r → Qmake 999999999 1000000000 * x - k <= q → q <= Qmake 1000000001 1000000000 * x + k →
  Qmake 999999999 1000000000 * (x * r) - k * r <= q * r ∧ q * r <= Qmake 1000000001 1000000000 * (x * r) + k * r.
Proof.
  intros Hr H1 H2. split.
  - assert (E : Qmake 999999999 1000000000 * (x * r) - k * r == (Qmake 999999999 1000000000 * x - k) * r) by ring.
    rewrite E. now apply Qmult_le_compat_r.
  - assert (E : Qmake 1000000001 1000000000 * (x * r) + k * r == (Qmake 1000000001 1000000000 * x + k) * r) by ring.
    rewrite E. now apply Qmult_le_compat_r.
Qed.

Lemma eta_below (r : Q) : 2 ^ (-1022) <= r → eta <= Qmake 1 1000000000 * r ∧ eta * r <= Qmake 1 1000000000 * r.
Proof.
  intros Hr. pose proof (pow2_pos (-1022)). pose proof u_pos.
  assert (unit_roundoff * 2 ^ (-1022) <= unit_roundoff * r) by (apply Qmult_le_l; [exact u_pos|exact Hr]).
  assert (unit_roundoff * r <= Qmake 1 1000000000 * r) by (apply Qmult_le_compat_r; [exact u_small|lra]).
  assert (eta * r <= Qmake 1 1000000000 * r) by (apply Qmult_le_compat_r; [exact eta_small|lra]).
  pose proof eta_normal. split; lra.
Qed.

(** A result whose exact value is below 2^1023 has not overflowed. *)
Lemma no_overflow (x : spec_float) (v : Q) (P : Prop) :
  (x = S754_infinity false ∧ 2 ^ 1023 <= v) ∨ (is_nonneg x = true ∧ P) →
  v < 2 ^ 1023 → is_nonneg x = true ∧ P.
Proof. intros [[_ H]|H] Hv; [lra|exact H]. Qed.

Section Shares.
Variables F0 F G T R S : spec_float.
Hypothesis HF0 : is_nonneg F0 = true.
Hypothesis EF0 : val F0 == val F.
Hypothesis HF : is_nonneg F = true.
Hypothesis HG : is_nonneg G = true.
Hypothesis HT : is_nonneg T = true.
Hypothesis HR : is_nonneg R = true.
Hypothesis HRn : 2 ^ (-1022) <= val R.
Hypothesis HRmax : val R <= 2 ^ 1000.
Hypothesis ES : S = SFadd 53 1024 (SFadd 53 1024 F0 G) T.
Hypothesis HS : F64.is_finite S = true.
Hypothesis HSpos : SFltb (S754_zero false) S = true.

Lemma total_spend_bounds :
  is_nonneg S = true
  ∧ 0 < val S
  ∧ Qmake 999999999 1000000000 * (Qmake 999999999 1000000000 * (val F + val G + val T)) <= val S
  ∧ val S <= Qmake 1000000001 1000000000 * (Qmake 1000000001 1000000000 * (val F + val G + val T)).
Proof.
  pose proof (val_nonneg F HF). pose proof (val_nonneg G HG).
  pose proof (val_nonneg T HT).
  destruct (add_spec F0 G HF0 HG) as [[Ea _]|[Ha Ea]].
  { rewrite Ea, add_infinity in ES by exact HT. now rewrite ES in HS. }
  destruct (add_spec _ T Ha HT) as [[Es _]|[Hs Es]].
  { rewrite <- ES in Es. now rewrite Es in HS. }
  rewrite <- ES in Hs, Es.
  pose proof (val_nonneg _ Ha).
  rewrite EF0 in Ea.
  apply relax0 in Ea; [|lra]. apply relax0 in Es; [|lra].
  split; [exact Hs|]. split; [now apply positive_val|]. split; lra.
Qed.

Lemma share_bounds (P : spec_float) :
  is_nonneg P = true → val P <= val F + val G + val T →
  let q := SFdiv 53 1024 P S in
  let p := SFmul 53 1024 q R in
  let z := val P / val S * val R in
  let y := val q * val R in
  is_nonneg p = true
  ∧ 0 <= z
  ∧ Qmake 999999999 1000000000 * z - Qmake 1 1000000000 * val R <= y ∧ y <= Qmake 1000000001 1000000000 * z + Qmake 1 1000000000 * val R
  ∧ Qmake 999999999 1000000000 * y - Qmake 1 1000000000 * val R <= val p
  ∧ val p <= Qmake 1000000001 1000000000 * y + Qmake 1 1000000000 * val R
  ∧ val p <= 4 * val R.
Proof.
  intros HP HPle. cbv zeta.
  destruct total_spend_bounds as (Hs & Vs & S1 & _).
  pose proof (pow2_pos (-1022)) as Hp.
  assert (Vr : 0 < val R) by lra.
  destruct (eta_below _ HRn) as [He1 He2].
  pose proof eta_small as He3. pose proof eta_pos as He4.
  pose proof overflow_margin as HM.
  pose proof (pow2_pos 1000) as HM0.
  pose proof (val_nonneg P HP) as VP.
  pose proof (val_nonneg F HF). pose proof (val_nonneg G HG).
  pose proof (val_nonneg T HT).
  assert (Vx : 0 <= val P / val S).
  { apply Qle_shift_div_l; [exact Vs|]. lra. }
  assert (Vx2 : val P / val S <= 2).
  { apply Qle_shift_div_r; [exact Vs|]. lra. }
  destruct (no_overflow _ _ _ (div_spec P S HP Hs Vs)) as [Hq Bq]; [lra|].
  pose proof (val_nonneg _ Hq) as Vq.
  apply relax in Bq; [|exact Vx]. destruct Bq as [Q1 Q2].
  assert (Vq3 : val (SFdiv 53 1024 P S) <= 3) by lra.
  assert (Vy : 0 <= val (SFdiv 53 1024 P S) * val R)
    by (apply Qmult_le_0_compat; lra).
  assert (Vy3 : val (SFdiv 53 1024 P S) * val R <= 3 * val R)
    by (apply Qmult_le_compat_r; lra).
  destruct (no_overflow _ _ _ (mul_spec _ R Hq HR)) as [Hp' Bp]; [lra|].
  apply relax in Bp; [|exact Vy]. destruct Bp as [P1 P2].
  destruct (scale _ _ (val R) _ ltac:(lra) Q1 Q2) as [Y1 Y2].
  split; [exact Hp'|].
  split; [apply Qmult_le_0_compat; lra|].
  repeat split; lra.
Qed.

(** The three shares sum to the revenue within the tolerance, and the
    sum is finite. *)
Lemma shares_sum_f64 :
  let share P := SFmul 53 1024 (SFdiv 53 1024 P S) R in
  let A := SFadd 53 1024 (SFadd 53 1024 (share F) (share G)) (share T) in
  is_nonneg A = true ∧ Qabs (val A - val R) <= (Qmake 1 1000000) * val R.
Proof.
  cbv zeta.
  pose proof (val_nonneg F HF). pose proof (val_nonneg G HG).
  pose proof (val_nonneg T HT).
  pose proof (val_nonneg R HR) as Vr.
  pose proof overflow_margin as HM.
  destruct (share_bounds F HF ltac:(lra)) as (Hpf & Zf & Yf1 & Yf2 & Pf1 & Pf2 & Mf).
  destruct (share_bounds G HG ltac:(lra)) as (Hpg & Zg & Yg1 & Yg2 & Pg1 & Pg2 & Mg).
  destruct (share_bounds T HT ltac:(lra)) as (Hpt & Zt & Yt1 & Yt2 & Pt1 & Pt2 & Mt).
  cbv zeta in *.
  pose proof (val_nonneg _ Hpf). pose proof (val_nonneg _ Hpg).
  pose proof (val_nonneg _ Hpt).
  destruct (no_overflow _ _ _ (add_spec _ _ Hpf Hpg)) as [Hb Eb]; [lra|].
  pose proof (val_nonneg _ Hb).
  apply relax0 in Eb; [|lra]. destruct Eb as [B1 B2].
  destruct (no_overflow _ _ _ (add_spec _ _ Hb Hpt)) as [HA EA]; [lra|].
  apply relax0 in EA; [|lra]. destruct EA as [A1 A2].
  split; [exact HA|].
  destruct total_spend_bounds as (_ & Vs & S1 & S2).
  set (X := (val F + val G + val T) / val S).
  assert (HXs : X * val S == val F + val G + val T).
  { unfold X. field. lra. }
  assert (HXr : X * val R == val F / val S * val R + val G / val S * val R
                             + val T / val S * val R).
  { unfold X. field. lra. }
  rewrite <- HXs in S1, S2.
  assert (X1 : Qmake 999999999 1000000000 * (Qmake 999999999 1000000000 * X) <= 1).
  { apply (Qmult_le_r _ _ (val S) Vs).
    assert (E : Qmake 999999999 1000000000 * (Qmake 999999999 1000000000 * X) * val S == Qmake 999999999 1000000000 * (Qmake 999999999 1000000000 * (X * val S))) by ring.
    rewrite E. lra. }
  assert (X2 : 1 <= Qmake 1000000001 1000000000 * (Qmake 1000000001 1000000000 * X)).
  { apply (Qmult_le_r _ _ (val S) Vs).
    assert (E : Qmake 1000000001 1000000000 * (Qmake 1000000001 1000000000 * X) * val S == Qmake 1000000001 1000000000 * (Qmake 1000000001 1000000000 * (X * val S))) by ring.
    rewrite E. lra. }
  assert (Z1 : Qmake 999999999 1000000000 * (Qmake 999999999 1000000000 * (X * val R)) <= val R).
  { assert (E : Qmake 999999999 1000000000 * (Qmake 999999999 1000000000 * (X * val R)) == Qmake 999999999 1000000000 * (Qmake 999999999 1000000000 * X) * val R) by ring.
    rewrite E. assert (E' : val R == 1 * val R) by ring. rewrite E' at 2.
    now apply Qmult_le_compat_r. }
  assert (Z2 : val R <= Qmake 1000000001 1000000000 * (Qmake 1000000001 1000000000 * (X * val R))).
  { assert (E : Qmake 1000000001 1000000000 * (Qmake 1000000001 1000000000 * (X * val R)) == Qmake 1000000001 1000000000 * (Qmake 1000000001 1000000000 * X) * val R) by ring.
    rewrite E. assert (E' : val R == 1 * val R) by ring. rewrite E' at 1.
    now apply Qmult_le_compat_r. }
  rewrite HXr in Z1, Z2.
  eapply (sum_chain _ _ _ _ _ _ _ _ _ _ _ _ Vr Zf Zg Zt Z1 Z2
            Yf1 Yf2 Yg1 Yg2 Yt1 Yt2 Pf1 Pf2 Pg1 Pg2 Pt1 Pt2 B1 B2 A1 A2).
Qed.
End Shares.

(** ** The linear model *)

Lemma val_three : val (binary_normalize 53 1024 3 0 false) == 3.
Proof. vm_compute. reflexivity. Qed.

Lemma thirds_sum_f64 (R : spec_float) :
  is_nonneg R = true → 2 ^ (-1022) <= val R → val R <= 2 ^ 1000 →
  let l := SFdiv 53 1024 R (binary_normalize 53 1024 3 0 false) in
  let A := SFadd 53 1024 (SFadd 53 1024 l l) l in
  is_nonneg A = true ∧ Qabs (val A - val R) <= (Qmake 1 1000000) * val R.
Proof.
  intros HR HRn HRmax. cbv zeta.
  set (three := binary_normalize 53 1024 3 0 false).
  pose proof (pow2_pos (-1022)) as Hp.
  pose proof overflow_margin as HM.
  destruct (eta_below _ HRn) as [He1 _].
  pose proof (val_nonneg R HR) as Vr.
  assert (E3' : val three == 3) by exact val_three.
  assert (V3 : 0 < val three) by (rewrite E3'; lra).
  assert (E3 : val R / val three == val R * (Qmake 1 3)).
  { rewrite E3'. field. }
  destruct (no_overflow _ _ _ (div_spec R three HR eq_refl V3)) as [Hl Bl];
    [rewrite E3; lra|].
  rewrite E3 in Bl. apply relax in Bl; [|lra]. destruct Bl as [L1 L2].
  pose proof (val_nonneg _ Hl).
  destruct (no_overflow _ _ _ (add_spec _ _ Hl Hl)) as [Hb Eb]; [lra|].
  pose proof (val_nonneg _ Hb).
  apply relax0 in Eb; [|lra]. destruct Eb as [B1 B2].
  destruct (no_overflow _ _ _ (add_spec _ _ Hb Hl)) as [HA EA]; [lra|].
  apply relax0 in EA; [|lra]. destruct EA as [A1 A2].
  split; [exact HA|]. apply Qabs_Qle_condition. split; lra.
Qed.
End Rounding.

(* ================================================================== *)
(** * Attribution: the sum law in binary64                             *)
(* ================================================================== *)

Section Allocations.
Context {A : Type} `{!Num A}.

Lemma by_platform_allocation (f g t : A) :
  allocation (by_platform f g t) "facebook" = f
  ∧ allocation (by_platform f g t) "google" = g
  ∧ allocation (by_platform f g t) "tiktok" = t.
Proof.
  unfold allocation, by_platform. repeat split.
Qed.

(** What [calculate_attribution_model] returns for the spend-based and
    the linear model. *)
Lemma model_allocations (df : DataFrame A) (m : attribution_models) :
  calculate_attribution_model df = Ok m →
  let sum c := series_sum (column_values df c) in
  let total_spend :=
    nadd (nadd (sum "facebook_spend") (sum "google_spend")) (sum "tiktok_spend") in
  let total_revenue := sum (revenue_col df) in
  let share c :=
    if nltb (of_Z 0) total_spend
    then nmul (ndiv (sum c) total_spend) total_revenue else of_Z 0 in
  spend_based m
  = by_platform (share "facebook_spend") (share "google_spend") (share "tiktok_spend")
  ∧ linear m
    = by_platform (ndiv total_revenue (of_Z 3)) (ndiv total_revenue (of_Z 3))
                  (ndiv total_revenue (of_Z 3)).
Proof.
  intros H. cbv zeta. unfold calculate_attribution_model in H. cbv zeta in H.
  repeat (apply bind_ok_inv in H as (? & Hx & H);
          apply col_sum_ok_inv in Hx; subst).
  apply Ok_inj in H. subst m. cbn [spend_based linear]. split; reflexivity.
Qed.

Variable sort_values : list (Row A) → list (Row A).
Variable np_exp : A → A.
Variable df : DataFrame A.
Variable column_mapping : gmap string string.

Lemma first_loop_spend st platform :
  (first_loop_step sort_values np_exp df column_mapping st platform).2
  = match mapped_column df column_mapping (platform +:+ "_spend") with
    | Some spend_col => nadd st.2 (series_sum (column_values df spend_col))
    | None => st.2
    end.
Proof.
  destruct st as [[lc td] ts]. unfold first_loop_step.
  destruct (mapped_column _ _ (platform +:+ "_attributed_revenue"));
    destruct (mapped_column _ _ (platform +:+ "_spend")); reflexivity.
Qed.

(** What [calculate_attribution_models_smart] returns for the
    spend-based and the linear model when the three spend columns are
    mapped. *)
Lemma smart_allocations (revenue fs gs ts : string) (m : smart_models) :
  column_mapping !! "total_revenue" = Some revenue →
  mapped_column df column_mapping "facebook_spend" = Some fs →
  mapped_column df column_mapping "google_spend" = Some gs →
  mapped_column df column_mapping "tiktok_spend" = Some ts →
  calculate_attribution_models_smart sort_values np_exp df column_mapping
    = Ok (Some m) →
  let sum c := series_sum (column_values df c) in
  let total_spend := nadd (nadd (nadd (of_Z 0) (sum fs)) (sum gs)) (sum ts) in
  let total_revenue := sum revenue in
  let share c :=
    if nltb (of_Z 0) total_spend
    then nmul (ndiv (sum c) total_spend) total_revenue else of_Z 0 in
  (allocation (smart_spend_based m) "Facebook" = share fs
   ∧ allocation (smart_spend_based m) "Google" = share gs
   ∧ allocation (smart_spend_based m) "Tiktok" = share ts)
  ∧ (allocation (smart_linear m) "Facebook" = ndiv total_revenue (of_Z 3)
     ∧ allocation (smart_linear m) "Google" = ndiv total_revenue (of_Z 3)
     ∧ allocation (smart_linear m) "TikTok" = ndiv total_revenue (of_Z 3)).
Proof.
  intros Hrev Hf Hg Ht H. cbv zeta.
  unfold calculate_attribution_models_smart in H. rewrite Hrev in H.
  apply bind_ok_inv in H as (total & Htot & H).
  apply col_sum_ok_inv in Htot. subst total.
  pose proof (first_loop_spend
    (fold_left (first_loop_step sort_values np_exp df column_mapping)
               ["facebook"; "google"] (∅, ∅, of_Z 0)) "tiktok") as E3.
  pose proof (first_loop_spend
    (fold_left (first_loop_step sort_values np_exp df column_mapping)
               ["facebook"] (∅, ∅, of_Z 0)) "google") as E2.
  pose proof (first_loop_spend (∅, ∅, of_Z 0) "facebook") as E1.
  change ("facebook" +:+ "_spend") with "facebook_spend" in E1.
  change ("google" +:+ "_spend") with "google_spend" in E2.
  change ("tiktok" +:+ "_spend") with "tiktok_spend" in E3.
  rewrite Hf in E1. rewrite Hg in E2. rewrite Ht in E3.
  cbn [fold_left] in E2, E3. rewrite E1 in E2. rewrite E2 in E3.
  cbn [snd] in E3. clear E1 E2.
  unfold platforms in H. cbn [fold_left] in H.
  destruct (first_loop_step _ _ _ _ (first_loop_step _ _ _ _ _ _) _)
    as [[lc td] total_spend].
  cbn [snd] in E3. subst total_spend.
  unfold second_loop_step in H.
  change ("facebook" +:+ "_spend") with "facebook_spend" in H.
  change ("google" +:+ "_spend") with "google_spend" in H.
  change ("tiktok" +:+ "_spend") with "tiktok_spend" in H.
  rewrite Hf, Hg, Ht in H.
  change (title "facebook") with "Facebook" in H.
  change (title "google") with "Google" in H.
  change (title "tiktok") with "Tiktok" in H.
  destruct (nltb (of_Z 0) _) eqn:Hpos;
    apply Ok_inj in H; apply (inj Some) in H; subst m;
    cbn [smart_spend_based smart_linear]; unfold allocation;
    rewrite !(lookup_insert_ne _ "Tiktok" "Facebook") by done;
    rewrite !(lookup_insert_ne _ "Google" "Facebook") by done;
    rewrite !(lookup_insert_ne _ "Tiktok" "Google") by done;
    rewrite !lookup_insert_eq;
    rewrite !(lookup_insert_ne _ "Facebook" "Google") by done;
    rewrite !lookup_insert_eq;
    rewrite !(lookup_insert_ne _ "Facebook" "TikTok") by done;
    rewrite !(lookup_insert_ne _ "Google" "TikTok") by done;
    rewrite !lookup_singleton_eq; cbn [default]; repeat split.
Qed.
End Allocations.

Lemma f64_shares_within_tolerance (F0 F G T R : spec_float) :
  is_nonneg F0 = true → (val F0 == val F)%Q →
  is_nonneg F = true → is_nonneg G = true → is_nonneg T = true →
  let S := nadd (nadd F0 G) T in
  nltb (of_Z 0) S = true → F64.is_finite S = true →
  is_nonneg R = true → (2 ^ (-1022) <= val R)%Q → (val R <= 2 ^ 1000)%Q →
  let share P := nmul (ndiv P S) R in
  let A := nadd (nadd (share F) (share G)) (share T) in
  F64.is_finite A = true ∧ within_tolerance A R.
Proof.
  intros HF0 EF0 HF HG HT S Hpos Hfin HR HRn HRmax share A.
  destruct (shares_sum_f64 F0 F G T R S HF0 EF0 HF HG HT HR HRn HRmax eq_refl
              Hfin Hpos) as [HA BA].
  split; [now apply nonneg_finite|exact BA].
Qed.

Lemma f64_thirds_within_tolerance (R : spec_float) :
  is_nonneg R = true → (2 ^ (-1022) <= val R)%Q → (val R <= 2 ^ 1000)%Q →
  let l := ndiv R (of_Z 3) in
  let A := nadd (nadd l l) l in
  F64.is_finite A = true ∧ within_tolerance A R.
Proof.
  intros HR HRn HRmax l A.
  destruct (thirds_sum_f64 R HR HRn HRmax) as [HA BA].
  split; [now apply nonneg_finite|exact BA].
Qed.

(** C2 (amended).  In binary64, when the three platform spend sums are
    non-negative numbers, the total platform spend is positive and
    finite and the total revenue is a number between 2^-1022 and
    2^1000, the spend-based allocations of [calculate_attribution_model]
    and of [calculate_attribution_models_smart] have a finite sum over
    the three platforms, which is the total revenue within the relative
    tolerance 1e-6, and so have the linear allocations
    (total_revenue / 3 each). *)
Theorem allocations_sum_to_revenue :
  (∀ (df : DataFrame spec_float) (m : attribution_models),
     calculate_attribution_model df = Ok m →
     let sum c := series_sum (column_values df c) in
     let total_spend :=
       nadd (nadd (sum "facebook_spend") (sum "google_spend"))
            (sum "tiktok_spend") in
     let total_revenue := sum (revenue_col df) in
     let sum_of (a : gmap string spec_float) :=
       nadd (nadd (allocation a "facebook") (allocation a "google"))
            (allocation a "tiktok") in
     is_nonneg (sum "facebook_spend") = true →
     is_nonneg (sum "google_spend") = true →
     is_nonneg (sum "tiktok_spend") = true →
     nltb (of_Z 0) total_spend = true →
     F64.is_finite total_spend = true →
     is_nonneg total_revenue = true →
     (2 ^ (-1022) <= val total_revenue)%Q →
     (val total_revenue <= 2 ^ 1000)%Q →
     (F64.is_finite (sum_of (spend_based m)) = true
      ∧ within_tolerance (sum_of (spend_based m)) total_revenue)
     ∧ (F64.is_finite (sum_of (linear m)) = true
        ∧ within_tolerance (sum_of (linear m)) total_revenue))
  ∧ (∀ (sort_values : list (Row spec_float) → list (Row spec_float))
       (np_exp : spec_float → spec_float)
       (df : DataFrame spec_float) (column_mapping : gmap string string)
       (revenue fs gs ts : string) (m : smart_models),
     column_mapping !! "total_revenue" = Some revenue →
     mapped_column df column_mapping "facebook_spend" = Some fs →
     mapped_column df column_mapping "google_spend" = Some gs →
     mapped_column df column_mapping "tiktok_spend" = Some ts →
     calculate_attribution_models_smart sort_values np_exp df column_mapping
       = Ok (Some m) →
     let sum c := series_sum (column_values df c) in
     let total_spend :=
       nadd (nadd (nadd (of_Z 0) (sum fs)) (sum gs)) (sum ts) in
     let total_revenue := sum revenue in
     let spend_based_sum :=
       nadd (nadd (allocation (smart_spend_based m) "Facebook")
                  (allocation (smart_spend_based m) "Google"))
            (allocation (smart_spend_based m) "Tiktok") in
     let linear_sum :=
       nadd (nadd (allocation (smart_linear m) "Facebook")
                  (allocation (smart_linear m) "Google"))
            (allocation (smart_linear m) "TikTok") in
     is_nonneg (sum fs) = true →
     is_nonneg (sum gs) = true →
     is_nonneg (sum ts) = true →
     nltb (of_Z 0) total_spend = true →
     F64.is_finite total_spend = true →
     is_nonneg total_revenue = true →
     (2 ^ (-1022) <= val total_revenue)%Q →
     (val total_revenue <= 2 ^ 1000)%Q →
     (F64.is_finite spend_based_sum = true
      ∧ within_tolerance spend_based_sum total_revenue)
     ∧ (F64.is_finite linear_sum = true
        ∧ within_tolerance linear_sum total_revenue)).
Proof.
  split.
  - intros df m H sum total_spend total_revenue sum_of
      HF HG HT Hpos Hfin HR HRn HRmax.
    destruct (model_allocations df m H) as [Es El]. cbv zeta in Es, El.
    subst sum_of total_revenue total_spend sum. cbv beta in *.
    rewrite Hpos in Es. rewrite Es, El.
    set (F := series_sum (column_values df "facebook_spend")) in *.
    set (G := series_sum (column_values df "google_spend")) in *.
    set (T := series_sum (column_values df "tiktok_spend")) in *.
    set (R := series_sum (column_values df (revenue_col df))) in *.
    destruct (by_platform_allocation
                (nmul (ndiv F (nadd (nadd F G) T)) R)
                (nmul (ndiv G (nadd (nadd F G) T)) R)
                (nmul (ndiv T (nadd (nadd F G) T)) R))
      as (-> & -> & ->).
    destruct (by_platform_allocation
                (ndiv R (of_Z 3)) (ndiv R (of_Z 3)) (ndiv R (of_Z 3)))
      as (-> & -> & ->).
    split.
    + now apply (f64_shares_within_tolerance F).
    + now apply f64_thirds_within_tolerance.
  - intros sort_values np_exp df column_mapping revenue fs gs ts m
      Hrev Hf Hg Ht H sum total_spend total_revenue spend_based_sum linear_sum
      HF HG HT Hpos Hfin HR HRn HRmax.
    destruct (smart_allocations sort_values np_exp df column_mapping
                revenue fs gs ts m Hrev Hf Hg Ht H)
      as [(Ef & Eg & Et) (Lf & Lg & Lt)].
    cbv zeta in Ef, Eg, Et, Lf, Lg, Lt.
    subst spend_based_sum linear_sum total_revenue total_spend sum.
    cbv beta in *.
    rewrite Hpos in Ef, Eg, Et.
    rewrite Ef, Eg, Et, Lf, Lg, Lt.
    destruct (zero_add _ HF) as [HF0 EF0].
    split.
    + now apply (f64_shares_within_tolerance
                   (nadd (of_Z 0) (series_sum (column_values df fs)))).
    + now apply f64_thirds_within_tolerance.
Qed.

Lemma allocations_sum_to_revenue_witness :
  (∃ m, calculate_attribution_model scenario_table_f64 = Ok m
        ∧ within_tolerance
            (nadd (nadd (allocation (spend_based m) "facebook")
                        (allocation (spend_based m) "google"))
                  (allocation (spend_based m) "tiktok"))
            (F64.of_Z 1000)
        ∧ within_tolerance
            (nadd (nadd (allocation (linear m) "facebook")
                        (allocation (linear m) "google"))
                  (allocation (linear m) "tiktok"))
            (F64.of_Z 1000))
  ∧ (∃ m, calculate_attribution_models_smart sort_by_date exp_series
            scenario_table_f64 (smart_column_finder scenario_table_f64)
          = Ok (Some m)
          ∧ within_tolerance
              (nadd (nadd (allocation (smart_spend_based m) "Facebook")
                          (allocation (smart_spend_based m) "Google"))
                    (allocation (smart_spend_based m) "Tiktok"))
              (F64.of_Z 1000)
          ∧ within_tolerance
              (nadd (nadd (allocation (smart_linear m) "Facebook")
                          (allocation (smart_linear m) "Google"))
                    (allocation (smart_linear m) "TikTok"))
              (F64.of_Z 1000)).
Proof.
  assert (R : series_sum (column_values scenario_table_f64 "total_revenue")
              = F64.of_Z 1000) by (vm_compute; reflexivity).
  split.
  - destruct (calculate_attribution_model scenario_table_f64) as [m|c] eqn:E;
      [|vm_compute in E; discriminate].
    exists m. split; [reflexivity|]. rewrite <- R.
    destruct (proj1 allocations_sum_to_revenue scenario_table_f64 m E)
      as [[_ H1] [_ H2]];
      [vm_compute; reflexivity|vm_compute; reflexivity|vm_compute; reflexivity
      |vm_compute; reflexivity|vm_compute; reflexivity|vm_compute; reflexivity
      |vm_compute; discriminate|vm_compute; discriminate|].
    split; [exact H1|exact H2].
  - destruct (calculate_attribution_models_smart sort_by_date exp_series
                scenario_table_f64 (smart_column_finder scenario_table_f64))
      as [[m|]|c] eqn:E; [|vm_compute in E; discriminate..].
    exists m. split; [reflexivity|]. rewrite <- R.
    destruct (proj2 allocations_sum_to_revenue sort_by_date exp_series
             scenario_table_f64 (smart_column_finder scenario_table_f64)
             "total_revenue" "facebook_spend" "google_spend" "tiktok_spend" m)
      as [[_ H1] [_ H2]];
      [vm_compute; reflexivity|vm_compute; reflexivity|vm_compute; reflexivity
      |vm_compute; reflexivity|exact E
      |vm_compute; reflexivity|vm_compute; reflexivity|vm_compute; reflexivity
      |vm_compute; reflexivity|vm_compute; reflexivity|vm_compute; reflexivity
      |vm_compute; discriminate|vm_compute; discriminate|].
    split; [exact H1|exact H2].
Defined.

(** C2, counterexample.  In binary64, with a spend of 1e308 on two
    platforms the total spend overflows to +infinity, which is positive;
    every share [spend / total_spend] is 0 and the spend-based
    allocations sum to 0, while the total revenue is 100: the difference
    is not within 1e-6 of the total revenue. *)
Lemma overflowing_spend_breaks_sum_law :
  let df := overflow_spend_table in
  let sum c := series_sum (column_values df c) in
  let total_spend :=
    nadd (nadd (sum "facebook_spend") (sum "google_spend")) (sum "tiktok_spend") in
  let tolerance := nmul (ndiv (F64.of_Z 1) (F64.of_Z 1000000)) (sum "total_revenue") in
  sum "facebook_spend" = F64.of_Z (10 ^ 308)
  ∧ total_spend = S754_infinity false
  ∧ nltb (F64.of_Z 0) total_spend = true
  ∧ sum "total_revenue" = F64.of_Z 100
  ∧ (∃ m, calculate_attribution_model df = Ok m
          ∧ nadd (nadd (allocation (spend_based m) "facebook")
                       (allocation (spend_based m) "google"))
                 (allocation (spend_based m) "tiktok") = F64.of_Z 0
          ∧ nleb (nabs (nsub (F64.of_Z 0) (sum "total_revenue"))) tolerance = false)
  ∧ (∃ m, calculate_attribution_models_smart sort_by_date exp_series df
            (smart_column_finder df) = Ok (Some m)
          ∧ nadd (nadd (allocation (smart_spend_based m) "Facebook")
                       (allocation (smart_spend_based m) "Google"))
                 (allocation (smart_spend_based m) "Tiktok") = F64.of_Z 0).
Proof.
  cbv zeta.
  split; [vm_compute; reflexivity|].
  split; [vm_compute; reflexivity|].
  split; [vm_compute; reflexivity|].
  split; [vm_compute; reflexivity|].
  split; eexists; (split; [vm_compute; reflexivity|]);
    repeat split; vm_compute; reflexivity.
Qed.

(** The hypotheses of the sum law in binary64 are needed.  With a
    revenue of 2^-1074 every share and every third rounds to 0. *)
Lemma tiny_revenue_is_lost :
  let df := tiny_revenue_table in
  let sum c := series_sum (column_values df c) in
  let total_spend :=
    nadd (nadd (sum "facebook_spend") (sum "google_spend")) (sum "tiktok_spend") in
  total_spend = F64.of_Z 3
  ∧ sum "total_revenue" = S754_finite false 1 (-1074)
  ∧ (∃ m, calculate_attribution_model df = Ok m
          ∧ nadd (nadd (allocation (spend_based m) "facebook")
                       (allocation (spend_based m) "google"))
                 (allocation (spend_based m) "tiktok") = F64.of_Z 0
          ∧ nadd (nadd (allocation (linear m) "facebook")
                       (allocation (linear m) "google"))
                 (allocation (linear m) "tiktok") = F64.of_Z 0)
  ∧ ¬ within_tolerance (F64.of_Z 0) (sum "total_revenue").
Proof.
  cbv zeta.
  split; [vm_compute; reflexivity|].
  split; [vm_compute; reflexivity|].
  split.
  - eexists. split; [vm_compute; reflexivity|].
    split; vm_compute; reflexivity.
  - unfold within_tolerance. vm_compute. intros H. now apply H.
Qed.

(** With a negative spend that cancels a large one, the total spend is
    computed as 4 instead of 3 and the spend-based allocations sum to
    64 for a revenue of 100. *)
Lemma refunded_spend_breaks_sum_law :
  let df := refunded_spend_table in
  let sum c := series_sum (column_values df c) in
  let total_spend :=
    nadd (nadd (sum "facebook_spend") (sum "google_spend")) (sum "tiktok_spend") in
  total_spend = F64.of_Z 4
  ∧ sum "total_revenue" = F64.of_Z 100
  ∧ (∃ m, calculate_attribution_model df = Ok m
          ∧ nadd (nadd (allocation (spend_based m) "facebook")
                       (allocation (spend_based m) "google"))
                 (allocation (spend_based m) "tiktok") = F64.of_Z 64)
  ∧ ¬ within_tolerance (F64.of_Z 64) (F64.of_Z 100).
Proof.
  cbv zeta.
  split; [vm_compute; reflexivity|].
  split; [vm_compute; reflexivity|].
  split.
  - eexists. split; vm_compute; reflexivity.
  - unfold within_tolerance. vm_compute. intros H. now apply H.
Qed.

(** C3, counterexample.  The table has no TikTok column and a total
    revenue of 300: the linear model of
    [calculate_attribution_models_smart] still assigns 100 to TikTok,
    and [calculate_attribution_model] raises [KeyError]. *)
Lemma linear_share_of_absent_platform :
  let df := no_tiktok_table in
  Forall (λ c, has_col df c = false)
         [ "tiktok_spend"; "tiktok_attributed revenue"; "tiktok_attributed_revenue" ]
  ∧ smart_column_finder df !! "tiktok_spend" = None
  ∧ smart_column_finder df !! "tiktok_attributed_revenue" = None
  ∧ (∃ m, calculate_attribution_models_smart sort_by_date exp_series df
            (smart_column_finder df) = Ok (Some m)
          ∧ smart_linear m !! "TikTok" = Some (F64.of_Z 100)
          ∧ smart_linear m !! "TikTok" ≠ Some (F64.of_Z 0))
  ∧ calculate_attribution_model df = KeyError "tiktok_attributed revenue".
Proof.
  cbv zeta.
  split; [repeat constructor|].
  split; [vm_compute; reflexivity|].
  split; [vm_compute; reflexivity|].
  split; [|vm_compute; reflexivity].
  eexists. split; [vm_compute; reflexivity|].
  split; [vm_compute; reflexivity|]. vm_compute. discriminate.
Qed.

Lemma absent_platform_allocations_witness :
  ∃ m, calculate_attribution_models_smart sort_by_date exp_series no_tiktok_table
         (smart_column_finder no_tiktok_table) = Ok (Some m)
       ∧ smart_last_click m !! "Tiktok" = Some (F64.of_Z 0)
       ∧ smart_spend_based m !! "Tiktok" = Some (F64.of_Z 0)
       ∧ smart_time_decay m !! "Tiktok" = Some (F64.of_Z 0).
Proof.
  assert (Hp : "tiktok" ∈ platforms).
  { unfold platforms. apply elem_of_cons. right. apply elem_of_cons. right.
    apply elem_of_cons. now left. }
  pose proof (proj2 (absent_platform_allocations sort_by_date exp_series
                       no_tiktok_table "tiktok" Hp)) as H.
  destruct (calculate_attribution_models_smart sort_by_date exp_series
              no_tiktok_table (smart_column_finder no_tiktok_table))
    as [[m|]|c] eqn:E; [|vm_compute in E; discriminate..].
  exists m. split; [reflexivity|].
  destruct H as (H1 & H2 & H3 & _); [repeat constructor..|].
  split; [exact H1|]. split; [exact H2|exact H3].
Defined.

(* ================================================================== *)
(** * Binary64: a sum and its double                                   *)
(* ================================================================== *)

Lemma div_eucl_shift (m : positive) (n : Z) :
  (0 <= n)%Z → Z.div_eucl (Z.shiftl (Zpos m) n) (Zpos m) = (2 ^ n, 0)%Z.
Proof.
  intros Hn. rewrite Z.shiftl_mul_pow2 by done.
  destruct (Z.div_eucl (Z.pos m * 2 ^ n) (Z.pos m)) as [q r] eqn:E.
  assert (Hq : q = (Z.pos m * 2 ^ n / Z.pos m)%Z) by (unfold Z.div; now rewrite E).
  assert (Hr : r = (Z.pos m * 2 ^ n mod Z.pos m)%Z) by (unfold Z.modulo; now rewrite E).
  rewrite Z.mul_comm in Hq, Hr.
  rewrite Z.div_mul in Hq by lia. rewrite Z.mod_mul in Hr by lia. now subst.
Qed.

(** A finite number divided by itself is 1. *)
Lemma div_self (s : bool) (m : positive) (e : Z) :
  SFdiv 53 1024 (S754_finite s m e) (S754_finite s m e) = F64.of_Z 1.
Proof.
  unfold SFdiv, SFdiv_core_binary.
  replace (Z.sub (Z.add (Zdigits2 (Zpos m)) e) (Z.add (Zdigits2 (Zpos m)) e)) with 0%Z by lia.
  replace (Z.sub e e) with 0%Z by lia.
  change (Z.min (fexp 53 1024 0) 0) with (-53)%Z.
  change (0 - -53)%Z with 53%Z. cbv iota.
  rewrite (div_eucl_shift m 53) by lia.
  rewrite xorb_nilpotent. unfold new_location.
  destruct (Z.even (Z.pos m)); reflexivity.
Qed.

Lemma bounded_cases (m : positive) (e : Z) :
  bounded 53 1024 m e = true →
  (e <= 971)%Z ∧
  ((Zpos (digits2_pos m) = 53%Z ∧ (-1074 <= e)%Z)
   ∨ (Zpos (digits2_pos m) < 53 ∧ e = -1074)%Z).
Proof.
  unfold bounded, canonical_mantissa, fexp, emin. intros H.
  apply andb_prop in H as [H1 H2].
  apply Z.eqb_eq in H1. apply Z.leb_le in H2. lia.
Qed.

Lemma shr_1_even (p : positive) :
  shr_1 (Build_shr_record (Zpos p~0) false false) = Build_shr_record (Zpos p) false false.
Proof. reflexivity. Qed.

Lemma iter_shr_1_shifted (m n : positive) :
  SpecFloat.iter_pos shr_1 n (Build_shr_record (Zpos (Pos.iter xO m n)) false false)
  = Build_shr_record (Zpos m) false false.
Proof.
  rewrite iter_pos_iter. revert m. induction n as [|n IH] using Pos.peano_ind; intros m.
  - reflexivity.
  - rewrite Pos.iter_succ_r, (Pos.iter_succ n _ xO m), shr_1_even. apply IH.
Qed.

(** Rounding a mantissa that ends with [n] zeros, [n] of them in excess. *)
Lemma round_shifted (m n : positive) (e : Z) :
  fexp 53 1024 (Zpos (digits2_pos m) + (e + Zpos n)) = (e + Zpos n)%Z →
  binary_round_aux 53 1024 false (Zpos (Pos.iter xO m n)) e loc_Exact
  = if (e + Zpos n <=? 971)%Z then S754_finite false m (e + Zpos n)
    else S754_infinity false.
Proof.
  intros H. unfold binary_round_aux, shr_fexp.
  cbn [Zdigits2 shr_record_of_loc]. rewrite digits2_pos_shifted.
  replace (Z.pos (digits2_pos m) + Z.pos n + e)%Z
    with (Z.pos (digits2_pos m) + (e + Z.pos n))%Z by lia.
  rewrite H. replace (e + Z.pos n - e)%Z with (Zpos n) by lia.
  cbn [shr]. rewrite iter_shr_1_shifted.
  cbn [shr_m loc_of_shr_record round_nearest_even Zdigits2 shr_record_of_loc].
  rewrite H. rewrite Z.sub_diag. cbn [shr shr_m]. reflexivity.
Qed.

(** Rounding a canonical mantissa. *)
Lemma round_canonical (m : positive) (e : Z) :
  fexp 53 1024 (Zpos (digits2_pos m) + e) = e →
  binary_round_aux 53 1024 false (Zpos m) e loc_Exact
  = if (e <=? 971)%Z then S754_finite false m e else S754_infinity false.
Proof.
  intros H. unfold binary_round_aux, shr_fexp.
  cbn [Zdigits2 shr_record_of_loc]. rewrite H, Z.sub_diag. cbn [shr].
  cbn [shr_m loc_of_shr_record round_nearest_even Zdigits2 shr_record_of_loc].
  rewrite H, Z.sub_diag. cbn [shr shr_m]. reflexivity.
Qed.

(** Twice a positive binary64 number: the next exponent for a normal
    number (or +infinity at the top of the range), the doubled mantissa
    for a subnormal one. *)
Lemma mul_2 (m : positive) (e : Z) :
  bounded 53 1024 m e = true →
  SFmul 53 1024 (F64.of_Z 2) (S754_finite false m e)
  = if (Zpos (digits2_pos m) =? 53)%Z
    then (if (e + 1 <=? 971)%Z then S754_finite false m (e + 1)
          else S754_infinity false)
    else S754_finite false (xO m) e.
Proof.
  intros Hb. apply bounded_cases in Hb as [He Hb].
  change (F64.of_Z 2) with (S754_finite false 4503599627370496 (-51)).
  unfold SFmul. cbn [xorb].
  destruct Hb as [[Hd Hmin]|[Hd ->]].
  - rewrite Hd. cbn [Z.eqb Pos.eqb].
    change (4503599627370496 * m)%positive with (Pos.iter xO m 52).
    rewrite round_shifted.
    + now replace (-51 + e + 52)%Z with (e + 1)%Z by lia.
    + unfold fexp, emin. lia.
  - destruct (Z.eqb_spec (Zpos (digits2_pos m)) 53) as [E|_]; [lia|].
    change (4503599627370496 * m)%positive with (Pos.iter xO (xO m) 51).
    rewrite round_shifted.
    + reflexivity.
    + unfold fexp, emin. cbn [digits2_pos]. lia.
Qed.

Lemma sub_half (m : positive) (e : Z) :
  bounded 53 1024 m e = true →
  SFsub 53 1024 (S754_finite false m (e + 1)) (S754_finite false m e)
  = S754_finite false m e
  ∧ SFsub 53 1024 (S754_finite false (xO m) e) (S754_finite false m e)
    = S754_finite false m e.
Proof.
  intros Hb.
  assert (Hc : fexp 53 1024 (Zpos (digits2_pos m) + e) = e).
  { unfold bounded, canonical_mantissa in Hb. apply andb_prop in Hb as [H _].
    now apply Z.eqb_eq in H. }
  assert (He : (e <=? 971)%Z = true).
  { unfold bounded in Hb. now apply andb_prop in Hb as [_ H]. }
  assert (Hn : binary_normalize 53 1024 (Zpos m) e false = S754_finite false m e).
  { unfold binary_normalize, binary_round, shl_align. rewrite Hc, Z.sub_diag.
    rewrite round_canonical by exact Hc. now rewrite He. }
  split.
  - unfold SFsub, cond_Zopp, shl_align.
    replace (Z.min (e + 1) e) with e by lia.
    replace (e - (e + 1))%Z with (-1)%Z by lia. rewrite Z.sub_diag.
    cbn [fst Pos.iter].
    replace (Z.pos (xO m) - Z.pos m)%Z with (Zpos m) by lia. exact Hn.
  - unfold SFsub, cond_Zopp, shl_align.
    rewrite Z.min_id, Z.sub_diag. cbn [fst].
    replace (Z.pos (xO m) - Z.pos m)%Z with (Zpos m) by lia. exact Hn.
Qed.

(** Growth of a positive binary64 sum that doubled. *)
Lemma f64_growth_double (a b : spec_float) :
  valid_binary F64.prec F64.emax a = true →
  nltb (of_Z 0) a = true →
  b = nmul (of_Z 2) a →
  F64.is_finite b = true →
  growth a b = of_Z 100.
Proof.
  intros Hv Hpos -> Hfin.
  destruct a as [s|s| |s m e].
  - destruct s; vm_compute in Hpos; discriminate.
  - destruct s; vm_compute in Hfin; discriminate.
  - vm_compute in Hpos. discriminate.
  - destruct s; [vm_compute in Hpos; discriminate|]. cbn [valid_binary] in Hv.
    unfold growth. rewrite Hpos.
    cbn [nmul nsub ndiv f64_num of_Z] in Hfin |- *.
    change F64.prec with 53%Z in *. change F64.emax with 1024%Z in *.
    rewrite (mul_2 m e Hv) in Hfin |- *.
    destruct (sub_half m e Hv) as [S1 S2].
    destruct (Zpos (digits2_pos m) =? 53)%Z.
    + destruct (e + 1 <=? 971)%Z; [|discriminate].
      rewrite S1, div_self. reflexivity.
    + rewrite S2, div_self. reflexivity.
Qed.


(* ================================================================== *)
(** * KPIs: the growth protocol                                        *)
(* ================================================================== *)

(** C4 (amended).  [calculate_kpis] sorts the table by date and splits
    it at index [len // 2]: the two halves are the sorted table, the
    first one has [len // 2] rows and never more than the second.
    Revenue growth and order growth are
    [(second - first) / first * 100] of the halves' sums when the
    first-half sum is greater than 0, and 0 otherwise (a zero, negative
    or NaN sum); roas_trend and margin_trend are the difference of the
    halves' means.  When the first-half revenue sum is positive and the
    second-half sum is exactly twice it and finite, revenue_growth is
    exactly 100: in binary64 for every well-formed sum, and in exact
    arithmetic. *)
Theorem kpi_growth_protocol :
  (∀ (A : Type) (HA : Num A) (sort_values : list (Row A) → list (Row A)),
     (∀ l, Permutation l (sort_values l)) →
     (∀ l, StronglySorted date_le (sort_values l)) →
     ∀ (df : DataFrame A) (k : KPIs),
       calculate_kpis sort_values df = Ok k →
       let first := first_half sort_values df in
       let second := second_half sort_values df in
       let sum_of d c := series_sum (column_values d c) in
       let mean_of d c := series_mean (column_values d c) in
       let growth_of a b :=
         if nltb (of_Z 0) a then nmul (ndiv (nsub b a) a) (of_Z 100) else of_Z 0 in
       rows first ++ rows second = sort_values (rows df)
       ∧ Permutation (rows df) (rows first ++ rows second)
       ∧ StronglySorted date_le (rows first ++ rows second)
       ∧ len first = (len df / 2)%nat
       ∧ (len first + len second = len df)%nat
       ∧ (len first <= len second)%nat
       ∧ kpi_revenue_growth k
         = growth_of (sum_of first (revenue_col df)) (sum_of second (revenue_col df))
       ∧ kpi_order_growth k
         = growth_of (sum_of first (orders_col df)) (sum_of second (orders_col df))
       ∧ kpi_roas_trend k
         = nsub (mean_of second "marketing_roas") (mean_of first "marketing_roas")
       ∧ kpi_margin_trend k
         = nsub (mean_of second "profit_margin") (mean_of first "profit_margin"))
  ∧ (∀ (sort_values : list (Row spec_float) → list (Row spec_float))
       (df : DataFrame spec_float) (k : KPIs),
       calculate_kpis sort_values df = Ok k →
       let first_half_revenue :=
         series_sum (column_values (first_half sort_values df) (revenue_col df)) in
       let second_half_revenue :=
         series_sum (column_values (second_half sort_values df) (revenue_col df)) in
       valid_binary F64.prec F64.emax first_half_revenue = true →
       nltb (of_Z 0) first_half_revenue = true →
       second_half_revenue = nmul (of_Z 2) first_half_revenue →
       F64.is_finite second_half_revenue = true →
       kpi_revenue_growth k = of_Z 100)
  ∧ (∀ (sort_values : list (Row exact) → list (Row exact))
       (df : DataFrame exact) (k : KPIs),
       calculate_kpis sort_values df = Ok k →
       let first_half_revenue :=
         series_sum (column_values (first_half sort_values df) (revenue_col df)) in
       let second_half_revenue :=
         series_sum (column_values (second_half sort_values df) (revenue_col df)) in
       isinf first_half_revenue = false →
       nltb (of_Z 0) first_half_revenue = true →
       second_half_revenue = nmul (of_Z 2) first_half_revenue →
       kpi_revenue_growth k = of_Z 100).
Proof.
  split; [|split].
  - intros A HA sort_values Hperm Hsorted df k Hk. cbv zeta.
    pose proof (halves_append sort_values df) as Happ.
    pose proof (len_first_half sort_values Hperm df) as H1.
    pose proof (len_second_half sort_values Hperm df) as H2.
    pose proof (kpi_fields sort_values df k Hk) as (G1 & G2 & G3 & G4).
    assert (len df / 2 <= len df)%nat by (apply Nat.Div0.div_le_upper_bound; lia).
    assert (len df / 2 <= len df - len df / 2)%nat.
    { pose proof (Nat.Div0.div_mod (len df) 2). lia. }
    split; [exact Happ|]. rewrite Happ.
    split; [apply Hperm|]. split; [apply Hsorted|].
    split; [exact H1|]. split; [lia|]. split; [lia|].
    split; [exact G1|]. split; [exact G2|]. split; [exact G3|exact G4].
  - intros sort_values df k Hk. cbv zeta. intros Hvalid Hpos Hdouble Hfin.
    rewrite (proj1 (kpi_fields sort_values df k Hk)).
    now apply f64_growth_double.
  - intros sort_values df k Hk. cbv zeta. intros Hfin Hpos Hdouble.
    rewrite (proj1 (kpi_fields sort_values df k Hk)).
    now apply ExactFacts.growth_double.
Qed.

Lemma kpi_growth_protocol_witness :
  ∃ k, calculate_kpis sort_by_date doubling_table = Ok k
       ∧ map date (rows doubling_table) = [ 2%Z; 1%Z ]
       ∧ map date (rows (first_half sort_by_date doubling_table)) = [ 1%Z ]
       ∧ map date (rows (second_half sort_by_date doubling_table)) = [ 2%Z ]
       ∧ len (first_half sort_by_date doubling_table) = (2 / 2)%nat
       ∧ kpi_revenue_growth k = F64.of_Z 100.
Proof.
  destruct (calculate_kpis sort_by_date doubling_table) as [k|c] eqn:E;
    [|vm_compute in E; discriminate].
  exists k. split; [reflexivity|]. split; [reflexivity|].
  split; [reflexivity|]. split; [reflexivity|]. split.
  - apply (proj1 kpi_growth_protocol spec_float f64_num sort_by_date
             sort_by_date_perm sort_by_date_sorted doubling_table k E).
  - apply (proj1 (proj2 kpi_growth_protocol) sort_by_date doubling_table k E);
      vm_compute; reflexivity.
Defined.

(** C4, counterexample.  Two days of refunds, -10 then -20: the
    second-half sum is exactly twice the first-half sum, which is not 0,
    and the formula gives 100, but revenue_growth is 0.  Two days
    without revenue: the second-half sum, 0, is twice the first-half
    sum, and revenue_growth is 0, not 100. *)
Lemma growth_is_zero_without_positive_base :
  let sum_of d c := series_sum (column_values d c) in
  (let df := refunds_table in
   let first := sum_of (first_half sort_by_date df) "total_revenue" in
   let second := sum_of (second_half sort_by_date df) "total_revenue" in
   first = F64.of_Z (-10) ∧ second = F64.of_Z (-20)
   ∧ second = nmul (F64.of_Z 2) first
   ∧ nmul (ndiv (nsub second first) first) (F64.of_Z 100) = F64.of_Z 100
   ∧ ∃ k, calculate_kpis sort_by_date df = Ok k
          ∧ kpi_revenue_growth k = F64.of_Z 0)
  ∧ (let df := no_revenue_table in
     let first := sum_of (first_half sort_by_date df) "total_revenue" in
     let second := sum_of (second_half sort_by_date df) "total_revenue" in
     first = F64.of_Z 0 ∧ second = nmul (F64.of_Z 2) first
     ∧ ∃ k, calculate_kpis sort_by_date df = Ok k
            ∧ kpi_revenue_growth k = F64.of_Z 0)
  ∧ F64.of_Z 0 ≠ F64.of_Z 100.
Proof.
  cbv zeta. split; [|split].
  - repeat split; try (vm_compute; reflexivity).
    eexists. split; vm_compute; reflexivity.
  - repeat split; try (vm_compute; reflexivity).
    eexists. split; vm_compute; reflexivity.
  - vm_compute. discriminate.
Qed.

(* ================================================================== *)
(** * Platform metrics                                                 *)
(* ================================================================== *)

Section PlatformMetricsFacts.
Context {A : Type} `{!Num A}.

(** The columns [calculate_platform_metrics] reads without a test, in
    the order it reads them. *)
Lemma platform_metrics_of_spec (df : DataFrame A) (platform : string) :
  match List.find (λ c, negb (has_col df c))
          [ "facebook_attributed revenue"; "google_attributed revenue";
            "tiktok_attributed revenue"; "spend" ] with
  | Some c => platform_metrics_of df platform = KeyError c
  | None => ∃ m, platform_metrics_of df platform = Ok m
  end.
Proof.
  unfold platform_metrics_of, col_sum, col. cbn [List.find].
  destruct (has_col df "facebook_attributed revenue"); cbn [negb mbind result_bind];
    [|reflexivity].
  destruct (has_col df "google_attributed revenue"); cbn [negb mbind result_bind];
    [|reflexivity].
  destruct (has_col df "tiktok_attributed revenue"); cbn [negb mbind result_bind];
    [|reflexivity].
  destruct (has_col df "spend"); cbn [negb mbind result_bind]; [|reflexivity].
  eexists. reflexivity.
Qed.

Lemma platform_metrics_fold_error (df : DataFrame A) (l : list string) (c : string) :
  fold_left (platform_metrics_step df) l (KeyError c) = KeyError c.
Proof. induction l as [|p l IH]; [reflexivity|exact IH]. Qed.

Lemma platform_metrics_fold_ok (df : DataFrame A) (l : list string)
    (acc : gmap string platform_metric) :
  (∀ p, ∃ m, platform_metrics_of df p = Ok m) →
  ∃ m, fold_left (platform_metrics_step df) l (Ok acc) = Ok m
       ∧ ∀ p, is_Some (m !! p) ↔ p ∈ l ∨ is_Some (acc !! p).
Proof.
  intros Hok. revert acc. induction l as [|q l IH]; intros acc.
  - exists acc. split; [reflexivity|]. intros p. rewrite elem_of_nil. tauto.
  - destruct (Hok q) as [mq Eq]. cbn [fold_left].
    unfold platform_metrics_step at 2. cbn [mbind result_bind]. rewrite Eq.
    cbn [mbind result_bind].
    destruct (IH (<[q := mq]> acc)) as (m & Em & Hm).
    exists m. split; [exact Em|]. intros p. rewrite Hm, elem_of_cons.
    destruct (decide (p = q)) as [->|Hne].
    + rewrite lookup_insert_eq. split; [intros _; now left; left|intros _].
      right. eauto.
    + rewrite lookup_insert_ne by done. split; intros [H1|H1]; auto.
      destruct H1 as [?|?]; [done|auto].
Qed.

(** X1.  [calculate_platform_metrics] raises [KeyError] for the first
    of the three attributed revenue columns and [spend] that the table
    lacks, whatever the platforms asked for (none excepted); otherwise
    it returns one entry for each platform given, known or not.  With
    no platform it returns the empty dictionary without reading a
    column. *)
Theorem platform_metrics_errors (df : DataFrame A) (platforms : list string) :
  match List.find (λ c, negb (has_col df c))
          [ "facebook_attributed revenue"; "google_attributed revenue";
            "tiktok_attributed revenue"; "spend" ] with
  | Some c =>
      calculate_platform_metrics df platforms
      = match platforms with [] => Ok ∅ | _ => KeyError c end
  | None =>
      ∃ m, calculate_platform_metrics df platforms = Ok m
           ∧ ∀ p, is_Some (m !! p) ↔ p ∈ platforms
  end.
Proof.
  destruct (List.find _ _) as [c|] eqn:E.
  - destruct platforms as [|p l]; [reflexivity|].
    unfold calculate_platform_metrics. cbn [fold_left].
    unfold platform_metrics_step at 2. cbn [mbind result_bind].
    pose proof (platform_metrics_of_spec df p) as H. rewrite E in H. rewrite H.
    cbn [mbind result_bind]. apply platform_metrics_fold_error.
  - destruct (platform_metrics_fold_ok df platforms ∅) as (m & Em & Hm).
    + intros p. pose proof (platform_metrics_of_spec df p) as H.
      now rewrite E in H.
    + exists m. split; [exact Em|]. intros p. rewrite Hm.
      rewrite lookup_empty. split; [intros [?|[? [=]]]; done|auto].
Qed.
End PlatformMetricsFacts.

Section PlatformMetricsLookup.
Context {A : Type} `{!Num A}.

Lemma platform_metrics_fold_lookup (df : DataFrame A) (l : list string)
    (acc m : gmap string platform_metric) (p : string) (mp : platform_metric) :
  (∀ q mq, acc !! q = Some mq → platform_metrics_of df q = Ok mq) →
  fold_left (platform_metrics_step df) l (Ok acc) = Ok m →
  m !! p = Some mp → platform_metrics_of df p = Ok mp.
Proof.
  revert acc. induction l as [|q l IH]; intros acc Hacc Hm Hp.
  - apply Ok_inj in Hm. subst m. now apply Hacc.
  - cbn [fold_left] in Hm. unfold platform_metrics_step at 2 in Hm.
    cbn [mbind result_bind] in Hm.
    destruct (platform_metrics_of df q) as [mq|c] eqn:Eq.
    + cbn [mbind result_bind] in Hm. refine (IH _ _ Hm Hp).
      intros q' mq'. destruct (decide (q' = q)) as [->|Hne].
      * rewrite lookup_insert_eq. intros [= <-]. exact Eq.
      * rewrite lookup_insert_ne by done. apply Hacc.
    + cbn [mbind result_bind] in Hm.
      rewrite platform_metrics_fold_error in Hm. discriminate.
Qed.

(** Every entry of the result is the loop body's value for its key. *)
Lemma platform_metrics_lookup (df : DataFrame A) (l : list string)
    (m : gmap string platform_metric) (p : string) (mp : platform_metric) :
  calculate_platform_metrics df l = Ok m →
  m !! p = Some mp → platform_metrics_of df p = Ok mp.
Proof.
  apply platform_metrics_fold_lookup. intros q mq. now rewrite lookup_empty.
Qed.

Lemma platform_metrics_of_inv (df : DataFrame A) (p : string) (mp : platform_metric) :
  platform_metrics_of df p = Ok mp →
  has_col df "facebook_attributed revenue" = true
  ∧ has_col df "google_attributed revenue" = true
  ∧ has_col df "tiktok_attributed revenue" = true
  ∧ has_col df "spend" = true
  ∧ let sum c := series_sum (column_values df c) in
    let total_attributed :=
      nadd (nadd (sum "facebook_attributed revenue")
                 (sum "google_attributed revenue"))
           (sum "tiktok_attributed revenue") in
    let total_spend := sum_if_present df (lower p +:+ "_spend") in
    let total_revenue := sum_if_present df (lower p +:+ "_attributed revenue") in
    let total_clicks := sum_if_present df (lower p +:+ "_clicks") in
    let total_impressions := sum_if_present df (lower p +:+ "_impression") in
    let revenue_share :=
      if nltb (of_Z 0) total_attributed
      then nmul (ndiv total_revenue total_attributed) (of_Z 100) else of_Z 0 in
    let spend_share :=
      if nltb (of_Z 0) (sum "spend")
      then nmul (ndiv total_spend (sum "spend")) (of_Z 100) else of_Z 0 in
    mp = {| pm_total_spend := total_spend;
            pm_total_revenue := total_revenue;
            pm_total_clicks := total_clicks;
            pm_total_impressions := total_impressions;
            pm_roas := guarded_div total_revenue total_spend;
            pm_ctr := guarded_div total_clicks total_impressions;
            pm_cpc := guarded_div total_spend total_clicks;
            pm_cpm := if nltb (of_Z 0) total_impressions
                      then nmul (ndiv total_spend total_impressions) (of_Z 1000)
                      else of_Z 0;
            pm_revenue_share := revenue_share;
            pm_spend_share := spend_share;
            pm_efficiency_ratio := guarded_div revenue_share spend_share |}.
Proof.
  unfold platform_metrics_of, col_sum, col. intros H.
  destruct (has_col df "facebook_attributed revenue"); [|discriminate].
  destruct (has_col df "google_attributed revenue"); [|discriminate].
  destruct (has_col df "tiktok_attributed revenue"); [|discriminate].
  destruct (has_col df "spend"); [|discriminate].
  cbn [mbind result_bind] in H. apply Ok_inj in H.
  repeat (split; [reflexivity|]). cbv zeta. now subst mp.
Qed.
End PlatformMetricsLookup.

Lemma f64_zero_share (x y : spec_float) :
  nltb (of_Z 0) x = true → is_nonneg y = true → F64.is_zero y = false →
  nmul (ndiv (of_Z 0) x) y = F64.of_Z 0.
Proof.
  destruct x as [s|[]| |[] m e]; try discriminate; intros _;
    destruct y as [s'|s'| |[] m' e']; try discriminate; reflexivity.
Qed.

Lemma f64_guarded_div_zero (x : spec_float) :
  guarded_div x (F64.of_Z 0) = F64.of_Z 0.
Proof. reflexivity. Qed.

(** X2.  A platform none of whose four columns is in the table gets 0
    for every metric: it is no error to ask for it. *)
Theorem unknown_platform_metrics_are_zero
    (df : DataFrame spec_float) (platforms : list string)
    (m : gmap string platform_metric) (p : string) (mp : platform_metric) :
  calculate_platform_metrics df platforms = Ok m →
  m !! p = Some mp →
  has_col df (lower p +:+ "_spend") = false →
  has_col df (lower p +:+ "_attributed revenue") = false →
  has_col df (lower p +:+ "_clicks") = false →
  has_col df (lower p +:+ "_impression") = false →
  mp = {| pm_total_spend := F64.of_Z 0; pm_total_revenue := F64.of_Z 0;
          pm_total_clicks := F64.of_Z 0; pm_total_impressions := F64.of_Z 0;
          pm_roas := F64.of_Z 0; pm_ctr := F64.of_Z 0; pm_cpc := F64.of_Z 0;
          pm_cpm := F64.of_Z 0; pm_revenue_share := F64.of_Z 0;
          pm_spend_share := F64.of_Z 0; pm_efficiency_ratio := F64.of_Z 0 |}.
Proof.
  intros Hm Hp Hs Hr Hc Hi.
  destruct (platform_metrics_of_inv df p mp (platform_metrics_lookup df _ m p mp Hm Hp))
    as (_ & _ & _ & _ & E).
  cbv zeta in E. unfold sum_if_present in E. rewrite Hs, Hr, Hc, Hi in E.
  rewrite E. clear E.
  set (ta := nadd (nadd _ _) _). set (sp := series_sum (column_values df "spend")).
  assert (E1 : (if nltb (of_Z 0) ta
                then nmul (ndiv (of_Z 0) ta) (of_Z 100) else of_Z 0)
               = F64.of_Z 0).
  { destruct (nltb (of_Z 0) ta) eqn:Hta; [|reflexivity].
    now apply f64_zero_share. }
  assert (E2 : (if nltb (of_Z 0) sp
                then nmul (ndiv (of_Z 0) sp) (of_Z 100) else of_Z 0)
               = F64.of_Z 0).
  { destruct (nltb (of_Z 0) sp) eqn:Hsp; [|reflexivity].
    now apply f64_zero_share. }
  rewrite E1, E2. reflexivity.
Qed.

Lemma unknown_platform_metrics_are_zero_witness :
  ∃ m mp, calculate_platform_metrics platform_table [ "Facebook"; "LinkedIn" ] = Ok m
          ∧ m !! "LinkedIn" = Some mp
          ∧ pm_roas mp = F64.of_Z 0 ∧ pm_revenue_share mp = F64.of_Z 0.
Proof.
  destruct (calculate_platform_metrics platform_table [ "Facebook"; "LinkedIn" ])
    as [m|c] eqn:E; [|vm_compute in E; discriminate].
  destruct (m !! "LinkedIn") as [mp|] eqn:Ep;
    [|apply Ok_inj in E; subst m; vm_compute in Ep; discriminate].
  exists m, mp. split; [reflexivity|]. split; [exact Ep|].
  rewrite (unknown_platform_metrics_are_zero platform_table _ m "LinkedIn" mp E Ep);
    [split; reflexivity|vm_compute; reflexivity ..].
Defined.

(** X3.  In binary64, when the three attributed revenue sums are
    non-negative numbers and their total is positive and finite, the
    revenue shares of Facebook, Google and TikTok (named in any case)
    have a finite sum, which is 100 within the relative tolerance 1e-6. *)
Theorem revenue_shares_sum_to_100
    (df : DataFrame spec_float) (platforms : list string)
    (m : gmap string platform_metric) (pf pg pt : string)
    (mf mg mt : platform_metric) :
  calculate_platform_metrics df platforms = Ok m →
  lower pf = "facebook" → lower pg = "google" → lower pt = "tiktok" →
  m !! pf = Some mf → m !! pg = Some mg → m !! pt = Some mt →
  let sum c := series_sum (column_values df c) in
  let total_attributed :=
    nadd (nadd (sum "facebook_attributed revenue")
               (sum "google_attributed revenue"))
         (sum "tiktok_attributed revenue") in
  let shares :=
    nadd (nadd (pm_revenue_share mf) (pm_revenue_share mg))
         (pm_revenue_share mt) in
  is_nonneg (sum "facebook_attributed revenue") = true →
  is_nonneg (sum "google_attributed revenue") = true →
  is_nonneg (sum "tiktok_attributed revenue") = true →
  nltb (of_Z 0) total_attributed = true →
  F64.is_finite total_attributed = true →
  F64.is_finite shares = true ∧ within_tolerance shares (F64.of_Z 100).
Proof.
  intros Hm Lf Lg Lt Hf Hg Ht sum total_attributed shares HF HG HT Hpos Hfin.
  destruct (platform_metrics_of_inv df pf mf (platform_metrics_lookup df _ m pf mf Hm Hf))
    as (Cf & Cg & Ct & _ & Ef).
  destruct (platform_metrics_of_inv df pg mg (platform_metrics_lookup df _ m pg mg Hm Hg))
    as (_ & _ & _ & _ & Eg).
  destruct (platform_metrics_of_inv df pt mt (platform_metrics_lookup df _ m pt mt Hm Ht))
    as (_ & _ & _ & _ & Et).
  cbv zeta in Ef, Eg, Et. rewrite Lf in Ef. rewrite Lg in Eg. rewrite Lt in Et.
  change ("facebook" +:+ "_attributed revenue") with "facebook_attributed revenue" in Ef.
  change ("google" +:+ "_attributed revenue") with "google_attributed revenue" in Eg.
  change ("tiktok" +:+ "_attributed revenue") with "tiktok_attributed revenue" in Et.
  subst shares total_attributed sum. cbv beta in *.
  rewrite Ef, Eg, Et. cbn [pm_revenue_share].
  unfold sum_if_present. rewrite Cf, Cg, Ct. rewrite Hpos.
  apply (f64_shares_within_tolerance
           (series_sum (column_values df "facebook_attributed revenue")));
    try assumption; try reflexivity.
  - vm_compute. discriminate.
  - vm_compute. discriminate.
Qed.

Lemma revenue_shares_sum_to_100_witness :
  ∃ m mf mg mt,
    calculate_platform_metrics platform_table [ "Facebook"; "Google"; "TikTok" ] = Ok m
    ∧ m !! "Facebook" = Some mf ∧ m !! "Google" = Some mg ∧ m !! "TikTok" = Some mt
    ∧ within_tolerance
        (nadd (nadd (pm_revenue_share mf) (pm_revenue_share mg))
              (pm_revenue_share mt))
        (F64.of_Z 100).
Proof.
  destruct (calculate_platform_metrics platform_table [ "Facebook"; "Google"; "TikTok" ])
    as [m|c] eqn:E; [|vm_compute in E; discriminate].
  assert (E' := E). apply Ok_inj in E'.
  destruct (m !! "Facebook") as [mf|] eqn:Ef;
    [|subst m; vm_compute in Ef; discriminate].
  destruct (m !! "Google") as [mg|] eqn:Eg;
    [|subst m; vm_compute in Eg; discriminate].
  destruct (m !! "TikTok") as [mt|] eqn:Et;
    [|subst m; vm_compute in Et; discriminate].
  exists m, mf, mg, mt. split; [reflexivity|].
  split; [exact Ef|]. split; [exact Eg|]. split; [exact Et|].
  apply (revenue_shares_sum_to_100 platform_table _ m "Facebook" "Google" "TikTok"
           mf mg mt E); try assumption; vm_compute; reflexivity.
Defined.

(* ================================================================== *)
(** * Efficiency metrics                                               *)
(* ================================================================== *)

Section EfficiencyFacts.
Context {A : Type} `{!Num A}.

Lemma sum_ratio_returns (df : DataFrame A) (num den : string) :
  (∃ v, sum_ratio df num den = Ok v)
  ↔ has_col df den = true
    ∧ (nltb (of_Z 0) (series_sum (column_values df den)) = true →
       has_col df num = true).
Proof.
  unfold sum_ratio, col_sum, col.
  destruct (has_col df den); cbn [mbind result_bind].
  - fold (column_values df den).
    destruct (nltb (of_Z 0) (series_sum (column_values df den))).
    + destruct (has_col df num); cbn [mbind result_bind].
      * split; [auto|intros _; eauto].
      * split; [intros [v [=]]|intros [_ H]; now specialize (H eq_refl)].
    + split; [intros _; split; [done|intros [=]]|eauto].
  - split; [intros [v [=]]|intros [[=] _]].
Qed.

(** X4.  [calculate_efficiency_metrics] reads [spend], [clicks] and
    [impression] always, and the revenue, order and customer columns
    only when the total they are divided by is positive: it returns
    exactly when the columns it reads are present. *)
Theorem efficiency_metrics_returns (df : DataFrame A) :
  (∃ e, calculate_efficiency_metrics df = Ok e)
  ↔ let positive c := nltb (of_Z 0) (series_sum (column_values df c)) = true in
    has_col df "spend" = true
    ∧ has_col df "clicks" = true
    ∧ has_col df "impression" = true
    ∧ (positive "spend" →
       has_col df "attributed revenue" = true
       ∧ has_col df (orders_col df) = true
       ∧ has_col df "new customers" = true)
    ∧ (positive "clicks" →
       has_col df "attributed revenue" = true
       ∧ has_col df (orders_col df) = true)
    ∧ (positive "impression" → has_col df "attributed revenue" = true).
Proof.
  pose proof (sum_ratio_returns df "attributed revenue" "spend") as R1.
  pose proof (sum_ratio_returns df (orders_col df) "spend") as R2.
  pose proof (sum_ratio_returns df "new customers" "spend") as R3.
  pose proof (sum_ratio_returns df "attributed revenue" "clicks") as R4.
  pose proof (sum_ratio_returns df (orders_col df) "clicks") as R5.
  pose proof (sum_ratio_returns df "attributed revenue" "impression") as R6.
  unfold calculate_efficiency_metrics. cbv zeta. split.
  - intros [e H].
    apply bind_ok_inv in H as (v1 & E1 & H). apply bind_ok_inv in H as (v2 & E2 & H).
    apply bind_ok_inv in H as (v3 & E3 & H). apply bind_ok_inv in H as (v4 & E4 & H).
    apply bind_ok_inv in H as (v5 & E5 & H). apply bind_ok_inv in H as (v6 & E6 & H).
    apply proj1 in R1, R2, R3, R4, R5, R6.
    destruct (R1 (ex_intro _ _ E1)) as [? ?]. destruct (R2 (ex_intro _ _ E2)) as [? ?].
    destruct (R3 (ex_intro _ _ E3)) as [? ?]. destruct (R4 (ex_intro _ _ E4)) as [? ?].
    destruct (R5 (ex_intro _ _ E5)) as [? ?]. destruct (R6 (ex_intro _ _ E6)) as [? ?].
    repeat split; auto.
  - intros (Hs & Hc & Hi & Ps & Pc & Pi).
    apply proj2 in R1, R2, R3, R4, R5, R6.
    destruct R1 as [v1 E1]; [split; [done|intros P; now apply Ps]|].
    destruct R2 as [v2 E2]; [split; [done|intros P; now apply Ps]|].
    destruct R3 as [v3 E3]; [split; [done|intros P; now apply Ps]|].
    destruct R4 as [v4 E4]; [split; [done|intros P; now apply Pc]|].
    destruct R5 as [v5 E5]; [split; [done|intros P; now apply Pc]|].
    destruct R6 as [v6 E6]; [split; [done|intros P; now apply Pi]|].
    rewrite E1. cbn [mbind result_bind]. rewrite E2. cbn [mbind result_bind].
    rewrite E3. cbn [mbind result_bind]. rewrite E4. cbn [mbind result_bind].
    rewrite E5. cbn [mbind result_bind]. rewrite E6. cbn [mbind result_bind].
    eexists. reflexivity.
Qed.
End EfficiencyFacts.

(** X5.  When nothing was spent, clicked or shown (no total is
    positive), every efficiency metric and the overall score are 0,
    also on a table that has no revenue, order or customer column. *)
Theorem efficiency_of_idle_table (df : DataFrame spec_float) :
  has_col df "spend" = true →
  has_col df "clicks" = true →
  has_col df "impression" = true →
  nltb (of_Z 0) (series_sum (column_values df "spend")) = false →
  nltb (of_Z 0) (series_sum (column_values df "clicks")) = false →
  nltb (of_Z 0) (series_sum (column_values df "impression")) = false →
  calculate_efficiency_metrics df
  = Ok {| revenue_per_dollar := F64.of_Z 0; orders_per_dollar := F64.of_Z 0;
          customers_per_dollar := F64.of_Z 0; revenue_per_click := F64.of_Z 0;
          orders_per_click := F64.of_Z 0; revenue_per_impression := F64.of_Z 0;
          overall_efficiency_score := F64.of_Z 0 |}.
Proof.
  intros Hs Hc Hi Ps Pc Pi.
  assert (R : ∀ num den, has_col df den = true →
            nltb (of_Z 0) (series_sum (column_values df den)) = false →
            sum_ratio df num den = Ok (F64.of_Z 0)).
  { intros num den Hd Pd. unfold sum_ratio, col_sum, col. rewrite Hd.
    cbn [mbind result_bind]. fold (column_values df den). now rewrite Pd. }
  unfold calculate_efficiency_metrics. cbv zeta.
  rewrite !R by assumption. reflexivity.
Qed.

Lemma efficiency_of_idle_table_witness :
  ∃ e, calculate_efficiency_metrics idle_table = Ok e
       ∧ overall_efficiency_score e = F64.of_Z 0.
Proof.
  eexists. split.
  - apply efficiency_of_idle_table; vm_compute; reflexivity.
  - reflexivity.
Defined.

(* ================================================================== *)
(** * Column discovery and the attribution page                        *)
(* ================================================================== *)

Lemma map_first_in (test : string → bool) (key : string) (cols : list string)
    (mapping : gmap string string) :
  (∀ k c, mapping !! k = Some c → c ∈ cols ∧ ∃ t, List.find t cols = Some c) →
  ∀ k c, map_first test key cols mapping !! k = Some c →
         c ∈ cols ∧ ∃ t, List.find t cols = Some c.
Proof.
  intros Hm k c. unfold map_first.
  destruct (List.find test cols) as [c'|] eqn:E; [|apply Hm].
  destruct (decide (key = k)) as [->|Hne].
  - rewrite lookup_insert_eq. intros [= <-]. split; [|eauto].
    apply List.find_some in E as [E _]. now apply list_elem_of_In.
  - rewrite lookup_insert_ne by done. apply Hm.
Qed.

(** X6.  Every name [smart_column_finder] maps a key to is a column of
    the table, and it maps no key beyond the eight it looks for. *)
Theorem smart_column_finder_maps_to_columns {A : Type} (df : DataFrame A)
    (key c : string) :
  smart_column_finder df !! key = Some c →
  has_col df c = true
  ∧ key ∈ [ "total_revenue"; "facebook_attributed_revenue"; "facebook_spend";
            "google_attributed_revenue"; "google_spend";
            "tiktok_attributed_revenue"; "tiktok_spend"; "attribution_rate" ].
Proof.
  intros H. split.
  - unfold has_col. apply bool_decide_eq_true.
    revert key c H. rewrite smart_column_finder_loop.
    unfold platforms, finder_step. cbn [fold_left].
    intros key c H.
    refine (proj1 (map_first_in _ _ _ _ _ key c H)).
    repeat (apply map_first_in). intros k c'. now rewrite lookup_empty.
  - revert H. rewrite smart_column_finder_loop.
    unfold platforms, finder_step. cbn [fold_left].
    change ("facebook" +:+ "_spend") with "facebook_spend".
    change ("google" +:+ "_spend") with "google_spend".
    change ("tiktok" +:+ "_spend") with "tiktok_spend".
    change ("facebook" +:+ "_attributed_revenue") with "facebook_attributed_revenue".
    change ("google" +:+ "_attributed_revenue") with "google_attributed_revenue".
    change ("tiktok" +:+ "_attributed_revenue") with "tiktok_attributed_revenue".
    intros H.
    repeat match goal with
    | H : map_first _ ?k _ _ !! key = Some _ |- _ =>
        destruct (decide (k = key)) as [<-|?];
          [set_solver|rewrite lookup_map_first_ne in H by assumption]
    end.
    now rewrite lookup_empty in H.
Qed.

Lemma smart_column_finder_maps_to_columns_witness :
  smart_column_finder three_platform_table !! "tiktok_spend" = Some "tiktok_spend"
  ∧ has_col three_platform_table "tiktok_spend" = true.
Proof.
  assert (H : smart_column_finder three_platform_table !! "tiktok_spend"
              = Some "tiktok_spend") by (vm_compute; reflexivity).
  split; [exact H|].
  exact (proj1 (smart_column_finder_maps_to_columns three_platform_table
                  "tiktok_spend" "tiktok_spend" H)).
Defined.

Section PageFacts.
Context {A : Type} `{!Num A}.
Variable sort_values : list (Row A) → list (Row A).
Variable np_exp : A → A.
Variable df : DataFrame A.
Variable column_mapping : gmap string string.

Lemma first_loop_step_other (st : gmap string A * gmap string A * A)
    (p k : string) :
  title p ≠ k →
  (first_loop_step sort_values np_exp df column_mapping st p).1.1 !! k = st.1.1 !! k
  ∧ (first_loop_step sort_values np_exp df column_mapping st p).1.2 !! k
    = st.1.2 !! k.
Proof.
  intros Hne. destruct st as [[lc td] ts]. unfold first_loop_step.
  destruct (mapped_column _ _ (p +:+ "_attributed_revenue"));
    destruct (mapped_column _ _ (p +:+ "_spend"));
    split; cbn [fst snd]; now rewrite lookup_insert_ne.
Qed.

Lemma second_loop_step_other (total_spend total_revenue : A)
    (sb : gmap string A) (p k : string) :
  title p ≠ k →
  second_loop_step df column_mapping total_spend total_revenue sb p !! k = sb !! k.
Proof.
  intros Hne. unfold second_loop_step.
  destruct (mapped_column _ _ (p +:+ "_spend"));
    [destruct (nltb (of_Z 0) total_spend)|]; now rewrite lookup_insert_ne.
Qed.

(** No model but the linear one has an entry under the key the page
    reads for TikTok. *)
Lemma smart_models_tiktok_key (m : smart_models) :
  calculate_attribution_models_smart sort_values np_exp df column_mapping
    = Ok (Some m) →
  smart_last_click m !! "TikTok" = None
  ∧ smart_spend_based m !! "TikTok" = None
  ∧ smart_time_decay m !! "TikTok" = None
  ∧ ∃ revenue, column_mapping !! "total_revenue" = Some revenue
               ∧ smart_linear m !! "TikTok"
                 = Some (ndiv (series_sum (column_values df revenue)) (of_Z 3)).
Proof.
  unfold calculate_attribution_models_smart.
  destruct (column_mapping !! "total_revenue") as [revenue|]; [|discriminate].
  intros H. apply bind_ok_inv in H as (total & Htot & H).
  apply col_sum_ok_inv in Htot. subst total.
  unfold platforms in H. cbn [fold_left] in H.
  set (s1 := first_loop_step _ _ _ _ (∅, ∅, of_Z 0) "facebook") in H.
  set (s2 := first_loop_step _ _ _ _ s1 "google") in H.
  set (s3 := first_loop_step _ _ _ _ s2 "tiktok") in H.
  assert (T1 : title "facebook" ≠ "TikTok") by discriminate.
  assert (T2 : title "google" ≠ "TikTok") by discriminate.
  assert (T3 : title "tiktok" ≠ "TikTok") by discriminate.
  assert (L : s3.1.1 !! "TikTok" = None ∧ s3.1.2 !! "TikTok" = None).
  { subst s3 s2 s1.
    split.
    - rewrite (proj1 (first_loop_step_other _ _ _ T3)).
      rewrite (proj1 (first_loop_step_other _ _ _ T2)).
      rewrite (proj1 (first_loop_step_other _ _ _ T1)). apply lookup_empty.
    - rewrite (proj2 (first_loop_step_other _ _ _ T3)).
      rewrite (proj2 (first_loop_step_other _ _ _ T2)).
      rewrite (proj2 (first_loop_step_other _ _ _ T1)). apply lookup_empty. }
  destruct s3 as [[lc td] total_spend]. cbn [fst snd] in L.
  apply Ok_inj in H. apply (inj Some) in H. subst m.
  cbn [smart_last_click smart_spend_based smart_time_decay smart_linear].
  split; [exact (proj1 L)|]. split; [|split; [exact (proj2 L)|]].
  - rewrite (second_loop_step_other _ _ _ _ _ T3).
    rewrite (second_loop_step_other _ _ _ _ _ T2).
    rewrite (second_loop_step_other _ _ _ _ _ T1). apply lookup_empty.
  - exists revenue. split; [reflexivity|].
    rewrite !(lookup_insert_ne _ _ "TikTok") by discriminate.
    apply lookup_singleton_eq.
Qed.
End PageFacts.

Section PageTheorems.
Context {A : Type} `{!Num A}.
Variable sort_values : list (Row A) → list (Row A).
Variable np_exp : A → A.

(** X7.  The attribution page never fails on a column: with the
    mapping [smart_column_finder] builds, the models are computed
    without [KeyError] on every table; the page shows nothing exactly
    when no column name contains both "total" and "revenue" or is
    "revenue" (in any case). *)
Theorem attribution_page_never_raises (df : DataFrame A) :
  ∃ r, attribution_page sort_values np_exp df = Ok r
       ∧ (r = None
          ↔ Forall (λ c, contains "total" (lower c) && contains "revenue" (lower c)
                         || String.eqb (lower c) "revenue" = false)
                   (columns df)).
Proof.
  unfold attribution_page. cbv zeta.
  pose proof (smart_column_finder_total_revenue df) as Hcol.
  assert (Hfind : smart_column_finder df !! "total_revenue"
                  = List.find (λ c, contains "total" (lower c)
                                    && contains "revenue" (lower c)
                                    || String.eqb (lower c) "revenue")
                              (columns df)).
  { rewrite smart_column_finder_loop.
    rewrite lookup_map_first_ne by discriminate.
    rewrite finder_loop_total_revenue by auto.
    unfold map_first. destruct (List.find _ (columns df)) as [c|].
    - apply lookup_insert_eq.
    - apply lookup_empty. }
  unfold calculate_attribution_models_smart.
  destruct (smart_column_finder df !! "total_revenue") as [revenue|] eqn:E.
  - rewrite (col_sum_present df revenue (Hcol revenue eq_refl)).
    cbn [mbind result_bind].
    destruct (fold_left _ platforms (∅, ∅, of_Z 0)) as [[lc td] ts].
    cbn [mbind result_bind]. eexists. split; [reflexivity|].
    split; [discriminate|]. intros Hall. apply find_all_false in Hall.
    rewrite Hall in Hfind. discriminate.
  - cbn [mbind result_bind]. exists None. split; [reflexivity|].
    split; [intros _|reflexivity].
    apply Forall_forall. intros c Hc.
    destruct (_ || _) eqn:T; [|reflexivity].
    symmetry in Hfind. apply List.find_none with (x := c) in Hfind; [|now apply list_elem_of_In].
    congruence.
Qed.

(** X8.  The page reads the TikTok card under the key "TikTok", but the
    last-click, spend-based and time-decay dictionaries are keyed by
    [platform.title()], which is "Tiktok": on every table these three
    TikTok cards show 0, whatever the TikTok columns hold.  Only the
    linear card, keyed "TikTok", shows its value. *)
Theorem tiktok_cards_show_zero (df : DataFrame A) (p : attribution_cards) :
  attribution_page sort_values np_exp df = Ok (Some p) →
  card_tiktok (cards_last_click p) = of_Z 0
  ∧ card_tiktok (cards_spend_based p) = of_Z 0
  ∧ card_tiktok (cards_time_decay p) = of_Z 0
  ∧ ∃ revenue, smart_column_finder df !! "total_revenue" = Some revenue
               ∧ card_tiktok (cards_linear p)
                 = ndiv (series_sum (column_values df revenue)) (of_Z 3).
Proof.
  unfold attribution_page. cbv zeta. intros H.
  apply bind_ok_inv in H as (models & Hm & H).
  destruct models as [m|]; [|apply Ok_inj in H; discriminate].
  apply Ok_inj in H. apply (inj Some) in H. subst p.
  destruct (smart_models_tiktok_key sort_values np_exp df _ m Hm)
    as (L1 & L2 & L3 & revenue & Hr & L4).
  cbn [cards_last_click cards_spend_based cards_time_decay cards_linear
       cards_of card_tiktok].
  unfold card. rewrite L1, L2, L3, L4. cbn [default].
  repeat (split; [reflexivity|]). exists revenue. split; [exact Hr|reflexivity].
Qed.
End PageTheorems.

Lemma tiktok_cards_show_zero_witness :
  ∃ m p,
    calculate_attribution_models_smart sort_by_date exp_series
      three_platform_table (smart_column_finder three_platform_table) = Ok (Some m)
    ∧ smart_last_click m !! "Tiktok" = Some (F64.of_Z 100)
    ∧ attribution_page sort_by_date exp_series three_platform_table = Ok (Some p)
    ∧ card_tiktok (cards_last_click p) = F64.of_Z 0.
Proof.
  destruct (calculate_attribution_models_smart sort_by_date exp_series
              three_platform_table (smart_column_finder three_platform_table))
    as [[m|]|c] eqn:E; [|vm_compute in E; discriminate..].
  destruct (attribution_page sort_by_date exp_series three_platform_table)
    as [[p|]|c] eqn:Ep; [|vm_compute in Ep; discriminate..].
  exists m, p. split; [reflexivity|].
  split; [apply Ok_inj in E; apply (inj Some) in E; subst m; vm_compute; reflexivity|].
  split; [reflexivity|].
  exact (proj1 (tiktok_cards_show_zero sort_by_date exp_series
                  three_platform_table p Ep)).
Defined.

(* ================================================================== *)
(** * Insights and recommendations                                     *)
(* ================================================================== *)

Ltac not_a_fallback :=
  let H := fresh "H" in
  intros H; unfold fallback_insights, fallback_recommendations in H;
  repeat (apply elem_of_cons in H as [H|H]; [discriminate H|]);
  now apply elem_of_nil in H.

Section FallbackLoops.

Lemma add_fallbacks_fills (fallbacks items : list string) :
  NoDup fallbacks →
  Forall (λ s, s ∉ fallbacks) items →
  length items < 5 → 5 ≤ length items + length fallbacks →
  length (add_fallbacks fallbacks items) = 5.
Proof.
  revert items. induction fallbacks as [|f rest IH]; intros items Hnd Hdis Hlt Hge.
  - cbn in Hge. lia.
  - cbn [add_fallbacks]. apply NoDup_cons in Hnd as [Hf Hnd].
    rewrite bool_decide_eq_false_2.
    + assert (Hl : length (items ++ [f]) = length items + 1)
        by (rewrite length_app; reflexivity).
      destruct (Nat.leb_spec 5 (length (items ++ [f]))) as [H5|H5]; [lia|].
      cbn [length] in Hge.
      rewrite IH; [reflexivity|exact Hnd| |lia|lia].
      apply Forall_app. split.
      * eapply Forall_impl; [exact Hdis|]. intros s Hs Hin. apply Hs. now right.
      * apply Forall_singleton. exact Hf.
    + intros Hin. rewrite Forall_forall in Hdis. apply (Hdis f Hin). now left.
Qed.

Lemma add_fallbacks_stuck (fallbacks items : list string) :
  Forall (λ f, f ∈ items) fallbacks → add_fallbacks fallbacks items = items.
Proof.
  induction 1 as [|f rest Hf _ IH]; [reflexivity|].
  cbn [add_fallbacks]. now rewrite bool_decide_eq_true_2.
Qed.

Lemma add_fallbacks_fresh (fallbacks items : list string) :
  NoDup (items ++ fallbacks) → length items + length fallbacks < 5 →
  add_fallbacks fallbacks items = items ++ fallbacks.
Proof.
  revert items. induction fallbacks as [|f rest IH]; intros items Hnd Hlt.
  - now rewrite app_nil_r.
  - cbn [add_fallbacks length] in *.
    assert (Hf : f ∉ items).
    { apply NoDup_app in Hnd as (_ & Hdis & _). intros Hin.
      apply (Hdis f Hin). now left. }
    rewrite bool_decide_eq_false_2 by exact Hf.
    assert (Hl : length (items ++ [f]) = length items + 1)
      by (rewrite length_app; reflexivity).
    destruct (Nat.leb_spec 5 (length (items ++ [f]))) as [H5|H5]; [lia|].
    rewrite IH; [now rewrite <- app_assoc| |lia].
    now rewrite <- app_assoc.
Qed.

(** A list that holds a note of its own is brought to five entries by
    one turn of the loop. *)
Lemma fill_to_five_returns (fuel : nat) (fallbacks items : list string) :
  NoDup fallbacks → length fallbacks = 4 →
  Forall (λ s, s ∉ fallbacks) items → items ≠ [] →
  ∃ r, fill_to_five (S fuel) fallbacks items = Some r ∧ length (take 5 r) = 5.
Proof.
  intros Hnd H4 Hdis Hne.
  assert (1 ≤ length items) by (destruct items; [done|cbn; lia]).
  cbn [fill_to_five]. destruct (Nat.ltb_spec (length items) 5) as [Hlt|Hge].
  - pose proof (add_fallbacks_fills fallbacks items Hnd Hdis Hlt ltac:(lia)) as H5.
    exists (add_fallbacks fallbacks items). split.
    + destruct fuel; cbn [fill_to_five]; rewrite H5; reflexivity.
    + rewrite length_take. lia.
  - exists items. split; [reflexivity|]. rewrite length_take. lia.
Qed.

(** An empty list receives the four fallbacks and stays at four. *)
Lemma fill_to_five_never (fuel : nat) (fallbacks : list string) :
  NoDup fallbacks → length fallbacks = 4 →
  fill_to_five fuel fallbacks [] = None.
Proof.
  intros Hnd H4.
  assert (Hfour : ∀ fuel, fill_to_five fuel fallbacks fallbacks = None).
  { intros n. induction n as [|n IH]; cbn [fill_to_five]; rewrite H4;
      cbn [Nat.ltb Nat.leb]; [reflexivity|].
    rewrite add_fallbacks_stuck; [exact IH|]. now apply Forall_forall. }
  assert (Hfirst : add_fallbacks fallbacks [] = fallbacks).
  { rewrite (add_fallbacks_fresh fallbacks []); [reflexivity|exact Hnd|].
    rewrite H4. cbn [length]. lia. }
  destruct fuel; cbn [fill_to_five length Nat.ltb Nat.leb]; [reflexivity|].
  rewrite Hfirst. apply Hfour.
Qed.
End FallbackLoops.

Lemma fallback_insights_nodup : NoDup fallback_insights.
Proof.
  apply (bool_decide_eq_true_1 (NoDup fallback_insights)). vm_compute. reflexivity.
Qed.

Lemma fallback_recommendations_nodup : NoDup fallback_recommendations.
Proof.
  apply (bool_decide_eq_true_1 (NoDup fallback_recommendations)).
  vm_compute. reflexivity.
Qed.

Section InsightsFacts.
Context {A : Type} `{!Num A}.
Variable SKLEARN_AVAILABLE : bool.
Variable regression_coef : list A → option A.
Variable format_2f : A → string.
Variable format_1pct : A → string.

Lemma trend_direction_returns (series : list A) :
  ∃ d s, calculate_trend_direction SKLEARN_AVAILABLE regression_coef series
         = Returns (d, s).
Proof.
  unfold calculate_trend_direction, try_except, classify.
  destruct (length series <? 2)%nat; [eauto|].
  destruct SKLEARN_AVAILABLE.
  - destruct (regression_coef series) as [slope|]; [|eauto].
    destruct (nltb _ _); [eauto|]. destruct (nltb _ _); eauto.
  - destruct (nltb _ _); [eauto|]. destruct (nltb _ _); eauto.
Qed.

Lemma own_notes_none (st : notes) : own_notes st st false.
Proof.
  exists [], []. unfold add_notes. rewrite !app_nil_r.
  destruct st. repeat split; constructor.
Qed.

Lemma revenue_notes_spec (df : DataFrame A) (st : notes) :
  ∃ st', revenue_notes SKLEARN_AVAILABLE regression_coef df st = Returns st'
         ∧ own_notes st st' (has_col df (page_revenue_col df)).
Proof.
  unfold revenue_notes. cbv zeta.
  destruct (has_col df (page_revenue_col df)); [|eauto using own_notes_none].
  destruct (trend_direction_returns (column_values df (page_revenue_col df)))
    as (d & s & ->).
  eexists. split; [reflexivity|]. eexists _, _. split; [reflexivity|].
  split; [|split].
  - apply Forall_singleton. not_a_fallback.
  - destruct (String.eqb d "decreasing"); [|destruct (String.eqb d "increasing")];
      repeat constructor; not_a_fallback.
  - split; [done|].
    destruct (String.eqb d "decreasing"); [|destruct (String.eqb d "increasing")];
      done.
Qed.

Lemma roas_notes_spec (df : DataFrame A) (st : notes) :
  ∃ st', roas_notes SKLEARN_AVAILABLE regression_coef format_2f df st = Returns st'
         ∧ own_notes st st' (has_col df "marketing_roas").
Proof.
  unfold roas_notes. cbv zeta.
  destruct (has_col df "marketing_roas"); [|eauto using own_notes_none].
  destruct (trend_direction_returns (column_values df "marketing_roas"))
    as (d & s & ->).
  eexists. split; [reflexivity|]. eexists _, _. split; [reflexivity|].
  split; [|split].
  - apply Forall_singleton. not_a_fallback.
  - apply Forall_singleton.
    destruct (nltb _ _); [|destruct (nltb _ _)]; not_a_fallback.
  - split; done.
Qed.

Lemma platform_notes_spec (df : DataFrame A) (st : notes) :
  own_notes st (platform_notes format_2f df st)
    (match platform_performance df with [] => false | _ => true end).
Proof.
  unfold platform_notes.
  destruct (platform_performance df) as [|first rest]; [apply own_notes_none|].
  cbv zeta. eexists _, _. split; [reflexivity|]. split; [|split].
  - repeat constructor; not_a_fallback.
  - destruct (nltb _ _); repeat constructor; not_a_fallback.
  - split; done.
Qed.

Lemma attribution_notes_spec (df : DataFrame A) (st : notes) :
  own_notes st (attribution_notes format_1pct df st) (has_col df "attribution_rate").
Proof.
  unfold attribution_notes.
  destruct (has_col df "attribution_rate"); [|apply own_notes_none].
  cbv zeta. eexists _, _. split; [reflexivity|]. split; [|split].
  - apply Forall_singleton. not_a_fallback.
  - apply Forall_singleton.
    destruct (nltb _ _); [|destruct (nltb _ _)]; not_a_fallback.
  - split; done.
Qed.

Lemma own_notes_trans (st1 st2 st3 : notes) (b1 b2 : bool) :
  own_notes st1 st2 b1 → own_notes st2 st3 b2 → own_notes st1 st3 (b1 || b2).
Proof.
  intros (i1 & r1 & -> & Hi1 & Hr1 & H1) (i2 & r2 & -> & Hi2 & Hr2 & H2).
  exists (i1 ++ i2), (r1 ++ r2). unfold add_notes. cbn [fst snd].
  rewrite !app_assoc. split; [reflexivity|].
  split; [now apply Forall_app|]. split; [now apply Forall_app|].
  destruct b1, b2; cbn [orb]; destruct H1 as [H1 H1'], H2 as [H2 H2'];
    subst; rewrite ?app_nil_r; try (split; [done|done]);
    split; intros E; apply app_eq_nil in E as [? ?]; done.
Qed.

Lemma collected_notes_spec (df : DataFrame A) :
  ∃ st, collected_notes SKLEARN_AVAILABLE regression_coef format_2f format_1pct df
        = Returns st
        ∧ own_notes ([], []) st (some_section df).
Proof.
  unfold collected_notes.
  destruct (revenue_notes_spec df ([], [])) as (st1 & -> & H1).
  destruct (roas_notes_spec df st1) as (st2 & -> & H2).
  eexists. split; [reflexivity|]. unfold some_section.
  eapply own_notes_trans; [|apply attribution_notes_spec].
  eapply own_notes_trans; [|apply platform_notes_spec].
  eapply own_notes_trans; eassumption.
Qed.
(** X9.  When at least one of the four sections applies (the revenue
    column, [marketing_roas], a platform with both its columns, or
    [attribution_rate] is present), the function returns after one
    turn of each [while] loop, with exactly five insights and exactly
    five recommendations. *)
Theorem insights_returns_five (df : DataFrame A) (fuel : nat) :
  some_section df = true →
  ∃ insights recommendations,
    generate_insights_and_recommendations
      SKLEARN_AVAILABLE regression_coef format_2f format_1pct (S fuel) df
    = Returns (Some (insights, recommendations))
    ∧ length insights = 5 ∧ length recommendations = 5.
Proof.
  intros Hsome. unfold generate_insights_and_recommendations.
  destruct (collected_notes_spec df) as (st & -> & i & r & -> & Hi & Hr & Hne).
  rewrite Hsome in Hne. destruct Hne as [Hi0 Hr0].
  unfold add_notes. cbn [fst snd app].
  destruct (fill_to_five_returns fuel fallback_insights i
              fallback_insights_nodup eq_refl Hi Hi0) as (ri & -> & Hli).
  destruct (fill_to_five_returns fuel fallback_recommendations r
              fallback_recommendations_nodup eq_refl Hr Hr0) as (rr & -> & Hlr).
  cbn [mbind option_bind]. eauto.
Qed.

(** X10.  When none of the four sections applies, the first [while]
    loop never ends: the four fallback insights are appended on its
    first turn, every later turn finds them all present, and the list
    stays at four entries.  Whatever the number of turns allowed, the
    function has not returned. *)
Theorem insights_loop_never_ends (df : DataFrame A) (fuel : nat) :
  some_section df = false →
  generate_insights_and_recommendations
    SKLEARN_AVAILABLE regression_coef format_2f format_1pct fuel df
  = Returns None.
Proof.
  intros Hnone. unfold generate_insights_and_recommendations.
  destruct (collected_notes_spec df) as (st & -> & i & r & -> & _ & _ & Hne).
  rewrite Hnone in Hne. destruct Hne as [-> ->].
  unfold add_notes. cbn [fst snd app].
  rewrite (fill_to_five_never fuel fallback_insights
             fallback_insights_nodup eq_refl).
  reflexivity.
Qed.
End InsightsFacts.

Lemma insights_returns_five_witness :
  some_section three_platform_table = true
  ∧ ∃ insights recommendations,
      generate_insights_and_recommendations
        false (λ _, None) format_stub format_stub 1 three_platform_table
      = Returns (Some (insights, recommendations))
      ∧ length insights = 5 ∧ length recommendations = 5.
Proof.
  split; [vm_compute; reflexivity|].
  apply (insights_returns_five false (λ _, None) format_stub format_stub
           three_platform_table 0).
  vm_compute; reflexivity.
Defined.

Lemma insights_loop_never_ends_witness :
  some_section idle_table = false
  ∧ generate_insights_and_recommendations
      false (λ _, None) format_stub format_stub 1000 idle_table
    = Returns None.
Proof.
  split; [vm_compute; reflexivity|].
  apply (insights_loop_never_ends false (λ _, None) format_stub format_stub
           idle_table 1000).
  vm_compute; reflexivity.
Defined.

(* ================================================================== *)
(** * The cleaner: what the returned table holds                       *)
(* ================================================================== *)

Section CellFacts.
Context {A : Type} `{!Num A}.

Lemma cell_set_cell_same (r : Row A) c v : cell (set_cell c v r) c = v.
Proof. unfold cell, set_cell. cbn [cells]. now rewrite lookup_insert_eq. Qed.

Lemma cell_set_cell_other (r : Row A) c c' v :
  c ≠ c' → cell (set_cell c v r) c' = cell r c'.
Proof. intros. unfold cell, set_cell. cbn [cells]. now rewrite lookup_insert_ne. Qed.

(** An assignment to another column leaves the cells of a column alone. *)
Lemma assign_other (Q : A → Prop) (d : DataFrame A) c c0 f :
  c ≠ c0 →
  Forall (λ r, Q (cell r c0)) (rows d) →
  Forall (λ r, Q (cell r c0)) (rows (assign d c f)).
Proof.
  intros Hne H. unfold assign. cbn [rows]. apply Forall_map.
  eapply Forall_impl; [exact H|]. intros r Hr. cbn beta.
  now rewrite cell_set_cell_other.
Qed.

Section Columnwise.
Variable g : A → A.
Variable cond : DataFrame A → string → bool.
Hypothesis cond_mono :
  ∀ d c c' f, cond d c' = true → cond (assign d c f) c' = true.

(** One turn of a loop that rewrites a column cell by cell with [g]
    when [cond] holds of it. *)
Lemma step_preserves (Q : A → Prop) (d : DataFrame A) c c0 :
  (∀ x, Q x → Q (g x)) →
  Forall (λ r, Q (cell r c0)) (rows d) →
  Forall (λ r, Q (cell r c0))
         (rows (if cond d c then assign d c (λ r, g (cell r c)) else d)).
Proof.
  intros Hg H. destruct (cond d c); [|exact H].
  unfold assign. cbn [rows]. apply Forall_map.
  eapply Forall_impl; [exact H|]. intros r Hr. cbn beta.
  destruct (decide (c = c0)) as [->|Hne].
  - rewrite cell_set_cell_same. auto.
  - now rewrite cell_set_cell_other.
Qed.

Lemma fold_preserves (Q : A → Prop) (l : list string) (d : DataFrame A) c0 :
  (∀ x, Q x → Q (g x)) →
  Forall (λ r, Q (cell r c0)) (rows d) →
  Forall (λ r, Q (cell r c0))
         (rows (fold_left
                  (λ d c, if cond d c then assign d c (λ r, g (cell r c)) else d)
                  l d)).
Proof.
  intros Hg. revert d. induction l as [|c l IH]; intros d H; [exact H|].
  cbn [fold_left]. apply IH. now apply step_preserves.
Qed.

Lemma fold_establishes (R Q : A → Prop) (l : list string) (d : DataFrame A) c0 :
  (∀ x, R x → R (g x)) → (∀ x, R x → Q (g x)) → (∀ x, Q x → Q (g x)) →
  c0 ∈ l → cond d c0 = true →
  Forall (λ r, R (cell r c0)) (rows d) →
  Forall (λ r, Q (cell r c0))
         (rows (fold_left
                  (λ d c, if cond d c then assign d c (λ r, g (cell r c)) else d)
                  l d)).
Proof.
  intros HR HRQ HQ. revert d.
  induction l as [|c l IH]; intros d Hin Hc H; [now apply elem_of_nil in Hin|].
  cbn [fold_left]. destruct (decide (c = c0)) as [->|Hne].
  - apply fold_preserves; [exact HQ|]. rewrite Hc.
    unfold assign. cbn [rows]. apply Forall_map.
    eapply Forall_impl; [exact H|]. intros r Hr. cbn beta.
    rewrite cell_set_cell_same. auto.
  - apply elem_of_cons in Hin as [->|Hin]; [done|].
    apply IH; [exact Hin| |now apply step_preserves].
    destruct (cond d c) eqn:E; [now apply cond_mono|exact Hc].
Qed.
End Columnwise.

Lemma outlier_pass_keeps `{!Sqrt A} (P : Row A → Prop) (d : DataFrame A) :
  Forall P (rows d) → Forall P (rows (outlier_pass d)).
Proof.
  unfold outlier_pass. generalize outlier_columns as l. intros l. revert d.
  induction l as [|c l IH]; intros d H; [exact H|].
  cbn [fold_left]. apply IH. unfold outlier_step.
  destruct (has_col d c); [|exact H].
  unfold drop_outliers, select. cbn [rows].
  rewrite List.Forall_forall in *. intros r Hr.
  apply List.filter_In in Hr as [Hr _]. now apply H.
Qed.
End CellFacts.

Lemma f64_fillna0_not_nan (x : spec_float) : isnan (fillna0 x) = false.
Proof. now destruct x. Qed.

Lemma f64_clip0_not_nan (x : spec_float) :
  isnan x = false → isnan (clip0 x) = false.
Proof. destruct x as [s|s| |s m e]; try done; now destruct s. Qed.

Lemma f64_clip0_nonneg (x : spec_float) :
  isnan x = false → nleb (of_Z 0) (clip0 x) = true.
Proof. destruct x as [s|s| |s m e]; try done; now destruct s. Qed.

Lemma f64_clip0_keeps_nonneg (x : spec_float) :
  nleb (of_Z 0) x = true → nleb (of_Z 0) (clip0 x) = true.
Proof. destruct x as [s|s| |s m e]; try done; now destruct s. Qed.

Lemma financial_not_calculated (c : string) :
  c ∈ financial_columns → "calculated_marketing_roas" ≠ c.
Proof.
  unfold financial_columns. intros H <-.
  repeat (apply elem_of_cons in H as [H|H]; [discriminate H|]).
  now apply elem_of_nil in H.
Qed.

(** The cells of the table the cleaner returns, column by column. *)
Lemma cleaned_cells (df d : DataFrame spec_float) :
  returned (validate_and_clean_data df) = Ok d →
  (∀ c, c ∈ columns df → c ≠ "calculated_marketing_roas" →
        Forall (λ r, isnan (cell r c) = false) (rows d))
  ∧ (∀ c, c ∈ financial_columns → c ∈ columns df →
          Forall (λ r, nleb (of_Z 0) (cell r c) = true) (rows d)).
Proof.
  rewrite returned_validate. destruct (roas_columns df); [|discriminate].
  intros H. apply Ok_inj in H. subst d.
  assert (Hfill : ∀ c, c ∈ columns df →
            Forall (λ r, isnan (cell r c) = false) (rows (fill_missing df))).
  { intros c Hc. unfold fill_missing.
    apply (fold_establishes (A:=spec_float) fillna0 (λ _ _, true) ltac:(done)
             (λ _, True) (λ x, isnan x = false));
      auto using f64_fillna0_not_nan.
    apply Forall_true. done. }
  assert (Hclip : ∀ c, c ∈ columns df →
            Forall (λ r, isnan (cell r c) = false)
                   (rows (clip_financials (fill_missing df)))).
  { intros c Hc. unfold clip_financials.
    apply (fold_preserves (A:=spec_float) clip0 has_col (λ x, isnan x = false));
      auto using f64_clip0_not_nan. }
  assert (Hpos : ∀ c, c ∈ financial_columns → c ∈ columns df →
            Forall (λ r, nleb (of_Z 0) (cell r c) = true)
                   (rows (clip_financials (fill_missing df)))).
  { intros c Hf Hc. unfold clip_financials.
    apply (fold_establishes (A:=spec_float) clip0 has_col
             (λ d c c' f, has_col_assign d c f c')
             (λ x, isnan x = false) (λ x, nleb (of_Z 0) x = true));
      auto using f64_clip0_not_nan, f64_clip0_nonneg, f64_clip0_keeps_nonneg.
    apply has_col_true. now rewrite (proj1 (fill_missing_shape df)). }
  split.
  - intros c Hc Hne. apply outlier_pass_keeps.
    unfold prepared, add_calculated_roas.
    apply (assign_other (A:=spec_float) (λ x, isnan x = false));
      [exact (not_eq_sym Hne)|exact (Hclip c Hc)].
  - intros c Hf Hc. apply outlier_pass_keeps.
    unfold prepared, add_calculated_roas.
    apply (assign_other (A:=spec_float) (λ x, nleb (of_Z 0) x = true));
      [exact (financial_not_calculated c Hf)|exact (Hpos c Hf Hc)].
Qed.



(* ================================================================== *)
(** * Derived metrics: columns and rows                                *)
(* ================================================================== *)

Section DerivedFacts.
Context {A : Type} `{!Num A}.
Variable sort_values : list (Row A) → list (Row A).

Lemma has_col_assign_ne (d : DataFrame A) c f c' :
  c ≠ c' → has_col (assign d c f) c' = has_col d c'.
Proof.
  intros Hne. unfold has_col, assign, add_column. cbn [columns].
  fold (has_col d c). destruct (has_col d c); [reflexivity|].
  apply bool_decide_ext. rewrite elem_of_app, list_elem_of_singleton.
  split; [intros [?|?]; [done|congruence]|auto].
Qed.

Lemma has_col_assign_series (d : DataFrame A) c vs c' :
  has_col (assign_series d c vs) c' = has_col (assign d c (λ _, nan)) c'.
Proof. reflexivity. Qed.

Lemma has_col_sort_by (d : DataFrame A) c :
  has_col (sort_by sort_values d) c = has_col d c.
Proof. reflexivity. Qed.

Lemma has_col_if_present_ne (d : DataFrame A) out num den c :
  out ≠ c → has_col (add_ratio_if_present out num den d) c = has_col d c.
Proof.
  intros Hne. unfold add_ratio_if_present.
  destruct (has_col d den && has_col d num); [|reflexivity].
  now apply has_col_assign_ne.
Qed.

Lemma has_col_if_present (d : DataFrame A) out num den c :
  has_col d c = true → has_col (add_ratio_if_present out num den d) c = true.
Proof.
  intros Hc. unfold add_ratio_if_present.
  destruct (has_col d den && has_col d num); [|exact Hc].
  now apply has_col_assign.
Qed.

Lemma has_col_platform_loop_ne (s1 s2 s3 : string) (l : list string)
    (d : DataFrame A) c :
  Forall (λ p, p +:+ s1 ≠ c) l →
  has_col (fold_left (λ d p, add_ratio_if_present (p +:+ s1) (p +:+ s2) (p +:+ s3) d)
                     l d) c
  = has_col d c.
Proof.
  intros Hl. revert d. induction Hl as [|p l Hp _ IH]; intros d; [reflexivity|].
  cbn [fold_left]. rewrite IH. now apply has_col_if_present_ne.
Qed.

Lemma has_col_platform_loop (s1 s2 s3 : string) (l : list string)
    (d : DataFrame A) c :
  has_col d c = true →
  has_col (fold_left (λ d p, add_ratio_if_present (p +:+ s1) (p +:+ s2) (p +:+ s3) d)
                     l d) c
  = true.
Proof.
  revert d. induction l as [|p l IH]; intros d Hc; [exact Hc|].
  cbn [fold_left]. apply IH. now apply has_col_if_present.
Qed.

Lemma bind_Ok {T U : Type} (x : T) (f : T → result U) : (y ← Ok x; f y) = f x.
Proof. reflexivity. Qed.

Lemma add_ratio_where_eq (out num den : string) (d : DataFrame A) :
  add_ratio_where out num den d =
  if has_col d den then
    if has_col d num
    then Ok (assign d out (λ r, ratio_where (cell r num) (cell r den)))
    else KeyError num
  else KeyError den.
Proof.
  unfold add_ratio_where, col.
  destruct (has_col d den); [|reflexivity]. cbn [mbind result_bind].
  destruct (has_col d num); reflexivity.
Qed.

Lemma add_rolling_mean_eq (out src : string) (d : DataFrame A) :
  add_rolling_mean out src d =
  if has_col d src
  then Ok (assign_series d out (rolling_mean 7 (column_values d src)))
  else KeyError src.
Proof. unfold add_rolling_mean, col. destruct (has_col d src); reflexivity. Qed.

Lemma add_ratio_where_inv (out num den : string) (d d' : DataFrame A) :
  add_ratio_where out num den d = Ok d' →
  has_col d den = true ∧ has_col d num = true
  ∧ d' = assign d out (λ r, ratio_where (cell r num) (cell r den)).
Proof.
  rewrite add_ratio_where_eq.
  destruct (has_col d den); [|discriminate].
  destruct (has_col d num); [|discriminate].
  intros H. apply Ok_inj in H. now subst.
Qed.

Lemma add_rolling_mean_inv (out src : string) (d d' : DataFrame A) :
  add_rolling_mean out src d = Ok d' →
  has_col d src = true
  ∧ d' = assign_series d out (rolling_mean 7 (column_values d src)).
Proof.
  rewrite add_rolling_mean_eq. destruct (has_col d src); [|discriminate].
  intros H. apply Ok_inj in H. now subst.
Qed.

(** ** Dates *)

Lemma dates_assign (d : DataFrame A) c f :
  map date (rows (assign d c f)) = map date (rows d).
Proof.
  unfold assign. cbn [rows]. rewrite List.map_map. reflexivity.
Qed.

Lemma dates_if_present (d : DataFrame A) out num den :
  map date (rows (add_ratio_if_present out num den d)) = map date (rows d).
Proof.
  unfold add_ratio_if_present.
  destruct (has_col d den && has_col d num); [apply dates_assign|reflexivity].
Qed.

Lemma dates_platform_loop (s1 s2 s3 : string) (l : list string) (d : DataFrame A) :
  map date
    (rows (fold_left (λ d p, add_ratio_if_present (p +:+ s1) (p +:+ s2) (p +:+ s3) d)
                     l d))
  = map date (rows d).
Proof.
  revert d. induction l as [|p l IH]; intros d; [reflexivity|].
  cbn [fold_left]. rewrite IH. apply dates_if_present.
Qed.

Lemma length_rolling_mean (w : nat) (xs : list A) :
  length (rolling_mean w xs) = length xs.
Proof. unfold rolling_mean. apply length_imap. Qed.

Lemma dates_zip_with (c : string) (l : list (Row A)) (vs : list A) :
  length vs = length l →
  map date (zip_with (λ r v, set_cell c v r) l vs) = map date l.
Proof.
  revert vs. induction l as [|r l IH]; intros [|v vs] Hl; try done.
  cbn [zip_with map]. f_equal. apply IH. now injection Hl.
Qed.

Lemma dates_add_rolling (d : DataFrame A) out src :
  map date (rows (assign_series d out (rolling_mean 7 (column_values d src))))
  = map date (rows d).
Proof.
  unfold assign_series. cbn [rows]. apply dates_zip_with.
  rewrite length_rolling_mean. unfold column_values. apply length_map.
Qed.

Lemma sorted_dates (l : list (Row A)) :
  StronglySorted date_le l → StronglySorted Z.le (map date l).
Proof.
  induction 1 as [|r l _ IH Hall]; cbn [map]; constructor; [exact IH|].
  apply Forall_map. exact Hall.
Qed.
End DerivedFacts.

Ltac other_column :=
  repeat first
    [ rewrite has_col_assign_series
    | rewrite has_col_sort_by
    | rewrite has_col_platform_loop_ne
        by (unfold platforms; repeat constructor; discriminate)
    | rewrite has_col_assign_ne by discriminate ].

Ltac same_column :=
  repeat first
    [ rewrite has_col_assign_series
    | rewrite has_col_sort_by
    | apply has_col_platform_loop
    | apply has_col_assign ].

Ltac written_column :=
  repeat lazymatch goal with
    | |- has_col (assign_series _ _ _) _ = true => rewrite has_col_assign_series
    | |- has_col (sort_by _ _) _ = true => rewrite has_col_sort_by
    | |- has_col (assign _ ?c _) ?c = true => apply has_col_assign_same
    | |- has_col (assign _ _ _) _ = true => apply has_col_assign
    | |- has_col (fold_left _ _ _) _ = true => apply has_col_platform_loop
    end.

Section DerivedTheorems.
Context {A : Type} `{!Num A}.
Variable sort_values : list (Row A) → list (Row A).

(** The table [calculate_derived_metrics] returns, and the columns its
    return shows to be present. *)
Lemma derived_metrics_inv (df out : DataFrame A) :
  calculate_derived_metrics sort_values df = Ok out →
  let d5 :=
    assign
      (assign
         (assign
            (assign
               (assign df "cac"
                  (λ r, ratio_where (cell r "spend") (cell r "new customers")))
               "aov" (λ r, ratio_where (cell r "total_revenue") (cell r "orders")))
            "ctr" (λ r, ratio_where (cell r "clicks") (cell r "impression")))
         "cpc" (λ r, ratio_where (cell r "spend") (cell r "clicks")))
      "conversion_rate" (λ r, ratio_where (cell r "orders") (cell r "clicks")) in
  let d6 := fold_left (λ d p, add_ratio_if_present
                (p +:+ "_ctr") (p +:+ "_clicks") (p +:+ "_impression") d)
              platforms d5 in
  let d7 := fold_left (λ d p, add_ratio_if_present
                (p +:+ "_cpc") (p +:+ "_spend") (p +:+ "_clicks") d)
              platforms d6 in
  let d8 := fold_left (λ d p, add_ratio_if_present
                (p +:+ "_roas") (p +:+ "_attributed revenue") (p +:+ "_spend") d)
              platforms d7 in
  let d9 := sort_by sort_values
              (assign d8 "revenue_per_impression"
                 (λ r, ratio_where (cell r "total_revenue") (cell r "impression"))) in
  let d10 := assign_series d9 "revenue_7d_ma"
               (rolling_mean 7 (column_values d9 "total_revenue")) in
  let d11 := assign_series d10 "roas_7d_ma"
               (rolling_mean 7 (column_values d10 "marketing_roas")) in
  Forall (λ c, has_col df c = true) derived_inputs
  ∧ out = assign_series d11 "orders_7d_ma"
            (rolling_mean 7 (column_values d11 "orders")).
Proof.
  intros H. unfold calculate_derived_metrics in H.
  apply bind_ok_inv in H as (? & Hx & H).
  apply add_ratio_where_inv in Hx as (E1 & E2 & ->).
  apply bind_ok_inv in H as (? & Hx & H).
  apply add_ratio_where_inv in Hx as (E3 & E4 & ->).
  apply bind_ok_inv in H as (? & Hx & H).
  apply add_ratio_where_inv in Hx as (E5 & E6 & ->).
  apply bind_ok_inv in H as (? & Hx & H).
  apply add_ratio_where_inv in Hx as (_ & _ & ->).
  apply bind_ok_inv in H as (? & Hx & H).
  apply add_ratio_where_inv in Hx as (_ & _ & ->).
  cbv zeta in H.
  apply bind_ok_inv in H as (? & Hx & H).
  apply add_ratio_where_inv in Hx as (_ & _ & ->).
  apply bind_ok_inv in H as (? & Hx & H).
  apply add_rolling_mean_inv in Hx as (_ & ->).
  apply bind_ok_inv in H as (? & Hx & H).
  apply add_rolling_mean_inv in Hx as (E7 & ->).
  apply add_rolling_mean_inv in H as (_ & ->).
  revert E3 E4 E5 E6 E7. other_column. intros E3 E4 E5 E6 E7.
  cbv zeta. split; [|reflexivity].
  unfold derived_inputs. repeat (apply Forall_cons; split; [assumption|]).
  apply Forall_nil_2.
Qed.

(** The dates of the table [calculate_derived_metrics] returns. *)
Lemma derived_metrics_dates (df out : DataFrame A) :
  (∀ l, Permutation l (sort_values l)) →
  calculate_derived_metrics sort_values df = Ok out →
  ∃ before, map date before = map date (rows df)
            ∧ map date (rows out) = map date (sort_values before).
Proof.
  intros Hperm H. apply derived_metrics_inv in H. cbv zeta in H.
  destruct H as (_ & ->).
  rewrite !dates_add_rolling. unfold sort_by. cbn [rows].
  eexists. split; [|reflexivity].
  rewrite dates_assign, !dates_platform_loop, !dates_assign. reflexivity.
Qed.

(** X13.  [calculate_derived_metrics] keeps the days of the table: the
    table it returns has as many rows as the input, its dates are the
    dates of the input, and they are in ascending order. *)
Theorem derived_metrics_keeps_days (df out : DataFrame A) :
  (∀ l, Permutation l (sort_values l)) →
  (∀ l, StronglySorted date_le (sort_values l)) →
  calculate_derived_metrics sort_values df = Ok out →
  len out = len df
  ∧ Permutation (map date (rows df)) (map date (rows out))
  ∧ StronglySorted Z.le (map date (rows out)).
Proof.
  intros Hperm Hsorted H.
  destruct (derived_metrics_dates df out Hperm H) as (before & Hb & Ho).
  assert (Hp : Permutation (map date (rows df)) (map date (rows out))).
  { rewrite Ho, <- Hb. apply Permutation_map, Hperm. }
  split; [|split; [exact Hp|]].
  - apply Permutation_length in Hp. rewrite !length_map in Hp.
    unfold len. now symmetry.
  - rewrite Ho. apply sorted_dates, Hsorted.
Qed.
End DerivedTheorems.

Lemma derived_metrics_keeps_days_witness :
  ∃ out, calculate_derived_metrics sort_by_date unsorted_days_table = Ok out
         ∧ map date (rows unsorted_days_table) = [3; 1; 2]%Z
         ∧ len out = len unsorted_days_table
         ∧ Permutation (map date (rows unsorted_days_table)) (map date (rows out))
         ∧ StronglySorted Z.le (map date (rows out)).
Proof.
  assert (E : ∃ out, calculate_derived_metrics sort_by_date unsorted_days_table
                     = Ok out) by (vm_compute; eexists; reflexivity).
  destruct E as [out E]. exists out.
  split; [exact E|]. split; [reflexivity|].
  apply (derived_metrics_keeps_days sort_by_date unsorted_days_table out
           sort_by_date_perm sort_by_date_sorted E).
Defined.

(* ================================================================== *)
(** * KPIs: missing columns, no rows, no spend                         *)
(* ================================================================== *)

Section KpiErrors.
Context {A : Type} `{!Num A}.
Variable sort_values : list (Row A) → list (Row A).

Lemma col_sum_eq (d : DataFrame A) c :
  col_sum d c = if has_col d c then Ok (series_sum (column_values d c))
                else KeyError c.
Proof. unfold col_sum, col. destruct (has_col d c); reflexivity. Qed.

Lemma col_mean_eq (d : DataFrame A) c :
  col_mean d c = if has_col d c then Ok (series_mean (column_values d c))
                 else KeyError c.
Proof. unfold col_mean, col. destruct (has_col d c); reflexivity. Qed.



End KpiErrors.

Section KpiEdges.
Variable sort_values : list (Row spec_float) → list (Row spec_float).

Lemma kpis_inv (df : DataFrame spec_float) (k : KPIs) :
  calculate_kpis sort_values df = Ok k →
  let first := first_half sort_values df in
  let second := second_half sort_values df in
  let total_revenue := series_sum (column_values df (revenue_col df)) in
  let total_orders := series_sum (column_values df (orders_col df)) in
  let total_spend := series_sum (column_values df "spend") in
  let total_new_customers := series_sum (column_values df "new customers") in
  let avg_aov :=
    if nltb (of_Z 0) total_orders then ndiv total_revenue total_orders
    else of_Z 0 in
  k = {| kpi_total_revenue := total_revenue;
         kpi_total_orders := total_orders;
         kpi_total_spend := total_spend;
         kpi_total_new_customers := total_new_customers;
         kpi_avg_aov := avg_aov;
         kpi_avg_roas := series_mean (column_values df "marketing_roas");
         kpi_avg_profit_margin := series_mean (column_values df "profit_margin");
         kpi_attribution_rate := series_mean (column_values df "attribution_rate");
         kpi_total_attributed_revenue :=
           series_sum (column_values df "attributed revenue");
         kpi_revenue_growth :=
           growth (series_sum (column_values first (revenue_col df)))
                  (series_sum (column_values second (revenue_col df)));
         kpi_order_growth :=
           growth (series_sum (column_values first (orders_col df)))
                  (series_sum (column_values second (orders_col df)));
         kpi_roas_trend :=
           nsub (series_mean (column_values second "marketing_roas"))
                (series_mean (column_values first "marketing_roas"));
         kpi_margin_trend :=
           nsub (series_mean (column_values second "profit_margin"))
                (series_mean (column_values first "profit_margin"));
         kpi_cac :=
           if nltb (of_Z 0) total_new_customers
           then ndiv total_spend total_new_customers else of_Z 0;
         kpi_ltv_cac_ratio :=
           if nltb (of_Z 0) total_new_customers
           then ndiv (nmul avg_aov (of_Z 3)) (ndiv total_spend total_new_customers)
           else of_Z 0 |}.
Proof.
  intros H. unfold calculate_kpis in H. cbv zeta in H.
  repeat (apply bind_ok_inv in H as (? & Hx & H);
          first [apply col_sum_ok_inv in Hx | apply col_mean_ok_inv in Hx];
          subst).
  apply Ok_inj in H. subst k. reflexivity.
Qed.

Lemma f64_div_by_zero (x z : spec_float) :
  F64.is_zero z = true → F64.is_finite (ndiv x z) = false.
Proof. destruct z as [s| | |]; try discriminate. intros _. now destruct x. Qed.

Lemma f64_zero_div_positive (z n : spec_float) :
  F64.is_zero z = true → nltb (of_Z 0) n = true → F64.is_zero (ndiv z n) = true.
Proof.
  destruct z as [s| | |]; try discriminate. intros _.
  destruct n as [s'|s'| |s' m e]; try discriminate; reflexivity.
Qed.

(** X15.  When the table reports no spend at all and at least one new
    customer, the customer acquisition cost is zero and
    [ltv_cac_ratio] divides by it: the ratio is infinite or NaN, never
    a finite number. *)
Theorem ltv_cac_ratio_without_spend (df : DataFrame spec_float) (k : KPIs) :
  calculate_kpis sort_values df = Ok k →
  F64.is_zero (kpi_total_spend k) = true →
  nltb (of_Z 0) (kpi_total_new_customers k) = true →
  F64.is_zero (kpi_cac k) = true
  ∧ F64.is_finite (kpi_ltv_cac_ratio k) = false.
Proof.
  intros H. apply kpis_inv in H. cbv zeta in H. subst k.
  cbn [kpi_total_spend kpi_total_new_customers kpi_cac kpi_ltv_cac_ratio].
  intros Hs Hn. rewrite Hn. split.
  - now apply f64_zero_div_positive.
  - apply f64_div_by_zero. now apply f64_zero_div_positive.
Qed.

(** X16.  The KPIs of a table without rows, when it has the columns:
    every total is 0, both growth rates, the average order value, the
    acquisition cost and the LTV/CAC ratio are 0, and every average
    (ROAS, profit margin, attribution rate) and both trends are NaN. *)
Theorem kpis_of_table_without_rows (df : DataFrame spec_float) (k : KPIs) :
  (∀ l, Permutation l (sort_values l)) →
  rows df = [] →
  calculate_kpis sort_values df = Ok k →
  Forall (λ v, v = of_Z 0)
    [ kpi_total_revenue k; kpi_total_orders k; kpi_total_spend k;
      kpi_total_new_customers k; kpi_total_attributed_revenue k;
      kpi_revenue_growth k; kpi_order_growth k; kpi_avg_aov k; kpi_cac k;
      kpi_ltv_cac_ratio k ]
  ∧ Forall (λ v, isnan v = true)
      [ kpi_avg_roas k; kpi_avg_profit_margin k; kpi_attribution_rate k;
        kpi_roas_trend k; kpi_margin_trend k ].
Proof.
  intros Hperm Hrows H. apply kpis_inv in H. cbv zeta in H. subst k.
  cbn [kpi_total_revenue kpi_total_orders kpi_total_spend kpi_total_new_customers
       kpi_total_attributed_revenue kpi_revenue_growth kpi_order_growth
       kpi_avg_aov kpi_cac kpi_ltv_cac_ratio kpi_avg_roas kpi_avg_profit_margin
       kpi_attribution_rate kpi_roas_trend kpi_margin_trend].
  assert (Hsort : sort_values [] = []).
  { apply Permutation_nil. apply Hperm. }
  unfold column_values, first_half, second_half, sort_by, mid_point, len.
  cbn [rows]. rewrite Hrows, Hsort. cbn [length Nat.div take drop map].
  split; repeat constructor.
Qed.
End KpiEdges.

Lemma ltv_cac_ratio_without_spend_witness :
  ∃ k, calculate_kpis sort_by_date free_customer_table = Ok k
       ∧ F64.is_zero (kpi_total_spend k) = true
       ∧ nltb (of_Z 0) (kpi_total_new_customers k) = true
       ∧ F64.is_zero (kpi_cac k) = true
       ∧ F64.is_finite (kpi_ltv_cac_ratio k) = false.
Proof.
  assert (E : ∃ k, calculate_kpis sort_by_date free_customer_table = Ok k)
    by (vm_compute; eexists; reflexivity).
  destruct E as [k E]. exists k. split; [exact E|].
  assert (Hs : F64.is_zero (kpi_total_spend k) = true).
  { apply kpis_inv in E. cbv zeta in E. subst k. vm_compute. reflexivity. }
  assert (Hn : nltb (of_Z 0) (kpi_total_new_customers k) = true).
  { apply kpis_inv in E. cbv zeta in E. subst k. vm_compute. reflexivity. }
  split; [exact Hs|]. split; [exact Hn|].
  apply (ltv_cac_ratio_without_spend sort_by_date free_customer_table k E Hs Hn).
Defined.

Lemma kpis_of_table_without_rows_witness :
  ∃ k, calculate_kpis sort_by_date empty_table = Ok k
       ∧ Forall (λ v, v = of_Z 0)
           [ kpi_total_revenue k; kpi_total_orders k; kpi_total_spend k;
             kpi_total_new_customers k; kpi_total_attributed_revenue k;
             kpi_revenue_growth k; kpi_order_growth k; kpi_avg_aov k; kpi_cac k;
             kpi_ltv_cac_ratio k ]
       ∧ Forall (λ v, isnan v = true)
           [ kpi_avg_roas k; kpi_avg_profit_margin k; kpi_attribution_rate k;
             kpi_roas_trend k; kpi_margin_trend k ].
Proof.
  assert (E : ∃ k, calculate_kpis sort_by_date empty_table = Ok k)
    by (vm_compute; eexists; reflexivity).
  destruct E as [k E]. exists k. split; [exact E|].
  apply (kpis_of_table_without_rows sort_by_date empty_table k
           sort_by_date_perm eq_refl E).
Defined.

(* ================================================================== *)
(** * Summary statistics of a processed table                          *)
(* ================================================================== *)

Section SummaryFacts.
Context {A : Type} `{!Num A}.
Variable sort_values : list (Row A) → list (Row A).

(** X17.  [create_summary_stats] on the table
    [calculate_derived_metrics] returned: every column it reads is
    there, either required or written by the derived metrics, except
    [profit_margin], which no step creates.  The summary is returned
    exactly when the table had a [profit_margin] column before; otherwise
    [KeyError] is raised on it. *)
Theorem summary_of_processed_table (df out : DataFrame A) :
  calculate_derived_metrics sort_values df = Ok out →
  if has_col df "profit_margin"
  then ∃ s, create_summary_stats out = Ok s
  else create_summary_stats out = KeyError "profit_margin".
Proof.
  intros H. apply derived_metrics_inv in H. cbv zeta in H.
  destruct H as (Hin & Hout). unfold derived_inputs in Hin.
  assert (Hkept : ∀ c, has_col df c = true → has_col out c = true).
  { intros c Hc. rewrite Hout. same_column. exact Hc. }
  assert (Haov : has_col out "aov" = true) by (rewrite Hout; written_column).
  assert (Hctr : has_col out "ctr" = true) by (rewrite Hout; written_column).
  assert (Hmargin : has_col out "profit_margin" = has_col df "profit_margin").
  { rewrite Hout. other_column. reflexivity. }
  clear Hout.
  apply Forall_cons in Hin as [_ Hin].
  apply Forall_cons in Hin as [Espend Hin].
  apply Forall_cons in Hin as [Eorders Hin].
  apply Forall_cons in Hin as [Erevenue Hin].
  apply Forall_cons in Hin as [_ Hin].
  apply Forall_cons in Hin as [Eclicks Hin].
  apply Forall_cons in Hin as [Eroas _].
  apply Hkept in Espend, Eorders, Erevenue, Eclicks, Eroas.
  unfold create_summary_stats. cbv zeta.
  rewrite !col_sum_eq, !col_mean_eq.
  rewrite Haov, Hctr, Hmargin, Espend, Eorders, Erevenue, Eclicks, Eroas.
  rewrite !bind_Ok; cbv beta.
  destruct (has_col df "profit_margin"); [|reflexivity].
  rewrite !bind_Ok; cbv beta. eexists. reflexivity.
Qed.
End SummaryFacts.

Lemma summary_of_processed_table_witness :
  ∃ out, calculate_derived_metrics sort_by_date unsorted_days_table = Ok out
         ∧ has_col unsorted_days_table "profit_margin" = false
         ∧ create_summary_stats out = KeyError "profit_margin".
Proof.
  assert (E : ∃ out, calculate_derived_metrics sort_by_date unsorted_days_table
                     = Ok out) by (vm_compute; eexists; reflexivity).
  destruct E as [out E]. exists out.
  split; [exact E|]. split; [reflexivity|].
  apply (summary_of_processed_table sort_by_date unsorted_days_table out E).
Defined.

(* ================================================================== *)
(** * Attribution: missing columns and the time-decay weights          *)
(* ================================================================== *)

Section AttributionErrors.
Context {A : Type} `{!Num A}.

(** X18.  [calculate_attribution_model] tests no column: it needs the
    three attributed-revenue columns, the three spend columns and the
    revenue column ([total_revenue], else [total revenue]), and raises
    [KeyError] on the first absent one in that order.  With all of
    them present it returns, and its last-click model is the three
    sums of attributed revenue. *)
Theorem attribution_model_errors (df : DataFrame A) :
  match List.find (λ c, negb (has_col df c)) (attribution_inputs df) with
  | Some c => calculate_attribution_model df = KeyError c
  | None =>
      ∃ m, calculate_attribution_model df = Ok m
           ∧ last_click m
             = by_platform
                 (series_sum (column_values df "facebook_attributed revenue"))
                 (series_sum (column_values df "google_attributed revenue"))
                 (series_sum (column_values df "tiktok_attributed revenue"))
  end.
Proof.
  unfold calculate_attribution_model, attribution_inputs. cbv zeta.
  cbn [List.find]. rewrite !col_sum_eq.
  destruct (has_col df "facebook_attributed revenue"); cbn [negb]; [|reflexivity].
  rewrite !bind_Ok; cbv beta.
  destruct (has_col df "google_attributed revenue"); cbn [negb]; [|reflexivity].
  rewrite !bind_Ok; cbv beta.
  destruct (has_col df "tiktok_attributed revenue"); cbn [negb]; [|reflexivity].
  rewrite !bind_Ok; cbv beta.
  destruct (has_col df "facebook_spend"); cbn [negb]; [|reflexivity].
  rewrite !bind_Ok; cbv beta.
  destruct (has_col df "google_spend"); cbn [negb]; [|reflexivity].
  rewrite !bind_Ok; cbv beta.
  destruct (has_col df "tiktok_spend"); cbn [negb]; [|reflexivity].
  rewrite !bind_Ok; cbv beta.
  destruct (has_col df (revenue_col df)); cbn [negb]; [|reflexivity].
  rewrite !bind_Ok; cbv beta.
  eexists. split; reflexivity.
Qed.
End AttributionErrors.

Section TimeDecay.
Context {A : Type} `{!Num A}.
Variable sort_values : list (Row A) → list (Row A).
Variable np_exp : A → A.
Variable df : DataFrame A.
Variable column_mapping : gmap string string.
Variable p c : string.
Hypothesis p_platform : p ∈ platforms.
Hypothesis p_revenue :
  mapped_column df column_mapping (p +:+ "_attributed_revenue") = Some c.

(** What the first loop records for a platform whose attributed
    revenue column is mapped. *)
Lemma first_loop_records (l : list string) st :
  (∀ p', p' ∈ l → p' ∈ platforms) →
  p ∈ l
  ∨ (st.1.1 !! title p = Some (series_sum (column_values df c))
     ∧ st.1.2 !! title p = Some (weighted_revenue sort_values np_exp df c)) →
  (fold_left (first_loop_step sort_values np_exp df column_mapping) l st).1.1
    !! title p = Some (series_sum (column_values df c))
  ∧ (fold_left (first_loop_step sort_values np_exp df column_mapping) l st).1.2
    !! title p = Some (weighted_revenue sort_values np_exp df c).
Proof.
  revert st. induction l as [|p' l IH]; intros st Hl Hst.
  - destruct Hst as [Hp|Hz]; [now apply elem_of_nil in Hp|done].
  - cbn [fold_left]. apply IH; [intros; apply Hl; now right|].
    destruct (decide (p' = p)) as [->|Hne].
    + right. destruct st as [[lc td] ts]. unfold first_loop_step.
      rewrite p_revenue. destruct (mapped_column _ _ (p +:+ "_spend"));
        split; apply lookup_insert_eq.
    + destruct Hst as [Hp|[Hz1 Hz2]].
      * left. apply elem_of_cons in Hp as [Hp|Hp]; [congruence|done].
      * right. destruct st as [[lc td] ts]. unfold first_loop_step.
        assert (Ht : title p' ≠ title p).
        { apply title_platforms_inj; [done| |done]. apply Hl. now left. }
        cbn [fst snd] in Hz1, Hz2.
        destruct (mapped_column _ _ (p' +:+ "_attributed_revenue"));
          destruct (mapped_column _ _ (p' +:+ "_spend"));
          split; cbn [fst snd]; now rewrite lookup_insert_ne.
Qed.

Lemma smart_records (m : smart_models) :
  calculate_attribution_models_smart sort_values np_exp df column_mapping
    = Ok (Some m) →
  smart_last_click m !! title p = Some (series_sum (column_values df c))
  ∧ smart_time_decay m !! title p
    = Some (weighted_revenue sort_values np_exp df c).
Proof.
  intros H. unfold calculate_attribution_models_smart in H.
  destruct (column_mapping !! "total_revenue") as [revenue|]; [|discriminate].
  apply bind_ok_inv in H as (total & _ & H).
  pose proof (first_loop_records platforms (∅, ∅, of_Z 0) (λ _ H, H)
                (or_introl p_platform)) as [H1 H2].
  destruct (fold_left _ platforms (∅, ∅, of_Z 0)) as [[lc td] ts].
  cbn [fst snd] in H1, H2.
  apply Ok_inj in H. apply (inj Some) in H. subst m.
  cbn [smart_last_click smart_time_decay]. done.
Qed.
End TimeDecay.

Lemma f64_single_weight (np_exp : spec_float → spec_float) :
  decay_weights np_exp 1 = [ np_exp (of_Z (-2)) ].
Proof. reflexivity. Qed.

(** X19.  On a table with a single day the time-decay weight is
    [exp(-2)], the start of [np.linspace(-2, 0, 1)], not [exp(0)]: for
    every platform whose attributed-revenue column is mapped, the
    last-click model reports the day's attributed revenue and the
    time-decay model reports that revenue times [exp(-2)]. *)
Theorem single_day_time_decay
    (sort_values : list (Row spec_float) → list (Row spec_float))
    (np_exp : spec_float → spec_float)
    (df : DataFrame spec_float) (column_mapping : gmap string string)
    (r : Row spec_float) (p c : string) (m : smart_models) :
  (∀ l, Permutation l (sort_values l)) →
  rows df = [r] →
  p ∈ platforms →
  mapped_column df column_mapping (p +:+ "_attributed_revenue") = Some c →
  calculate_attribution_models_smart sort_values np_exp df column_mapping
    = Ok (Some m) →
  smart_last_click m !! title p = Some (series_sum [cell r c])
  ∧ smart_time_decay m !! title p
    = Some (series_sum [nmul (cell r c) (np_exp (of_Z (-2)))]).
Proof.
  intros Hperm Hrows Hp Hc H.
  destruct (smart_records sort_values np_exp df column_mapping p c Hp Hc m H)
    as [H1 H2].
  rewrite H1, H2. unfold weighted_revenue, column_values, sort_by, len.
  cbn [rows]. rewrite Hrows.
  assert (Hsort : sort_values [r] = [r]).
  { symmetry. apply Permutation_singleton_l. apply Hperm. }
  rewrite Hsort. cbn [length map]. rewrite f64_single_weight. done.
Qed.

Lemma single_day_time_decay_witness :
  ∃ m, calculate_attribution_models_smart sort_by_date exp_series single_day_table
         (smart_column_finder single_day_table) = Ok (Some m)
       ∧ smart_last_click m !! "Facebook" = Some (F64.of_Z 300)
       ∧ smart_last_click m !! title "facebook"
         = Some (series_sum [cell (f64_row 1 three_platform_day)
                                  "facebook_attributed revenue"])
       ∧ smart_time_decay m !! title "facebook"
         = Some (series_sum
                   [nmul (cell (f64_row 1 three_platform_day)
                               "facebook_attributed revenue")
                         (exp_series (of_Z (-2)))]).
Proof.
  assert (E : ∃ m, calculate_attribution_models_smart sort_by_date exp_series
                     single_day_table (smart_column_finder single_day_table)
                   = Ok (Some m)) by (vm_compute; eexists; reflexivity).
  destruct E as [m E]. exists m. split; [exact E|].
  assert (Hc : mapped_column single_day_table
                 (smart_column_finder single_day_table)
                 ("facebook" +:+ "_attributed_revenue")
               = Some "facebook_attributed revenue") by (vm_compute; reflexivity).
  assert (Hp : "facebook" ∈ platforms) by (unfold platforms; apply elem_of_cons; left; reflexivity).
  pose proof (single_day_time_decay sort_by_date exp_series single_day_table
                (smart_column_finder single_day_table)
                (f64_row 1 three_platform_day) "facebook"
                "facebook_attributed revenue" m
                sort_by_date_perm eq_refl Hp Hc E) as [H1 H2].
  split; [etrans; [exact H1|vm_compute; reflexivity]|]. split; [exact H1|exact H2].
Defined.

(* ================================================================== *)
(** * The processing pipeline: cleaning, then derived metrics          *)
(* ================================================================== *)

Section PipelineFacts.
Context {A : Type} `{!Num A}.
Variable sort_values : list (Row A) → list (Row A).
Hypothesis sort_values_perm : ∀ l, Permutation l (sort_values l).

Lemma assign_series_other (Q : A → Prop) (d : DataFrame A) c c0 vs :
  c ≠ c0 →
  Forall (λ r, Q (cell r c0)) (rows d) →
  Forall (λ r, Q (cell r c0)) (rows (assign_series d c vs)).
Proof.
  intros Hne. unfold assign_series. cbn [rows]. generalize (rows d) as l.
  intros l. revert vs. induction l as [|r l IH]; intros [|v vs] H;
    cbn [zip_with]; try constructor.
  - rewrite cell_set_cell_other by exact Hne. now apply Forall_cons in H as [? _].
  - apply IH. now apply Forall_cons in H as [_ ?].
Qed.

Lemma sort_by_keeps (P : Row A → Prop) (d : DataFrame A) :
  Forall P (rows d) → Forall P (rows (sort_by sort_values d)).
Proof.
  unfold sort_by. cbn [rows]. intros H.
  eapply Permutation_Forall; [apply sort_values_perm|exact H].
Qed.

Lemma platform_loop_other (Q : A → Prop) (s1 s2 s3 : string) (l : list string)
    (d : DataFrame A) c0 :
  Forall (λ p, p +:+ s1 ≠ c0) l →
  Forall (λ r, Q (cell r c0)) (rows d) →
  Forall (λ r, Q (cell r c0))
    (rows (fold_left (λ d p, add_ratio_if_present (p +:+ s1) (p +:+ s2) (p +:+ s3) d)
                     l d)).
Proof.
  intros Hl. revert d. induction Hl as [|p l Hp _ IH]; intros d H; [exact H|].
  cbn [fold_left]. apply IH. unfold add_ratio_if_present.
  destruct (has_col d (p +:+ s3) && has_col d (p +:+ s2)); [|exact H].
  now apply assign_other.
Qed.

(** The derived metrics leave the financial columns as they are. *)
Lemma derived_metrics_cells (Q : A → Prop) (d out : DataFrame A) c :
  calculate_derived_metrics sort_values d = Ok out →
  c ∈ financial_columns →
  Forall (λ r, Q (cell r c)) (rows d) →
  Forall (λ r, Q (cell r c)) (rows out).
Proof.
  intros H Hc. apply derived_metrics_inv in H. cbv zeta in H.
  destruct H as (_ & ->). unfold financial_columns in Hc.
  repeat (apply elem_of_cons in Hc as [->|Hc]);
    [..|now apply elem_of_nil in Hc];
    intros HQ;
    repeat first
      [ apply (assign_series_other Q); [discriminate|]
      | apply sort_by_keeps
      | apply (platform_loop_other Q);
          [unfold platforms; repeat constructor; discriminate|]
      | apply (assign_other Q); [discriminate|] ];
    exact HQ.
Qed.
End PipelineFacts.

(** X20.  The two processing steps of [load_and_process_data], cleaning
    followed by the derived metrics, in binary64: the processed table
    has at most as many rows as the table read, its dates are in
    ascending order, and in each of its rows every financial column of
    the input is present, not missing and not below zero. *)
Theorem processed_table_is_clean
    (sort_values : list (Row spec_float) → list (Row spec_float))
    (df d out : DataFrame spec_float) :
  (∀ l, Permutation l (sort_values l)) →
  (∀ l, StronglySorted date_le (sort_values l)) →
  returned (validate_and_clean_data df) = Ok d →
  calculate_derived_metrics sort_values d = Ok out →
  len out ≤ len df
  ∧ StronglySorted Z.le (map date (rows out))
  ∧ ∀ c, c ∈ financial_columns → c ∈ columns df →
         has_col out c = true
         ∧ Forall (λ r, isnan (cell r c) = false
                        ∧ nleb (of_Z 0) (cell r c) = true)
                  (rows out).
Proof.
  intros Hperm Hsorted Hd Hout.
  destruct (cleaned_cells df d Hd) as [Hnan Hpos].
  destruct (derived_metrics_dates sort_values d out Hperm Hout)
    as (before & Hb & Ho).
  split; [|split].
  - assert (Hl : len out = len d).
    { unfold len. rewrite <- (length_map date (rows out)), Ho, length_map.
      rewrite <- (Permutation_length (Hperm before)).
      rewrite <- (length_map date before), Hb. apply length_map. }
    rewrite Hl. rewrite returned_validate in Hd.
    destruct (roas_columns df); [|discriminate].
    apply Ok_inj in Hd. subst d.
    etrans; [apply len_outlier_pass|]. now rewrite len_prepared.
  - rewrite Ho. apply sorted_dates, Hsorted.
  - intros c Hf Hc. split.
    + assert (Hcd : has_col d c = true).
      { rewrite returned_validate in Hd.
        destruct (roas_columns df); [|discriminate].
        apply Ok_inj in Hd. subst d.
        assert (E : columns (outlier_pass (prepared df)) = columns (prepared df)).
        { unfold outlier_pass. generalize outlier_columns as l.
          generalize (prepared df) as t. intros t l. revert t.
          induction l as [|oc l IH]; intros t; [reflexivity|].
          cbn [fold_left]. rewrite IH. apply columns_outlier_step. }
        rewrite (has_col_columns _ (prepared df) c E).
        apply has_col_prepared. now apply has_col_true. }
      apply derived_metrics_inv in Hout. cbv zeta in Hout.
      destruct Hout as (_ & ->). same_column. exact Hcd.
    + assert (Hc' : c ≠ "calculated_marketing_roas").
      { apply not_eq_sym. now apply financial_not_calculated. }
      pose proof (derived_metrics_cells sort_values Hperm
                    (λ x, isnan x = false) d out c Hout Hf (Hnan c Hc Hc')) as H1.
      pose proof (derived_metrics_cells sort_values Hperm
                    (λ x, nleb (of_Z 0) x = true) d out c Hout Hf (Hpos c Hf Hc))
        as H2.
      rewrite List.Forall_forall in *. intros r Hr. split; [now apply H1|now apply H2].
Qed.

Lemma processed_table_is_clean_witness :
  ∃ d out,
    returned (validate_and_clean_data raw_days_table) = Ok d
    ∧ calculate_derived_metrics sort_by_date d = Ok out
    ∧ map date (rows out) = [1; 2; 3]%Z
    ∧ len out ≤ len raw_days_table
    ∧ StronglySorted Z.le (map date (rows out))
    ∧ ∀ c, c ∈ financial_columns → c ∈ columns raw_days_table →
           has_col out c = true
           ∧ Forall (λ r, isnan (cell r c) = false
                          ∧ nleb (of_Z 0) (cell r c) = true)
                    (rows out).
Proof.
  assert (Ed : returned (validate_and_clean_data raw_days_table)
               = Ok (outlier_pass (prepared raw_days_table)))
    by (vm_compute; reflexivity).
  assert (E : ∃ out, calculate_derived_metrics sort_by_date
                       (outlier_pass (prepared raw_days_table)) = Ok out
                     ∧ map date (rows out) = [1; 2; 3]%Z).
  { vm_compute. eexists. split; reflexivity. }
  destruct E as (out & E & Hdates).
  exists (outlier_pass (prepared raw_days_table)), out.
  split; [exact Ed|]. split; [exact E|]. split; [exact Hdates|].
  apply (processed_table_is_clean sort_by_date raw_days_table
           (outlier_pass (prepared raw_days_table)) out
           sort_by_date_perm sort_by_date_sorted Ed E).
Defined.
